(** * The store-api edge function: request dispatcher and its handlers

    A shallow embedding of [supabase/functions/store-api/index.ts].

    The function is one [Deno.serve] callback: a CORS preflight branch, a
    bearer-token check, the normalisation of the URL path, and then a chain of
    [if (method === ... && path ...)] blocks, each of which talks to the hosted
    database through the supabase-js query builder and answers with a JSON
    envelope.

    Layout of the development:
    - [Js]: the JavaScript values the code handles (numbers, JSON values,
      strings) and the few built-ins it calls;
    - [Pg]: the resource store: tables as lists of rows and the fragment of the
      query builder used by the handlers ([eq], [in], [gte], [order], [range],
      [single], [maybeSingle], [insert], [update], [delete]);
    - [StoreApi]: the request, the response, the routing and the handlers;
    - the properties. *)

From Stdlib Require Import List String Ascii ZArith QArith Qabs Qround Bool Lia Lqa DecimalString.
From Stdlib Require Import SpecFloat.
Import ListNotations.
Open Scope string_scope.
Set Warnings "-register-all".

(* ================================================================== *)
(** ** JavaScript values *)
(* ================================================================== *)

Module Js.

(** A JavaScript number: a finite value, given by the rational it denotes,
    [NaN] or one of the two infinities.  The two zeros are one value (no
    handler tells them apart: none divides by a zero, and [JSON.stringify]
    and [toFixed] print both alike).

    The arithmetic of the engine is that of binary64.  Amounts and ratios go
    through it: [add64], [sub64], [mul64] and [div64] below round as the
    engine does.  Counters and the arithmetic on page numbers work on
    integers, where binary64 is exact below 2^53: they are written with the
    exact [add], [sub], [mul] and [div]. *)
Inductive num : Type :=
| Fin (q : Q)
| NaN
| PInf
| NInf.

Definition of_Z (z : Z) : num := Fin (inject_Z z).
Definition of_nat (n : nat) : num := of_Z (Z.of_nat n).

Definition zero : num := of_Z 0.
Definition hundred : num := of_Z 100.

Definition neg (a : num) : num :=
  match a with
  | Fin x => Fin (Qred (- x))
  | NaN => NaN
  | PInf => NInf
  | NInf => PInf
  end.

(** [a + b] on integers *)
Definition add (a b : num) : num :=
  match a, b with
  | Fin x, Fin y => Fin (Qred (x + y))
  | NaN, _ | _, NaN => NaN
  | PInf, NInf | NInf, PInf => NaN
  | PInf, _ | _, PInf => PInf
  | NInf, _ | _, NInf => NInf
  end.

(** [a - b] on integers *)
Definition sub (a b : num) : num := add a (neg b).

Definition sign_of (x : Q) : comparison := (0 ?= x)%Q.

(** [a * b] on integers *)
Definition mul (a b : num) : num :=
  match a, b with
  | Fin x, Fin y => Fin (Qred (x * y))
  | NaN, _ | _, NaN => NaN
  | Fin x, PInf | PInf, Fin x =>
      match sign_of x with Lt => PInf | Gt => NInf | Eq => NaN end
  | Fin x, NInf | NInf, Fin x =>
      match sign_of x with Lt => NInf | Gt => PInf | Eq => NaN end
  | PInf, PInf | NInf, NInf => PInf
  | PInf, NInf | NInf, PInf => NInf
  end.

(** [a / b] of two counts, as the quotient it denotes; a finite number
    divided by zero is an infinity, [0 / 0] is [NaN]. *)
Definition div (a b : num) : num :=
  match a, b with
  | Fin x, Fin y =>
      if Qeq_bool y 0 then
        match sign_of x with Lt => PInf | Gt => NInf | Eq => NaN end
      else Fin (Qred (x / y))
  | NaN, _ | _, NaN => NaN
  | Fin _, (PInf | NInf) => zero
  | (PInf | NInf), (PInf | NInf) => NaN
  | PInf, Fin y => match sign_of y with Gt => NInf | _ => PInf end
  | NInf, Fin y => match sign_of y with Gt => PInf | _ => NInf end
  end.

(** [a < b]; every comparison with [NaN] is false. *)
Definition ltb (a b : num) : bool :=
  match a, b with
  | Fin x, Fin y => negb (Qle_bool y x)
  | NaN, _ | _, NaN => false
  | NInf, (Fin _ | PInf) => true
  | Fin _, PInf => true
  | _, _ => false
  end.

(** [a > b] *)
Definition gtb (a b : num) : bool := ltb b a.

(** [a <= b] *)
Definition leb (a b : num) : bool :=
  match a, b with
  | NaN, _ | _, NaN => false
  | _, _ => negb (ltb b a)
  end.

(** [a === b] on numbers. *)
Definition num_eqb (a b : num) : bool :=
  match a, b with
  | Fin x, Fin y => Qeq_bool x y
  | PInf, PInf | NInf, NInf => true
  | _, _ => false
  end.

(** [Math.min(a, b)] *)
Definition Math_min (a b : num) : num :=
  match a, b with
  | NaN, _ | _, NaN => NaN
  | _, _ => if ltb b a then b else a
  end.

(** [Math.max(a, b)] *)
Definition Math_max (a b : num) : num :=
  match a, b with
  | NaN, _ | _, NaN => NaN
  | _, _ => if ltb a b then b else a
  end.

(** [Math.ceil(a)] *)
Definition Math_ceil (a : num) : num :=
  match a with
  | Fin x => of_Z (Qceiling x)
  | other => other
  end.

(** *** Binary64

    The numbers of the engine are IEEE 754 binary64 numbers, and its [+],
    [-], [*] and [/] round to the nearest of them, ties to even.  The
    operations are those of the Standard Library's [SpecFloat] at precision
    53 and maximal exponent 1024. *)

Definition prec : Z := 53.
Definition emax : Z := 1024.

(** The binary64 number nearest to a rational: what the engine holds once it
    has read a number from JSON. *)
Definition nearest (q : Q) : spec_float :=
  let round s n :=
    let '(m, e, l) := SFdiv_core_binary prec emax (Zpos n) 0 (Zpos (Qden q)) 0 in
    binary_round_aux prec emax s m e l in
  match Qnum q with
  | Z0 => S754_zero false
  | Zpos n => round false n
  | Zneg n => round true n
  end.

Definition to_binary64 (a : num) : spec_float :=
  match a with
  | Fin q => nearest q
  | NaN => S754_nan
  | PInf => S754_infinity false
  | NInf => S754_infinity true
  end.

(** The value a binary64 number denotes. *)
Definition of_binary64 (x : spec_float) : num :=
  match x with
  | S754_zero _ => zero
  | S754_infinity s => if s then NInf else PInf
  | S754_nan => NaN
  | S754_finite s m e =>
      Fin (Qred (inject_Z (if s then Zneg m else Zpos m) * Qpower (2 # 1) e))
  end.

(** [a + b] *)
Definition add64 (a b : num) : num :=
  of_binary64 (SFadd prec emax (to_binary64 a) (to_binary64 b)).

(** [a - b] *)
Definition sub64 (a b : num) : num :=
  of_binary64 (SFsub prec emax (to_binary64 a) (to_binary64 b)).

(** [a * b] *)
Definition mul64 (a b : num) : num :=
  of_binary64 (SFmul prec emax (to_binary64 a) (to_binary64 b)).

(** [a / b] *)
Definition div64 (a b : num) : num :=
  of_binary64 (SFdiv prec emax (to_binary64 a) (to_binary64 b)).

(** A JSON value; [undefined] is the [None] of [option json]. *)
Inductive json : Type :=
| JNull
| JBool (b : bool)
| JNum (n : num)
| JStr (s : string)
| JArr (items : list json)
| JObj (fields : list (string * json)).

Definition value : Type := option json.

(** Property lookup in the field list of an object. *)
Fixpoint assoc (k : string) (fields : list (string * json)) : value :=
  match fields with
  | [] => None
  | (k', v) :: rest => if String.eqb k k' then Some v else assoc k rest
  end.

(** [o.k] for a value [o] that is not nullish. *)
Definition prop (o : json) (k : string) : value :=
  match o with
  | JObj fields => assoc k fields
  | _ => None
  end.

(** An object literal: a property whose value is [undefined] is left out,
    as [JSON.stringify] leaves it out of what is sent or answered. *)
Fixpoint obj_fields (fields : list (string * value)) : list (string * json) :=
  match fields with
  | [] => []
  | (k, Some v) :: rest => (k, v) :: obj_fields rest
  | (_, None) :: rest => obj_fields rest
  end.

Definition obj (fields : list (string * value)) : json := JObj (obj_fields fields).

(** ToBoolean: [if (v)], [!v], [v || d], [v && e]. *)
Definition truthy (v : value) : bool :=
  match v with
  | None | Some JNull => false
  | Some (JBool b) => b
  | Some (JNum (Fin x)) => negb (Qeq_bool x 0)
  | Some (JNum NaN) => false
  | Some (JNum _) => true
  | Some (JStr s) => negb (String.eqb s "")
  | Some (JArr _) | Some (JObj _) => true
  end.

(** [v ?? d] *)
Definition nullish (v : value) (d : value) : value :=
  match v with
  | None | Some JNull => d
  | Some _ => v
  end.

(** [v || d] *)
Definition or_else (v : value) (d : value) : value :=
  if truthy v then v else d.

(** [s || d] for a string that may be [null] (the result of
    [searchParams.get]). *)
Definition str_or (s : option string) (d : string) : string :=
  match s with
  | Some x => if String.eqb x "" then d else x
  | None => d
  end.

(** *** Strings *)

Definition lower_ascii (c : ascii) : ascii :=
  let n := nat_of_ascii c in
  if (65 <=? n)%nat && (n <=? 90)%nat then ascii_of_nat (n + 32) else c.

(** [s.toLowerCase()].  Only the letters A-Z are mapped; no other character
    lower-cases to a letter of "completed" or "refunded", the two strings
    the result is compared with. *)
Fixpoint toLowerCase (s : string) : string :=
  match s with
  | EmptyString => EmptyString
  | String c rest => String (lower_ascii c) (toLowerCase rest)
  end.

(** [s.startsWith(p)] *)
Definition startsWith (s p : string) : bool := String.prefix p s.

Fixpoint drop (n : nat) (s : string) : string :=
  match n, s with
  | O, _ => s
  | S n', String _ rest => drop n' rest
  | S _, EmptyString => EmptyString
  end.

(** [s.slice(0, n)] *)
Definition slice0 (n : nat) (s : string) : string := substring 0 n s.

(** [s.replace(p, "")]: the first occurrence of [p] is removed. *)
Fixpoint remove_first (p s : string) : string :=
  if String.prefix p s then drop (String.length p) s
  else match s with
       | EmptyString => EmptyString
       | String c rest => String c (remove_first p rest)
       end.

(** [s.split("/")] *)
Fixpoint split_slash (s : string) : list string :=
  match s with
  | EmptyString => [EmptyString]
  | String c rest =>
      if Ascii.eqb c "/"%char then EmptyString :: split_slash rest
      else match split_slash rest with
           | [] => [String c EmptyString]
           | w :: ws => String c w :: ws
           end
  end.

(** [parts.join("/")] *)
Fixpoint join_slash (parts : list string) : string :=
  match parts with
  | [] => EmptyString
  | [w] => w
  | w :: ws => w ++ "/" ++ join_slash ws
  end.

(** [parts.indexOf(w)], with [None] for [-1]. *)
Fixpoint indexOf (w : string) (parts : list string) : option nat :=
  match parts with
  | [] => None
  | p :: rest =>
      if String.eqb p w then Some O
      else option_map S (indexOf w rest)
  end.

(** [parts[i]] *)
Definition at_index (i : nat) (parts : list string) : option string := nth_error parts i.

(** The character class [[a-zA-Z0-9-]] of the route patterns. *)
Definition id_char (c : ascii) : bool :=
  let n := nat_of_ascii c in
  ((97 <=? n)%nat && (n <=? 122)%nat)
  || ((65 <=? n)%nat && (n <=? 90)%nat)
  || ((48 <=? n)%nat && (n <=? 57)%nat)
  || (n =? 45)%nat.

(** A non-empty string of identifier characters: what [[a-zA-Z0-9-]+]
    matches in full. *)
Fixpoint all_id (s : string) : bool :=
  match s with
  | EmptyString => true
  | String c rest => id_char c && all_id rest
  end.

Definition is_id (s : string) : bool := negb (String.eqb s "") && all_id s.

(** The rest of [s] after its longest prefix of [id_char]s, and whether that
    prefix is non-empty. *)
Fixpoint skip_id (s : string) : bool * string :=
  match s with
  | String c rest =>
      if id_char c then (true, snd (skip_id rest)) else (false, s)
  | EmptyString => (false, EmptyString)
  end.

(** [s.match(/^pre[a-zA-Z0-9-]+suf$/)] for the patterns of the route table,
    where [suf] is empty or starts with a slash: the greedy run of identifier
    characters is then the only possible match of the class. *)
Definition match_id (pre suf s : string) : bool :=
  if String.prefix pre s then
    let '(some, rest) := skip_id (drop (String.length pre) s) in
    some && String.eqb rest suf
  else false.

End Js.

(* ================================================================== *)
(** ** The resource store *)
(* ================================================================== *)

(** The hosted database is reached through the supabase-js query builder.
    Its schema is not part of the repository, so a row is kept the way the
    handlers see it: an object from column names to JSON values.  A table is
    the list of its rows in storage order. *)

Module Pg.
Import Js.

Definition Row : Type := list (string * json).

(** [row.c]; a column the row does not carry reads as [null]. *)
Definition col (r : Row) (c : string) : json :=
  match assoc c r with
  | Some v => v
  | None => JNull
  end.

Fixpoint set_col (c : string) (v : json) (r : Row) : Row :=
  match r with
  | [] => [(c, v)]
  | (c', v') :: rest =>
      if String.eqb c c' then (c, v) :: rest else (c', v') :: set_col c v rest
  end.

(** The effect of [.update(changes)] on one row. *)
Definition patch (changes : list (string * json)) (r : Row) : Row :=
  fold_left (fun acc cv => set_col (fst cv) (snd cv) acc) changes r.

(** SQL equality of a column with a filter value: [null] (and an
    [undefined] filter value) equals nothing. *)
Definition pg_eq (c : json) (v : value) : bool :=
  match c, v with
  | JStr a, Some (JStr b) => String.eqb a b
  | JNum a, Some (JNum b) => num_eqb a b
  | JBool a, Some (JBool b) => Bool.eqb a b
  | _, _ => false
  end.

(** SQL [a <= b]; timestamps and dates are ISO-8601 texts, whose order is the
    order of the strings. *)
Definition pg_le (a b : json) : bool :=
  match a, b with
  | JStr x, JStr y => String.leb x y
  | JNum x, JNum y => leb x y
  | _, _ => false
  end.

(** [.eq(c, v)] *)
Definition eq (c : string) (v : value) (rows : list Row) : list Row :=
  filter (fun r => pg_eq (col r c) v) rows.

(** [.in(c, vs)] *)
Definition in_ (c : string) (vs : list json) (rows : list Row) : list Row :=
  filter (fun r => existsb (fun v => pg_eq (col r c) (Some v)) vs) rows.

(** [.gte(c, v)] *)
Definition gte (c : string) (v : json) (rows : list Row) : list Row :=
  filter (fun r => pg_le v (col r c)) rows.

(** [.lte(c, v)] *)
Definition lte (c : string) (v : json) (rows : list Row) : list Row :=
  filter (fun r => pg_le (col r c) v) rows.

(** Sort keys: ascending order puts [null] last. *)
Definition key_le (a b : json) : bool :=
  match a, b with
  | _, JNull => true
  | JNull, _ => false
  | JStr x, JStr y => String.leb x y
  | JNum x, JNum y => leb x y
  | JBool x, JBool y => implb x y
  | _, _ => true
  end.

Fixpoint insert_sorted (le : Row -> Row -> bool) (r : Row) (rows : list Row) : list Row :=
  match rows with
  | [] => [r]
  | x :: rest => if le r x then r :: rows else x :: insert_sorted le r rest
  end.

(** [.order(c, { ascending })], as a stable sort of the storage order. *)
Definition order (c : string) (ascending : bool) (rows : list Row) : list Row :=
  let le r x :=
    if ascending then key_le (col r c) (col x c) else key_le (col x c) (col r c) in
  fold_right (insert_sorted le) [] rows.

(** What awaiting a query yields: [{ data, error }]. *)
Definition PgError : Type := string.

Record reply (A : Type) : Type := mk_reply { data : option A; error : option PgError }.
Arguments mk_reply {A} _ _.
Arguments data {A} _.
Arguments error {A} _.

Definition ok {A : Type} (a : A) : reply A := mk_reply (Some a) None.
Definition no_rows {A : Type} : reply A := mk_reply None None.
Definition failed {A : Type} (e : PgError) : reply A := mk_reply None (Some e).

Definition not_single : PgError :=
  "JSON object requested, multiple (or no) rows returned".

(** [.single()]: exactly one row, anything else is an error. *)
Definition single (rows : list Row) : reply Row :=
  match rows with
  | [r] => ok r
  | _ => failed not_single
  end.

(** [.maybeSingle()]: no row is [null] without an error, several rows are an
    error. *)
Definition maybeSingle (rows : list Row) : reply Row :=
  match rows with
  | [] => no_rows
  | [r] => ok r
  | _ => failed not_single
  end.

(** [.range(from, to)]: the rows with index [from..to] of the result, none
    when the window is empty or lies beyond the result; the store rejects
    bounds that are not numbers. *)
Definition range (from to : num) (rows : list Row) : reply (list Row) :=
  match from, to with
  | Fin f, Fin t =>
      let lo := Qfloor f in
      let hi := Qfloor t in
      ok (firstn (Z.to_nat (hi - lo + 1)) (skipn (Z.to_nat lo) rows))
  | _, _ => failed "invalid range"
  end.

(** [.insert(row)]: the row goes to the end of the table. *)
Definition insert (r : Row) (rows : list Row) : list Row := (rows ++ [r])%list.

(** [.update(changes)] restricted by the filters [sel]. *)
Definition update (changes : list (string * json)) (sel : Row -> bool)
    (rows : list Row) : list Row :=
  map (fun r => if sel r then patch changes r else r) rows.

(** [.delete()] restricted by the filters [sel]. *)
Definition delete (sel : Row -> bool) (rows : list Row) : list Row :=
  filter (fun r => negb (sel r)) rows.

(** The tables the embedded handlers touch, and the number of rows the
    store has generated an identifier for. *)
Record Db : Type := mk_db {
  stores : list Row;
  products : list Row;
  social_accounts : list Row;
  product_reviews : list Row;
  review_questions : list Row;
  review_answers : list Row;
  transactions : list Row;
  seller_expenses : list Row;
  serial : nat
}.

Definition with_stores (t : list Row) (db : Db) : Db :=
  mk_db t (products db) (social_accounts db) (product_reviews db)
        (review_questions db) (review_answers db) (transactions db)
        (seller_expenses db) (serial db).

Definition with_products (t : list Row) (db : Db) : Db :=
  mk_db (stores db) t (social_accounts db) (product_reviews db)
        (review_questions db) (review_answers db) (transactions db)
        (seller_expenses db) (serial db).

Definition with_social_accounts (t : list Row) (db : Db) : Db :=
  mk_db (stores db) (products db) t (product_reviews db)
        (review_questions db) (review_answers db) (transactions db)
        (seller_expenses db) (serial db).

Definition with_product_reviews (t : list Row) (db : Db) : Db :=
  mk_db (stores db) (products db) (social_accounts db) t
        (review_questions db) (review_answers db) (transactions db)
        (seller_expenses db) (serial db).

Definition with_review_questions (t : list Row) (db : Db) : Db :=
  mk_db (stores db) (products db) (social_accounts db) (product_reviews db)
        t (review_answers db) (transactions db)
        (seller_expenses db) (serial db).

Definition with_review_answers (t : list Row) (db : Db) : Db :=
  mk_db (stores db) (products db) (social_accounts db) (product_reviews db)
        (review_questions db) t (transactions db)
        (seller_expenses db) (serial db).

Definition with_seller_expenses (t : list Row) (db : Db) : Db :=
  mk_db (stores db) (products db) (social_accounts db) (product_reviews db)
        (review_questions db) (review_answers db) (transactions db)
        t (serial db).

Definition with_serial (n : nat) (db : Db) : Db :=
  mk_db (stores db) (products db) (social_accounts db) (product_reviews db)
        (review_questions db) (review_answers db) (transactions db)
        (seller_expenses db) n.

Definition empty_db : Db := mk_db [] [] [] [] [] [] [] [] 0.

End Pg.

(* ================================================================== *)
(** ** The edge function *)
(* ================================================================== *)

Module StoreApi.
Import Js Pg.

(** What the function takes from its surroundings: the identity provider,
    the identifiers the store generates, the clock, and the built-ins of the
    engine whose definition lies outside the repository. *)
Record Runtime : Type := mk_runtime {
  (** [supabase.auth.getUser(token)]: the user's id, or [None] when the call
      reports an error or no user. *)
  getUser : string -> option string;
  (** the identifier the store gives to the [n]-th inserted row *)
  gen_random_uuid : nat -> string;
  (** [Date.now()] *)
  Date_now : Z;
  (** [new Date(ms).toISOString()] *)
  toISOString : Z -> string;
  (** [new Date().getFullYear()] *)
  getFullYear : Z;
  (** [parseInt(s)] *)
  parseInt : string -> num;
  (** [Number(v)] for a string, an array or an object *)
  ToNumber : json -> num;
  (** [String(n)] *)
  ToString : num -> string;
  (** [n.toFixed(digits)] *)
  toFixed : num -> nat -> string
}.

Record Request : Type := mk_request {
  method : string;
  (** [req.headers.get("Authorization")] *)
  Authorization : option string;
  (** [new URL(req.url).pathname] *)
  pathname : string;
  (** [url.searchParams], in order *)
  searchParams : list (string * string);
  (** [await req.json()]: the parsed body, or the message of the error it
      rejects with *)
  body : string + json
}.

Record Response : Type := mk_response {
  status : Z;
  headers : list (string * string);
  (** the value given to [JSON.stringify], [None] for a [null] body *)
  payload : option json
}.

(** What a [throw] inside the [try] block carries: an [Error] instance or
    the plain error object of a query. *)
Inductive Thrown : Type :=
| JsError (message : string)
| QueryError (e : PgError).

Inductive Outcome : Type :=
| Respond (r : Response)
| Throw (t : Thrown).

Definition corsHeaders : list (string * string) :=
  [("Access-Control-Allow-Origin", "*");
   ("Access-Control-Allow-Headers",
    "authorization, x-client-info, apikey, content-type, x-supabase-client-platform, x-supabase-client-platform-version, x-supabase-client-runtime, x-supabase-client-runtime-version")].

Definition jsonHeaders : list (string * string) :=
  corsHeaders ++ [("Content-Type", "application/json")].

(** [new Response(JSON.stringify(b), { status, headers })] *)
Definition respond (st : Z) (b : json) : Outcome :=
  Respond (mk_response st jsonHeaders (Some b)).

(** [{ success: false, error: msg }] with the given status. *)
Definition failure (st : Z) (msg : string) : Outcome :=
  respond st (JObj [("success", JBool false); ("error", JStr msg)]).

(** [{ success: true, data }] *)
Definition success (st : Z) (d : json) : Outcome :=
  respond st (JObj [("success", JBool true); ("data", d)]).

Definition rows_json (rows : list Row) : json := JArr (map JObj rows).

(** [url.searchParams.get(k)] *)
Fixpoint get (k : string) (params : list (string * string)) : option string :=
  match params with
  | [] => None
  | (k', v) :: rest => if String.eqb k k' then Some v else get k rest
  end.

(** [Number(v)] *)
Definition Number (rt : Runtime) (v : value) : num :=
  match v with
  | None => NaN
  | Some JNull => zero
  | Some (JBool b) => if b then of_Z 1 else zero
  | Some (JNum n) => n
  | Some other => ToNumber rt other
  end.

(** [n || 0] *)
Definition or_zero (n : num) : num :=
  if truthy (Some (JNum n)) then n else zero.

(** [new Date().toISOString()] *)
Definition now_iso (rt : Runtime) : json := JStr (toISOString rt (Date_now rt)).

(** [new Date(Date.now() - days * 86400000).toISOString().slice(0, 10)] *)
Definition date_days_ago (rt : Runtime) (days : Z) : string :=
  slice0 10 (toISOString rt (Date_now rt - days * 86400000)).

(** [new Date().toISOString().slice(0, 10)] *)
Definition today (rt : Runtime) : string :=
  slice0 10 (toISOString rt (Date_now rt)).

(** [s.padStart(2, "0")] *)
Definition padStart2 (s : string) : string :=
  match String.length s with
  | O => "00"
  | S O => "0" ++ s
  | _ => s
  end.

(** The path the routes are matched against:
    [pathParts = url.pathname.split("/").filter(Boolean)],
    [fnIdx = pathParts.indexOf("store-api")] and
    [fnIdx >= 0 ? "/" + (pathParts.slice(fnIdx + 1).join("/") || "") : url.pathname]. *)
Definition route_path (pathname : string) : string :=
  let pathParts := filter (fun w => negb (String.eqb w "")) (split_slash pathname) in
  match indexOf "store-api" pathParts with
  | Some fnIdx => "/" ++ join_slash (skipn (S fnIdx) pathParts)
  | None => pathname
  end.

(** [path.split("/")[i]]; the patterns that guard its uses make the segment
    exist. *)
Definition segment (i : nat) (path : string) : string :=
  match at_index i (split_slash path) with
  | Some w => w
  | None => ""
  end.

(** The blocks of the [if] chain, in the order of the source. *)
Inductive Route : Type :=
| GetStore | CreateStore | UpdateStore
| ListProducts | CreateProduct | UpdateProduct | DeleteProduct
| ListSocial | ConnectSocial | DisconnectSocial
| ListReviews | ReviewAnalytics | RespondReview | SetReviewStatus
| RequestableOrders | RequestReviews | SetAutoRequest | GetAutoRequest
| ListQuestions | AnswerQuestion | BulkUpdateReviews
| FinancialDashboard | ListExpenses | CreateExpense | UpdateExpense | DeleteExpense
| ProfitLoss
| ListConversations | GetConversation | SendChatMessage
| ListTickets | CreateTicket | GetTicket | SendTicketMessage
| InstantPayout | ListIntegrations | ConnectIntegration
| TaxReport
| NotFound.

Definition root (path : string) : bool :=
  String.eqb path "" || String.eqb path "/".

(** The first block whose condition holds. *)
Definition route (method path : string) : Route :=
  let on m := String.eqb method m in
  let at_ p := String.eqb path p in
  if on "GET" && root path then GetStore
  else if on "POST" && root path then CreateStore
  else if on "PUT" && root path then UpdateStore
  else if on "GET" && at_ "/products" then ListProducts
  else if on "POST" && at_ "/products" then CreateProduct
  else if on "PUT" && startsWith path "/products/" then UpdateProduct
  else if on "DELETE" && startsWith path "/products/" then DeleteProduct
  else if on "GET" && at_ "/social" then ListSocial
  else if on "POST" && at_ "/social" then ConnectSocial
  else if on "DELETE" && startsWith path "/social/" then DisconnectSocial
  else if on "GET" && at_ "/reviews" then ListReviews
  else if on "GET" && at_ "/reviews/analytics" then ReviewAnalytics
  else if on "POST" && match_id "/reviews/" "/respond" path then RespondReview
  else if on "PATCH" && match_id "/reviews/" "/status" path then SetReviewStatus
  else if on "GET" && at_ "/reviews/requestable-orders" then RequestableOrders
  else if on "POST" && at_ "/reviews/request" then RequestReviews
  else if on "POST" && at_ "/reviews/auto-request/config" then SetAutoRequest
  else if on "GET" && at_ "/reviews/auto-request/config" then GetAutoRequest
  else if on "GET" && at_ "/reviews/questions" then ListQuestions
  else if on "POST" && match_id "/questions/" "/answer" path then AnswerQuestion
  else if on "POST" && at_ "/reviews/bulk-update" then BulkUpdateReviews
  else if on "GET" && at_ "/financial/dashboard" then FinancialDashboard
  else if on "GET" && at_ "/financial/expenses" then ListExpenses
  else if on "POST" && at_ "/financial/expenses" then CreateExpense
  else if on "PATCH" && match_id "/financial/expenses/" "" path then UpdateExpense
  else if on "DELETE" && match_id "/financial/expenses/" "" path then DeleteExpense
  else if on "GET" && at_ "/financial/reports/profit-loss" then ProfitLoss
  else if on "GET" && at_ "/chat/conversations" then ListConversations
  else if on "GET" && match_id "/chat/conversations/" "" path then GetConversation
  else if on "POST" && match_id "/chat/conversations/" "/messages" path then SendChatMessage
  else if on "GET" && at_ "/support/tickets" then ListTickets
  else if on "POST" && at_ "/support/tickets" then CreateTicket
  else if on "GET" && match_id "/support/tickets/" "" path then GetTicket
  else if on "POST" && match_id "/support/tickets/" "/messages" path then SendTicketMessage
  else if on "POST" && at_ "/financial/payouts/instant" then InstantPayout
  else if on "GET" && at_ "/financial/integrations" then ListIntegrations
  else if on "POST" && match_id "/financial/integrations/" "/connect" path then ConnectIntegration
  else if on "GET" && at_ "/financial/reports/tax" then TaxReport
  else NotFound.

(** *** Handlers

    A handler runs against the store and either answers or throws; what it
    wrote before throwing stays written (no transaction spans a request). *)

Definition Handler : Type := Db -> Db * Outcome.

(** [await req.json()], whose result is then destructured. *)
Definition with_body (req : Request) (k : json -> Handler) : Handler :=
  fun db =>
    match body req with
    | inl msg => (db, Throw (JsError msg))
    | inr JNull => (db, Throw (JsError "Cannot destructure property of null"))
    | inr b => k b db
    end.

(** [.eq("seller_id", userId)] and the like. *)
Definition text (s : string) : value := Some (JStr s).

(** The row [.insert(fields).select().single()] stores and returns: the
    fields sent, under a fresh identifier. *)
Definition new_row (rt : Runtime) (db : Db) (fields : list (string * value)) : Row :=
  ("id", JStr (gen_random_uuid rt (serial db))) :: obj_fields fields.

Definition next_serial (db : Db) : Db := with_serial (S (serial db)) db.

(** [.update(changes).eq(...).select().single()]: the store refuses the
    request, and changes nothing, unless exactly one row is selected. *)
Definition update_single (changes : list (string * json)) (sel : Row -> bool)
    (rows : list Row) : list Row * reply Row :=
  match filter sel rows with
  | [r] => (update changes sel rows, ok (patch changes r))
  | _ => (rows, failed not_single)
  end.

(** A joined column [name(cols)] of a select: the listed columns of the row
    of [target] that [r.fk] points to, or [null]. *)
Definition embed (name fk : string) (cols : list string) (target : list Row)
    (r : Row) : Row :=
  let joined :=
    match eq "id" (Some (col r fk)) target with
    | p :: _ => JObj (map (fun c => (c, col p c)) cols)
    | [] => JNull
    end in
  set_col name joined r.

(** The key an object is indexed with when the index is the value [v]. *)
Definition property_key (rt : Runtime) (v : json) : string :=
  match v with
  | JStr s => s
  | JNum n => ToString rt n
  | JBool true => "true"
  | JBool false => "false"
  | JNull => "null"
  | JArr _ | JObj _ => "[object Object]"
  end.

(** **** POST / : create the caller's store *)
Definition create_store (rt : Runtime) (userId : string) (req : Request) : Handler :=
  with_body req (fun b db =>
    let name := prop b "name" in
    let slug := prop b "slug" in
    let bio := prop b "bio" in
    let logo := prop b "logo" in
    if negb (truthy name) || negb (truthy slug) then
      (db, failure 400 "Name and slug are required")
    else
      (* Check if user already has a store *)
      let existing := data (maybeSingle (eq "seller_id" (text userId) (stores db))) in
      match existing with
      | Some _ => (db, failure 400 "User already has a store")
      | None =>
          (* Check if slug is taken *)
          let slugExists := data (maybeSingle (eq "slug" slug (stores db))) in
          match slugExists with
          | Some _ => (db, failure 400 "Slug already taken")
          | None =>
              let store :=
                new_row rt db
                  [("seller_id", text userId); ("name", name); ("slug", slug);
                   ("bio", bio); ("logo", logo);
                   ("status", text "inactive"); ("visibility", text "PRIVATE")] in
              (next_serial (with_stores (insert store (stores db)) db),
               success 201 (JObj store))
          end
      end).

(** **** GET /products *)
Definition list_products (userId : string) (req : Request) : Handler :=
  fun db =>
    let status := str_or (get "status" (searchParams req)) "all" in
    let store := data (maybeSingle (eq "seller_id" (text userId) (stores db))) in
    match store with
    | None => (db, success 200 (JArr []))
    | Some store =>
        let query := eq "store_id" (Some (col store "id")) (products db) in
        let query :=
          if negb (String.eqb status "all") then eq "status" (text status) query
          else query in
        let products := order "updated_at" false query in
        (db, success 200 (rows_json products))
    end.

(** The object [{ ...(a && { a }), ...(b !== undefined && { b }), ... }] of
    an update: [when_truthy] and [when_defined] are the two guards. *)
Definition when_truthy (k : string) (v : value) : list (string * json) :=
  match v with
  | Some x => if truthy v then [(k, x)] else []
  | None => []
  end.

Definition when_defined (k : string) (v : value) : list (string * json) :=
  match v with
  | Some x => [(k, x)]
  | None => []
  end.

(** **** PUT /products/:id *)
Definition update_product (rt : Runtime) (req : Request) (path : string) : Handler :=
  let productId := remove_first "/products/" path in
  with_body req (fun b db =>
    let changes :=
      (when_truthy "name" (prop b "name")
       ++ when_defined "description" (prop b "description")
       ++ when_defined "price" (prop b "price")
       ++ when_defined "images" (prop b "images")
       ++ when_truthy "status" (prop b "status")
       ++ [("updated_at", now_iso rt)])%list in
    let '(rows, r) :=
      update_single changes (fun p => pg_eq (col p "id") (text productId))
        (products db) in
    match error r, data r with
    | Some e, _ => (with_products rows db, Throw (QueryError e))
    | None, Some product => (with_products rows db, success 200 (JObj product))
    | None, None => (with_products rows db, success 200 JNull)
    end).

(** **** DELETE /products/:id *)
Definition delete_product (path : string) : Handler :=
  fun db =>
    let productId := remove_first "/products/" path in
    (with_products
       (delete (fun p => pg_eq (col p "id") (text productId)) (products db)) db,
     respond 200 (JObj [("success", JBool true); ("message", JStr "Product deleted")])).

(** **** GET /social *)
Definition list_social (userId : string) : Handler :=
  fun db =>
    let store := data (maybeSingle (eq "seller_id" (text userId) (stores db))) in
    match store with
    | None => (db, success 200 (JArr []))
    | Some store =>
        let accounts := eq "store_id" (Some (col store "id")) (social_accounts db) in
        (db, success 200 (rows_json accounts))
    end.

(** **** DELETE /social/:id *)
Definition disconnect_social (path : string) : Handler :=
  fun db =>
    let accountId := remove_first "/social/" path in
    (with_social_accounts
       (delete (fun a => pg_eq (col a "id") (text accountId)) (social_accounts db)) db,
     respond 200
       (JObj [("success", JBool true); ("message", JStr "Account disconnected")])).

(** *** Pagination of the list endpoints *)

(** [parseInt(url.searchParams.get("page") || "1")] *)
Definition page_of (rt : Runtime) (req : Request) : num :=
  parseInt rt (str_or (get "page" (searchParams req)) "1").

(** [Math.min(parseInt(url.searchParams.get("limit") || "50"), 100)] *)
Definition limit_of (rt : Runtime) (req : Request) : num :=
  Math_min (parseInt rt (str_or (get "limit" (searchParams req)) "50")) hundred.

(** [.range((page - 1) * limit, page * limit - 1)] *)
Definition page_window (page limit : num) (rows : list Row) : reply (list Row) :=
  range (mul (sub page (of_Z 1)) limit) (sub (mul page limit) (of_Z 1)) rows.

(** [{ page, limit, total: count || 0, pages: Math.ceil((count || 0) / limit) }] *)
Definition pagination (page limit : num) (count : nat) : json :=
  JObj [("page", JNum page);
        ("limit", JNum limit);
        ("total", JNum (or_zero (of_nat count)));
        ("pages", JNum (Math_ceil (div (or_zero (of_nat count)) limit)))].

(** The rows GET /reviews selects, before the page is cut out. *)
Definition reviews_query (rt : Runtime) (userId : string) (req : Request)
    (db : Db) : list Row :=
  let params := searchParams req in
  let status := str_or (get "status" params) "all" in
  let rating := str_or (get "rating" params) "" in
  let productId := str_or (get "product_id" params) "" in
  let sort := str_or (get "sort" params) "recent" in
  let q := eq "seller_id" (text userId) (product_reviews db) in
  let q := if negb (String.eqb status "all") then eq "status" (text status) q else q in
  let q :=
    if negb (String.eqb rating "")
    then eq "rating" (Some (JNum (parseInt rt rating))) q else q in
  let q :=
    if negb (String.eqb productId "") then eq "product_id" (text productId) q else q in
  if String.eqb sort "rating_high" then order "rating" false q
  else if String.eqb sort "rating_low" then order "rating" true q
  else order "created_at" false q.

(** **** GET /reviews *)
Definition list_reviews (rt : Runtime) (userId : string) (req : Request) : Handler :=
  fun db =>
    let page := page_of rt req in
    let limit := limit_of rt req in
    let q := reviews_query rt userId req db in
    let r := page_window page limit q in
    let count := List.length q in
    match error r with
    | Some e => (db, Throw (QueryError e))
    | None =>
        let reviews := match data r with Some rows => rows | None => [] end in
        (db, success 200
               (JObj [("reviews",
                       rows_json
                         (map (embed "products" "product_id" ["id"; "name"; "images"]
                                 (products db)) reviews));
                      ("pagination", pagination page limit count)]))
    end.

(** *** Questions and answers *)

(** [ansByQ]: the answers grouped under their question's id, built by
    [if (!ansByQ[k]) ansByQ[k] = []; ansByQ[k].push(a)]. *)
Fixpoint push_answer (k : string) (a : Row) (groups : list (string * list Row))
    : list (string * list Row) :=
  match groups with
  | [] => [(k, [a])]
  | (k', g) :: rest =>
      if String.eqb k k' then (k', (g ++ [a])%list) :: rest
      else (k', g) :: push_answer k a rest
  end.

Fixpoint group_of (k : string) (groups : list (string * list Row)) : list Row :=
  match groups with
  | [] => []
  | (k', g) :: rest => if String.eqb k k' then g else group_of k rest
  end.

Definition no_question : json := JStr "00000000-0000-0000-0000-000000000000".

(** **** GET /reviews/questions *)
Definition list_questions (rt : Runtime) (userId : string) : Handler :=
  fun db =>
    let store := data (maybeSingle (eq "seller_id" (text userId) (stores db))) in
    match store with
    | None => (db, success 200 (JArr []))
    | Some store =>
        let products := eq "store_id" (Some (col store "id")) (products db) in
        let productIds := map (fun p => col p "id") products in
        match productIds with
        | [] => (db, success 200 (JArr []))
        | _ =>
            let questions :=
              map (embed "products" "product_id" ["id"; "name"] (Pg.products db))
                (order "created_at" false
                   (eq "is_answered" (Some (JBool false))
                      (in_ "product_id" productIds (review_questions db)))) in
            let qIds := map (fun q => col q "id") questions in
            let answers :=
              in_ "question_id"
                (match qIds with [] => [no_question] | _ => qIds end)
                (review_answers db) in
            let ansByQ :=
              fold_left
                (fun acc a => push_answer (property_key rt (col a "question_id")) a acc)
                answers [] in
            let withAnswers :=
              map (fun q =>
                     set_col "answers"
                       (rows_json (group_of (property_key rt (col q "id")) ansByQ)) q)
                questions in
            (db, success 200 (rows_json withAnswers))
        end
    end.

(** [answer.length]: the length of a string or an array, the property of
    that name of an object, [undefined] on a number or a boolean. *)
Definition length_of (v : json) : value :=
  match v with
  | JStr s => Some (JNum (of_nat (String.length s)))
  | JArr items => Some (JNum (of_nat (List.length items)))
  | JObj fields => assoc "length" fields
  | _ => None
  end.

(** [answer.slice(0, n)] exists on strings and arrays only. *)
Definition slice_of (n : nat) (v : json) : option json :=
  match v with
  | JStr s => Some (JStr (slice0 n s))
  | JArr items => Some (JArr (firstn n items))
  | _ => None
  end.

(** [a !== b] between a column and the caller's id. *)
Definition is_user (c : json) (userId : string) : bool :=
  match c with
  | JStr s => String.eqb s userId
  | _ => false
  end.

(** The store of the product a question is about, through the two
    [.single()] lookups of the handler; [product?.store_id] is [undefined]
    when the first finds nothing. *)
Definition store_of_question (db : Db) (q : Row) : option Row :=
  let product :=
    data (single (eq "id" (Some (col q "product_id")) (products db))) in
  data (single (eq "id" (option_map (fun p => col p "store_id") product)
                  (stores db))).

(** **** POST /questions/:id/answer *)
Definition answer_question (rt : Runtime) (userId : string) (req : Request)
    (path : string) : Handler :=
  let questionId := segment 2 path in
  with_body req (fun b db =>
    let answer := prop b "answer" in
    let too_short :=
      match answer with
      | Some a => ltb (Number rt (length_of a)) (of_Z 5)
      | None => false
      end in
    if negb (truthy answer) || too_short then
      (db, failure 400 "Answer min 5 chars")
    else
      let q := data (single (eq "id" (text questionId) (review_questions db))) in
      match q with
      | None => (db, failure 404 "Question not found")
      | Some q =>
          let store := store_of_question db q in
          let owned :=
            match store with
            | Some st => is_user (col st "seller_id") userId
            | None => false
            end in
          if negb owned then (db, failure 403 "Unauthorized")
          else
            match answer with
            | Some ans =>
                match slice_of 2000 ans with
                | Some cut =>
                    let a :=
                      new_row rt db
                        [("question_id", text questionId);
                         ("answerer_id", text userId);
                         ("answerer_type", text "seller");
                         ("answer", Some cut);
                         ("is_official", Some (JBool true))] in
                    let db1 :=
                      next_serial
                        (with_review_answers (insert a (review_answers db)) db) in
                    let db2 :=
                      with_review_questions
                        (update [("is_answered", JBool true)]
                           (fun r => pg_eq (col r "id") (text questionId))
                           (review_questions db1)) db1 in
                    (db2, success 200 (JObj a))
                | None => (db, Throw (JsError "answer.slice is not a function"))
                end
            | None => (db, Throw (JsError "answer.slice is not a function"))
            end
      end).

(** [["approved", "rejected"].includes(v)] *)
Definition moderation_status (v : value) : bool :=
  match v with
  | Some (JStr s) => String.eqb s "approved" || String.eqb s "rejected"
  | _ => false
  end.

Definition is_approved (v : value) : bool :=
  match v with
  | Some (JStr s) => String.eqb s "approved"
  | _ => false
  end.

(** **** POST /reviews/bulk-update *)
Definition bulk_update_reviews (rt : Runtime) (userId : string) (req : Request) : Handler :=
  with_body req (fun b db =>
    let newStatus := prop b "status" in
    match prop b "review_ids", newStatus with
    | Some (JArr review_ids), Some status =>
        if moderation_status newStatus then
          let changes :=
            [("status", status);
             ("is_published", JBool (is_approved newStatus));
             ("published_at", if is_approved newStatus then now_iso rt else JNull);
             ("moderation_status", JStr "reviewed");
             ("updated_at", now_iso rt)] in
          let sel r :=
            pg_eq (col r "seller_id") (text userId)
            && existsb (fun v => pg_eq (col r "id") (Some v)) review_ids in
          (with_product_reviews (update changes sel (product_reviews db)) db,
           respond 200
             (JObj [("success", JBool true);
                    ("updated", JNum (of_nat (List.length review_ids)))]))
        else (db, failure 400 "review_ids array and status required")
    | _, _ => (db, failure 400 "review_ids array and status required")
    end).

(** *** Financial aggregation

    The dashboard, the profit-and-loss report and the tax report repeat the
    same expressions over [txRows] and [expenseRows]; they are written once
    here. *)

(** [(t.status || "").toLowerCase()]; [status] is a text column. *)
Definition status_of (t : Row) : string :=
  match col t "status" with
  | JStr s => toLowerCase s
  | _ => ""
  end.

(** [(txRows || []).filter((t) => (t.status || "").toLowerCase() === "completed")] *)
Definition completed (txRows : list Row) : list Row :=
  filter (fun t => String.eqb (status_of t) "completed") txRows.

(** [(txRows || []).filter((t) => (t.status || "").toLowerCase() === "refunded")] *)
Definition refunded (txRows : list Row) : list Row :=
  filter (fun t => String.eqb (status_of t) "refunded") txRows.

(** [rows.reduce((s, t) => s + f(t), 0)] *)
Definition reduce_sum (f : Row -> num) (rows : list Row) : num :=
  fold_left (fun s t => add64 s (f t)) rows zero.

(** [Number(t.seller_payout ?? t.amount ?? 0)] *)
Definition payout_of (rt : Runtime) (t : Row) : num :=
  Number rt
    (nullish (Some (col t "seller_payout"))
       (nullish (Some (col t "amount")) (Some (JNum zero)))).

(** [Number(t.amount ?? 0)] *)
Definition amount_of (rt : Runtime) (t : Row) : num :=
  Number rt (nullish (Some (col t "amount")) (Some (JNum zero))).

(** [Number(t.platform_fee ?? 0)] *)
Definition fee_of (rt : Runtime) (t : Row) : num :=
  Number rt (nullish (Some (col t "platform_fee")) (Some (JNum zero))).

(** [Number(e.amount) || 0] *)
Definition expense_of (rt : Runtime) (e : Row) : num :=
  or_zero (Number rt (Some (col e "amount"))).

(** The transactions of the caller created within [startDate .. endDate]. *)
Definition txRows_of (userId startDate endDate : string) (db : Db) : list Row :=
  lte "created_at" (JStr (endDate ++ "T23:59:59"))
    (gte "created_at" (JStr startDate)
       (eq "seller_id" (text userId) (transactions db))).

(** The active expenses of the caller dated within [startDate .. endDate]. *)
Definition expenseRows_of (userId startDate endDate : string) (db : Db) : list Row :=
  lte "expense_date" (JStr endDate)
    (gte "expense_date" (JStr startDate)
       (eq "status" (text "active")
          (eq "seller_id" (text userId) (seller_expenses db)))).

(** [revenue > 0 ? ((netProfit / revenue) * 100).toFixed(2) : "0"] *)
Definition profitMargin (rt : Runtime) (revenue netProfit : num) : string :=
  if gtb revenue zero
  then toFixed rt (mul64 (div64 netProfit revenue) hundred) 2
  else "0".

(** [period === "7d" ? 7 : period === "90d" ? 90 : period === "1y" ? 365 : 30] *)
Definition period_days (req : Request) : Z :=
  let period := str_or (get "period" (searchParams req)) "30d" in
  if String.eqb period "7d" then 7%Z
  else if String.eqb period "90d" then 90%Z
  else if String.eqb period "1y" then 365%Z
  else 30%Z.

(** **** GET /financial/dashboard *)
Definition financial_dashboard (rt : Runtime) (userId : string) (req : Request) : Handler :=
  fun db =>
    let days := period_days req in
    let startDate := date_days_ago rt days in
    let endDate := today rt in
    let txRows := txRows_of userId startDate endDate db in
    let revenue := reduce_sum (payout_of rt) (completed txRows) in
    let refunds := reduce_sum (amount_of rt) (refunded txRows) in
    let commission := reduce_sum (fee_of rt) (completed txRows) in
    let expenseRows := expenseRows_of userId startDate endDate db in
    let expenses := reduce_sum (expense_of rt) expenseRows in
    let grossProfit := sub64 revenue refunds in
    let netProfit := sub64 grossProfit expenses in
    (db, success 200
           (JObj [("summary",
                   JObj [("revenue", JNum revenue);
                         ("refunds", JNum refunds);
                         ("gross_profit", JNum grossProfit);
                         ("commission", JNum commission);
                         ("payment_fees", JNum zero);
                         ("expenses", JNum expenses);
                         ("net_revenue", JNum grossProfit);
                         ("net_profit", JNum netProfit);
                         ("profit_margin", JStr (profitMargin rt revenue netProfit))]);
                  ("trend", JArr []);
                  ("breakdown", JArr [])])).

(** The rows GET /financial/expenses selects, before the page is cut out. *)
Definition expenses_query (userId : string) (req : Request) (db : Db) : list Row :=
  let params := searchParams req in
  let category := str_or (get "category" params) "" in
  let startDate := str_or (get "start_date" params) "" in
  let endDate := str_or (get "end_date" params) "" in
  let q := eq "status" (text "active") (eq "seller_id" (text userId) (seller_expenses db)) in
  let q := if negb (String.eqb category "") then eq "category" (text category) q else q in
  let q := if negb (String.eqb startDate "") then gte "expense_date" (JStr startDate) q else q in
  let q := if negb (String.eqb endDate "") then lte "expense_date" (JStr endDate) q else q in
  order "expense_date" false q.

(** **** GET /financial/expenses *)
Definition list_expenses (rt : Runtime) (userId : string) (req : Request) : Handler :=
  fun db =>
    let page := page_of rt req in
    let limit := limit_of rt req in
    let q := expenses_query userId req db in
    let r := page_window page limit q in
    let count := List.length q in
    match error r with
    | Some e => (db, Throw (QueryError e))
    | None =>
        let expenses := match data r with Some rows => rows | None => [] end in
        (db, success 200
               (JObj [("expenses", rows_json expenses);
                      ("pagination", pagination page limit count)]))
    end.

(** **** DELETE /financial/expenses/:id *)
Definition delete_expense (rt : Runtime) (userId : string) (path : string) : Handler :=
  fun db =>
    let expenseId := segment 3 path in
    (with_seller_expenses
       (update [("status", JStr "deleted"); ("updated_at", now_iso rt)]
          (fun e => pg_eq (col e "id") (text expenseId)
                    && pg_eq (col e "seller_id") (text userId))
          (seller_expenses db)) db,
     respond 200 (JObj [("success", JBool true)])).

(** [byCategory[cat] = (byCategory[cat] || 0) + x] *)
Fixpoint add_to_category (cat : string) (x : num) (totals : list (string * json))
    : list (string * json) :=
  match totals with
  | [] => [(cat, JNum (add64 zero x))]
  | (c, v) :: rest =>
      if String.eqb cat c then
        (c, JNum (add64 (match v with JNum n => or_zero n | _ => zero end) x)) :: rest
      else (c, v) :: add_to_category cat x rest
  end.

(** [e.category || "other"] *)
Definition category_of (rt : Runtime) (e : Row) : string :=
  if truthy (Some (col e "category")) then property_key rt (col e "category")
  else "other".

(** **** GET /financial/reports/profit-loss *)
Definition profit_loss (rt : Runtime) (userId : string) (req : Request) : Handler :=
  fun db =>
    let startDate := str_or (get "start_date" (searchParams req)) (date_days_ago rt 30) in
    let endDate := str_or (get "end_date" (searchParams req)) (today rt) in
    let txRows := txRows_of userId startDate endDate db in
    let revenue := reduce_sum (payout_of rt) (completed txRows) in
    let refunds := reduce_sum (amount_of rt) (refunded txRows) in
    let commission := reduce_sum (fee_of rt) (completed txRows) in
    let expenseRows := expenseRows_of userId startDate endDate db in
    let expenses := reduce_sum (expense_of rt) expenseRows in
    let byCategory :=
      fold_left
        (fun acc e => add_to_category (category_of rt e) (expense_of rt e) acc)
        expenseRows [] in
    let grossProfit := sub64 revenue refunds in
    let netProfit := sub64 grossProfit expenses in
    (db, success 200
           (JObj [("period", JObj [("start", JStr startDate); ("end", JStr endDate)]);
                  ("revenue",
                   JObj [("gross_sales", JNum revenue);
                         ("refunds", JNum refunds);
                         ("net_sales", JNum grossProfit)]);
                  ("gross_profit", JNum grossProfit);
                  ("expenses",
                   JObj [("platform_commission", JNum commission);
                         ("payment_processing", JNum zero);
                         ("operating_expenses", JNum expenses);
                         ("total_expenses", JNum (add64 commission expenses));
                         ("by_category", JObj byCategory)]);
                  ("net_profit", JNum netProfit);
                  ("profit_margin", JStr (profitMargin rt revenue netProfit))])).

(** The window of the tax report: a quarter with its hard-coded last day,
    or the whole year. *)
Definition tax_window (rt : Runtime) (year : num) (quarter : string) : string * string :=
  if negb (String.eqb quarter "")
     && existsb (String.eqb quarter) ["1"; "2"; "3"; "4"]
  then
    let q := parseInt rt quarter in
    (ToString rt year ++ "-"
       ++ padStart2 (ToString rt (add (mul (sub q (of_Z 1)) (of_Z 3)) (of_Z 1)))
       ++ "-01",
     ToString rt year ++ "-"
       ++ padStart2 (ToString rt (mul q (of_Z 3)))
       ++ "-"
       ++ (if num_eqb q (of_Z 2) then "30"
           else if num_eqb q (of_Z 4) then "31" else "31"))
  else (ToString rt year ++ "-01-01", ToString rt year ++ "-12-31").

(** **** GET /financial/reports/tax *)
Definition tax_report (rt : Runtime) (userId : string) (req : Request) : Handler :=
  fun db =>
    let year :=
      parseInt rt
        (str_or (get "year" (searchParams req)) (ToString rt (of_Z (getFullYear rt)))) in
    let quarter := str_or (get "quarter" (searchParams req)) "" in
    let '(startDate, endDate) := tax_window rt year quarter in
    let txRows := txRows_of userId startDate endDate db in
    let totalSales := reduce_sum (payout_of rt) (completed txRows) in
    let totalRefunds := reduce_sum (amount_of rt) (refunded txRows) in
    let expenseRows := expenseRows_of userId startDate endDate db in
    let totalExpenses := reduce_sum (expense_of rt) expenseRows in
    let taxableIncome := sub64 (sub64 totalSales totalRefunds) totalExpenses in
    (db, success 200
           (JObj [("report_type",
                   JStr (if String.eqb quarter "" then "annual" else "quarterly"));
                  ("year", JNum year);
                  ("quarter",
                   if String.eqb quarter "" then JNull else JNum (parseInt rt quarter));
                  ("total_sales", JNum totalSales);
                  ("total_refunds", JNum totalRefunds);
                  ("total_expenses", JNum totalExpenses);
                  ("taxable_income", JNum taxableIncome);
                  ("status", JStr "draft")])).

(** **** The two stubs and the catch-all *)
Definition instant_payout : Handler :=
  fun db =>
    (db, failure 400
           "Instant payout requires minimum balance and is available on Pro plan. Use standard withdrawal from Wallet.").

Definition connect_integration (path : string) : Handler :=
  fun db =>
    let provider := segment 3 path in
    (db, failure 501
           ("Connect " ++ provider
              ++ ": OAuth integration coming soon. Export data from Financial tab.")).

Definition not_found : Handler :=
  fun db => (db, failure 404 "Not found").

(** *** The dispatcher *)

(** The body of each block.  The blocks that no property below speaks about
    are recognised by [route], so that the order of the chain is exact, but
    their bodies are not embedded: [None]. *)
Definition handler (rt : Runtime) (userId : string) (req : Request)
    (path : string) (r : Route) : option Handler :=
  match r with
  | CreateStore => Some (create_store rt userId req)
  | ListProducts => Some (list_products userId req)
  | UpdateProduct => Some (update_product rt req path)
  | DeleteProduct => Some (delete_product path)
  | ListSocial => Some (list_social userId)
  | DisconnectSocial => Some (disconnect_social path)
  | ListReviews => Some (list_reviews rt userId req)
  | ListQuestions => Some (list_questions rt userId)
  | AnswerQuestion => Some (answer_question rt userId req path)
  | BulkUpdateReviews => Some (bulk_update_reviews rt userId req)
  | FinancialDashboard => Some (financial_dashboard rt userId req)
  | ListExpenses => Some (list_expenses rt userId req)
  | DeleteExpense => Some (delete_expense rt userId path)
  | ProfitLoss => Some (profit_loss rt userId req)
  | TaxReport => Some (tax_report rt userId req)
  | InstantPayout => Some instant_payout
  | ConnectIntegration => Some (connect_integration path)
  | NotFound => Some not_found
  | _ => None
  end.

Definition unauthorized : Response :=
  mk_response 401 jsonHeaders
    (Some (JObj [("success", JBool false); ("error", JStr "Unauthorized")])).

(** The [catch] block: [error instanceof Error ? error.message : "Unknown error"]. *)
Definition caught (t : Thrown) : Response :=
  let message :=
    match t with
    | JsError m => m
    | QueryError _ => "Unknown error"
    end in
  mk_response 500 jsonHeaders
    (Some (JObj [("success", JBool false); ("error", JStr message)])).

(** A handler inside the [try] block: what it answers, or what the [catch]
    block answers when it throws. *)
Definition run (h : Handler) (db : Db) : Db * Response :=
  let '(db', out) := h db in
  match out with
  | Respond r => (db', r)
  | Throw t => (db', caught t)
  end.

(** The callback given to [Deno.serve]: the store after the request and the
    response; [None] when the request reaches a block that is not embedded. *)
Definition serve (rt : Runtime) (db : Db) (req : Request) : option (Db * Response) :=
  (* Handle CORS preflight *)
  if String.eqb (method req) "OPTIONS" then
    Some (db, mk_response 200 corsHeaders None)
  else
    (* Verify user *)
    match Authorization req with
    | None => Some (db, unauthorized)
    | Some authHeader =>
        if negb (startsWith authHeader "Bearer ") then Some (db, unauthorized)
        else
          let token := remove_first "Bearer " authHeader in
          match getUser rt token with
          | None => Some (db, unauthorized)
          | Some userId =>
              let path := route_path (pathname req) in
              option_map (fun h => run h db)
                (handler rt userId req path (route (method req) path))
          end
    end.

End StoreApi.

(* ================================================================== *)
(** ** A runtime and a store to run the function on *)
(* ================================================================== *)

Module Sample.
Import Js Pg StoreApi.

Definition digits (z : Z) : string := NilZero.string_of_int (Z.to_int z).

Fixpoint zeros (n : nat) : string :=
  match n with
  | O => ""
  | S n' => "0" ++ zeros n'
  end.

Definition pad (width : nat) (z : Z) : string :=
  let s := digits z in
  zeros (width - String.length s) ++ s.

(** The UTC date and time of a number of milliseconds since the epoch. *)
Definition iso (ms : Z) : string :=
  let days := (ms / 86400000)%Z in
  let rest := (ms mod 86400000)%Z in
  let z := (days + 719468)%Z in
  let era := (z / 146097)%Z in
  let doe := (z - era * 146097)%Z in
  let yoe := ((doe - doe / 1460 + doe / 36524 - doe / 146096) / 365)%Z in
  let doy := (doe - (365 * yoe + yoe / 4 - yoe / 100))%Z in
  let mp := ((5 * doy + 2) / 153)%Z in
  let d := (doy - (153 * mp + 2) / 5 + 1)%Z in
  let m := (if mp <? 10 then mp + 3 else mp - 9)%Z in
  let y := (yoe + era * 400 + (if m <=? 2 then 1 else 0))%Z in
  pad 4 y ++ "-" ++ pad 2 m ++ "-" ++ pad 2 d
    ++ "T" ++ pad 2 (rest / 3600000) ++ ":" ++ pad 2 ((rest / 60000) mod 60)
    ++ ":" ++ pad 2 ((rest / 1000) mod 60) ++ "." ++ pad 3 (rest mod 1000) ++ "Z".

(** Decimal integers, as [parseInt] reads them. *)
Definition parse_int (s : string) : num :=
  match NilZero.int_of_string s with
  | Some i => of_Z (Z.of_int i)
  | None => NaN
  end.

(** A finite number with [d] decimals, rounded half up on its magnitude. *)
Definition fixed (a : num) (d : nat) : string :=
  match a with
  | Fin q =>
      let scale := (10 ^ Z.of_nat d)%Z in
      let n := Qfloor (Qabs q * inject_Z scale + (1 # 2)) in
      let sign := if Qle_bool 0 q then "" else if (n =? 0)%Z then "" else "-" in
      sign ++ digits (n / scale)
        ++ match d with O => "" | _ => "." ++ pad d (n mod scale) end
  | NaN => "NaN"
  | PInf => "Infinity"
  | NInf => "-Infinity"
  end.

(** Integers print as their digits. *)
Definition to_string (a : num) : string :=
  match a with
  | Fin q => if (Zpos (Qden (Qred q)) =? 1)%Z then digits (Qnum (Qred q)) else fixed a 6
  | other => fixed other 0
  end.

Definition to_number (v : json) : num :=
  match v with
  | JStr s => if String.eqb s "" then zero else parse_int s
  | _ => NaN
  end.

(** Two signed-in users and one with a token the provider rejects. *)
Definition get_user (token : string) : option string :=
  if String.eqb token "token-alice" then Some "alice"
  else if String.eqb token "token-bob" then Some "bob"
  else None.

(** 2024-06-15T12:00:00.000Z *)
Definition rt : Runtime :=
  {| getUser := get_user;
     gen_random_uuid := fun n => "row-" ++ digits (Z.of_nat n);
     Date_now := 1718452800000;
     toISOString := iso;
     getFullYear := 2024;
     parseInt := parse_int;
     ToNumber := to_number;
     ToString := to_string;
     toFixed := fixed |}.

Definition n (z : Z) : json := JNum (of_Z z).

(** alice owns store s1 with product p1; carol owns store s2 with product
    p2; bob has no store. *)
Definition db : Db :=
  {| stores :=
       [[("id", JStr "s1"); ("seller_id", JStr "alice"); ("name", JStr "Alice's");
         ("slug", JStr "alice-shop"); ("status", JStr "active")];
        [("id", JStr "s2"); ("seller_id", JStr "carol"); ("name", JStr "Carol's");
         ("slug", JStr "carol-shop"); ("status", JStr "active")]];
     products :=
       [[("id", JStr "p1"); ("store_id", JStr "s1"); ("name", JStr "Lamp");
         ("status", JStr "ACTIVE"); ("updated_at", JStr "2024-06-01T08:00:00")];
        [("id", JStr "p2"); ("store_id", JStr "s2"); ("name", JStr "Vase");
         ("status", JStr "ACTIVE"); ("updated_at", JStr "2024-06-02T08:00:00")]];
     social_accounts :=
       [[("id", JStr "a1"); ("store_id", JStr "s1"); ("platform", JStr "instagram")]];
     product_reviews :=
       [[("id", JStr "r1"); ("seller_id", JStr "alice"); ("product_id", JStr "p1");
         ("rating", n 5); ("status", JStr "pending");
         ("created_at", JStr "2024-06-03T10:00:00")];
        [("id", JStr "r2"); ("seller_id", JStr "carol"); ("product_id", JStr "p2");
         ("rating", n 2); ("status", JStr "pending");
         ("created_at", JStr "2024-06-04T10:00:00")];
        [("id", JStr "r3"); ("seller_id", JStr "alice"); ("product_id", JStr "p1");
         ("rating", n 4); ("status", JStr "approved");
         ("created_at", JStr "2024-06-05T10:00:00")]];
     review_questions :=
       [[("id", JStr "q1"); ("product_id", JStr "p1");
         ("question", JStr "Bulb included?");
         ("is_answered", JBool false); ("created_at", JStr "2024-06-06T10:00:00")]];
     review_answers := [];
     transactions :=
       [[("id", JStr "t1"); ("seller_id", JStr "alice"); ("amount", n 100);
         ("status", JStr "completed"); ("seller_payout", n 90); ("platform_fee", n 10);
         ("created_at", JStr "2024-06-10T09:00:00")]];
     seller_expenses :=
       [[("id", JStr "e1"); ("seller_id", JStr "alice"); ("amount", n 25);
         ("category", JStr "shipping"); ("status", JStr "active");
         ("expense_date", JStr "2024-06-12")];
        [("id", JStr "e2"); ("seller_id", JStr "carol"); ("amount", n 40);
         ("category", JStr "ads"); ("status", JStr "active");
         ("expense_date", JStr "2024-06-13")]];
     serial := 0 |}.

(** A request to the deployed function. *)
Definition request (m : string) (token : option string) (p : string)
    (params : list (string * string)) (b : json) : Request :=
  {| method := m;
     Authorization := option_map (fun t => "Bearer " ++ t) token;
     pathname := "/functions/v1/store-api" ++ p;
     searchParams := params;
     body := inr b |}.

Definition alice : option string := Some "token-alice".
Definition bob : option string := Some "token-bob".

(** The body of a POST / that asks for the slug alice's store has. *)
Definition new_store : json :=
  JObj [("name", JStr "Second shop"); ("slug", JStr "alice-shop")].

(** One completed sale and no expense. *)
Definition t1 : Row :=
  [("id", JStr "t1"); ("seller_id", JStr "alice"); ("amount", n 100);
   ("status", JStr "completed"); ("seller_payout", n 90); ("platform_fee", n 10);
   ("created_at", JStr "2024-06-10T09:00:00")].

Definition ledger : Db :=
  {| stores := []; products := []; social_accounts := []; product_reviews := [];
     review_questions := []; review_answers := [];
     transactions := [t1]; seller_expenses := []; serial := 0 |}.

(** A sale and its charge-back: two completed rows whose payouts cancel. *)
Definition cancelled : Db :=
  {| stores := []; products := []; social_accounts := []; product_reviews := [];
     review_questions := []; review_answers := [];
     transactions :=
       [t1;
        [("id", JStr "t2"); ("seller_id", JStr "alice"); ("amount", n (-100));
         ("status", JStr "Completed"); ("seller_payout", n (-90));
         ("platform_fee", n (-10)); ("created_at", JStr "2024-06-11T09:00:00")]];
     seller_expenses := []; serial := 0 |}.

(** Four completed payouts, 0.1, 0.2, -0.3 and -2^-55, whose sum is 0 as
    rationals and is not as the engine adds them. *)
Definition pennies : Db :=
  let sale (id : string) (payout : Q) : Row :=
    [("id", JStr id); ("seller_id", JStr "alice"); ("status", JStr "completed");
     ("seller_payout", JNum (Fin payout)); ("created_at", JStr "2024-06-10T09:00:00")] in
  {| stores := []; products := []; social_accounts := []; product_reviews := [];
     review_questions := []; review_answers := [];
     transactions :=
       [sale "u1" (1 # 10)%Q; sale "u2" (2 # 10)%Q; sale "u3" (-3 # 10)%Q;
        sale "u4" (-1 # 36028797018963968)%Q];
     seller_expenses := []; serial := 0 |}.



(** A batch that names a review of alice and a review of carol. *)
Definition approve_both : json :=
  JObj [("review_ids", JArr [JStr "r1"; JStr "r2"]); ("status", JStr "approved")].

Definition rename : json := JObj [("name", JStr "Taken over")].

(** A CORS preflight, which browsers send without credentials. *)
Definition preflight : Request := request "OPTIONS" None "/products" [] JNull.

End Sample.

(* ================================================================== *)
(** ** The vocabulary of the properties *)
(* ================================================================== *)

Module Spec.
Import Js Pg StoreApi.

(** The caller presents a bearer token that the identity provider resolves
    to [userId]. *)
Definition signed_in (rt : Runtime) (req : Request) (userId : string) : Prop :=
  exists token,
    Authorization req = Some ("Bearer " ++ token) /\ getUser rt token = Some userId.

(** The request is [m path], once the function prefix is stripped. *)
Definition asks (req : Request) (m path : string) : Prop :=
  method req = m /\ route_path (pathname req) = path.

(** No valid bearer token: the header is missing, does not start with
    "Bearer ", or carries a token the identity provider rejects. *)
Definition no_valid_token (rt : Runtime) (req : Request) : Prop :=
  Authorization req = None
  \/ (exists h, Authorization req = Some h /\ startsWith h "Bearer " = false)
  \/ (exists h, Authorization req = Some h
                 /\ getUser rt (remove_first "Bearer " h) = None).

(** The envelope [{ success: true, data }] under status 200. *)
Definition ok_200 (d : json) : Response :=
  mk_response 200 jsonHeaders (Some (JObj [("success", JBool true); ("data", d)])).

(** The envelope [{ success: false, error }] under the given status. *)
Definition error_response (st : Z) (msg : string) : Response :=
  mk_response st jsonHeaders
    (Some (JObj [("success", JBool false); ("error", JStr msg)])).

(** [userId] has no store. *)
Definition has_no_store (db : Db) (userId : string) : Prop :=
  forall s, In s (stores db) -> col s "seller_id" <> JStr userId.

(** [userId] has a store. *)
Definition has_store (db : Db) (userId : string) : Prop :=
  exists s, In s (stores db) /\ col s "seller_id" = JStr userId.

(** Some store uses the slug. *)
Definition slug_in_use (db : Db) (slug : string) : Prop :=
  exists s, In s (stores db) /\ col s "slug" = JStr slug.

(** No two rows of the table agree on column [c] (the data model's
    "one store per seller" and "unique slug", and the primary keys). *)
Definition unique_on (c : string) (rows : list Row) : Prop :=
  forall v, (List.length (eq c v rows) <= 1)%nat.


(** Where a run of identifier characters ends: at the end of the string or
    before a character outside the class. *)
Definition stops (suf : string) : Prop :=
  match suf with
  | EmptyString => True
  | String c _ => id_char c = false
  end.

(** The sum of [f] over the rows that satisfy [p]: the numbers are added up
    in the order of the rows, from 0, and each addition is one of the
    engine, rounded to binary64. *)
Fixpoint sum_from (acc : num) (p : Row -> bool) (f : Row -> num) (rows : list Row)
    : num :=
  match rows with
  | [] => acc
  | t :: rest => sum_from (if p t then add64 acc (f t) else acc) p f rest
  end.

Definition sum_over (p : Row -> bool) (f : Row -> num) (rows : list Row) : num :=
  sum_from zero p f rows.

(** The row's status is [s], whatever the case it is written in. *)
Definition status_is (s : string) (t : Row) : bool :=
  match col t "status" with
  | JStr x => String.eqb (toLowerCase x) s
  | _ => false
  end.

(** A column as a number, 0 when it is [null]. *)
Definition number_or_zero (rt : Runtime) (t : Row) (c : string) : num :=
  match col t c with
  | JNull => zero
  | v => Number rt (Some v)
  end.

(** [seller_payout], falling back to [amount]. *)
Definition payout_or_amount (rt : Runtime) (t : Row) : num :=
  match col t "seller_payout" with
  | JNull => number_or_zero rt t "amount"
  | v => Number rt (Some v)
  end.

(** The amount of an expense; one that is not a number counts for 0. *)
Definition expense_amount (rt : Runtime) (e : Row) : num :=
  match Number rt (Some (col e "amount")) with
  | NaN => zero
  | Fin x => if Qeq_bool x 0 then zero else Fin x
  | inf => inf
  end.

Definition is_active (e : Row) : bool := pg_eq (col e "status") (text "active").

(** The row belongs to the seller. *)
Definition of_seller (userId : string) (r : Row) : bool :=
  match col r "seller_id" with
  | JStr s => String.eqb s userId
  | _ => false
  end.

(** The column [c] of the row holds a text from [lo] to [hi], in the order
    of the texts, which is that of the dates and timestamps they write. *)
Definition dated (c lo hi : string) (r : Row) : bool :=
  match col r c with
  | JStr s => String.leb lo s && String.leb s hi
  | _ => false
  end.

(** The caller's transactions created from the day [startDate] to the last
    second of the day [endDate]. *)
Definition transactions_between (userId startDate endDate : string) (db : Db)
    : list Row :=
  filter (fun t => of_seller userId t
                   && dated "created_at" startDate (endDate ++ "T23:59:59") t)
    (transactions db).

(** The caller's expenses dated from [startDate] to [endDate], deleted ones
    included. *)
Definition expenses_in_range (userId startDate endDate : string) (db : Db) : list Row :=
  filter (fun e => of_seller userId e && dated "expense_date" startDate endDate e)
    (seller_expenses db).

(** The day of an instant, given in milliseconds, as yyyy-mm-dd. *)
Definition day_of (rt : Runtime) (ms : Z) : string := slice0 10 (toISOString rt ms).

(** Today, and the day that lies [days] days back. *)
Definition last_day (rt : Runtime) : string := day_of rt (Date_now rt).

Definition first_day (rt : Runtime) (days : Z) : string :=
  day_of rt (Date_now rt - days * 86400000).

(** The days the dashboard looks back for a [period] parameter: a week, a
    quarter, a year, and a month for anything else. *)
Definition days_back (period : option string) : Z :=
  match period with
  | Some p =>
      if String.eqb p "7d" then 7%Z
      else if String.eqb p "90d" then 90%Z
      else if String.eqb p "1y" then 365%Z
      else 30%Z
  | None => 30%Z
  end.

(** The revenue of the caller between two dates: the completed
    transactions' payouts. *)
Definition revenue_between (rt : Runtime) (userId startDate endDate : string)
    (db : Db) : num :=
  sum_over (status_is "completed") (payout_or_amount rt)
    (transactions_between userId startDate endDate db).

(** The number is 0. *)
Definition is_zero (a : num) : Prop := exists q, a = Fin q /\ q == 0.

(** [n] is the ceiling of [total / l]: the least number of pages of [l] rows
    that hold [total] rows. *)
Definition is_ceiling (n : Z) (total : nat) (l : Q) : Prop :=
  inject_Z (n - 1) * l < inject_Z (Z.of_nat total)
  /\ inject_Z (Z.of_nat total) <= inject_Z n * l.

(** The answer of a list endpoint:
    [{ success: true, data: { <key>: items, pagination: { page, limit, total, pages } } }]. *)
Definition page_response (key : string) (items : list Row) (page limit : Q)
    (total : nat) (pages : num) : Response :=
  ok_200
    (JObj [(key, rows_json items);
           ("pagination",
            JObj [("page", JNum (Fin page));
                  ("limit", JNum (Fin limit));
                  ("total", JNum (of_nat total));
                  ("pages", JNum pages)])]).

(** The expense [id] of [userId]. *)
Definition is_expense (userId id : string) (e : Row) : bool :=
  pg_eq (col e "id") (text id) && pg_eq (col e "seller_id") (text userId).

(** The store with the expense [id] of [userId] removed from the table. *)
Definition without_expense (userId id : string) (db : Db) : Db :=
  with_seller_expenses
    (filter (fun e => negb (is_expense userId id e)) (seller_expenses db)) db.

(** The answer of DELETE /financial/expenses/:id. *)
Definition deleted_response : Response :=
  mk_response 200 jsonHeaders (Some (JObj [("success", JBool true)])).

End Spec.

(* ================================================================== *)
(** ** The remaining blocks of the route chain *)
(* ================================================================== *)

(** The blocks that [StoreApi.handler] leaves out: the store itself, product
    and social-account creation, review analytics and moderation, the review
    request campaign, the expense writes, the chat, the support tickets and
    the integrations.  They need eight more tables; [Tables] adds them to the
    store, and [serve_all] is the whole callback. *)

Module Rest.
Import Js Pg StoreApi.

(** *** More of the query builder *)

(** [.limit(n)] *)
Definition limit (n : nat) (rows : list Row) : list Row := firstn n rows.

(** [.order(c, { ascending: false, nullsFirst: false })] *)
Definition order_desc_nulls_last (c : string) (rows : list Row) : list Row :=
  let le r x :=
    match col r c, col x c with
    | _, JNull => true
    | JNull, _ => false
    | a, b => key_le b a
    end in
  fold_right (insert_sorted le) [] rows.

(** [.select("c1, c2, ...")]: the listed columns of a row. *)
Definition project (cols : list string) (r : Row) : Row :=
  map (fun c => (c, col r c)) cols.

(** A joined table of a select on the one side of a one-to-many link: all
    the columns of the rows of [target] whose [fk] is the row's id. *)
Definition embed_many (name fk : string) (target : list Row) (r : Row) : Row :=
  set_col name (rows_json (eq fk (Some (col r "id")) target)) r.

(** [.upsert(fields, { onConflict: key })]: the rows that carry the same
    [key] are overwritten with [fields]; without one, [fields] are inserted
    under the identifier [id].  The flag tells whether a row was inserted. *)
Definition upsert (id : string) (key : string) (fields : list (string * json))
    (rows : list Row) : list Row * bool :=
  let sel r := pg_eq (col r key) (assoc key fields) in
  match filter sel rows with
  | [] => (insert (("id", JStr id) :: fields) rows, true)
  | _ => (update fields sel rows, false)
  end.

(** [a === b] on the scalars a [Set] of column values is asked about. *)
Definition same_value (a b : json) : bool :=
  match a, b with
  | JNull, JNull => true
  | JBool x, JBool y => Bool.eqb x y
  | JNum x, JNum y => num_eqb x y || (match x, y with NaN, NaN => true | _, _ => false end)
  | JStr x, JStr y => String.eqb x y
  | _, _ => false
  end.

(** *** The engine *)

(** One more built-in whose definition lies outside the repository. *)
Record Engine : Type := mk_engine {
  (** [parseFloat(v)] *)
  parseFloat : json -> num
}.

(** The key [obj[n]] reads or writes for a number [n]: the digits of an
    integer below 10^21, [String(n)] otherwise. *)
Definition number_key (rt : Runtime) (n : num) : string :=
  match n with
  | Fin q =>
      let z := Qfloor q in
      if Qeq_bool q (inject_Z z) && (Z.abs z <? 10 ^ 21)%Z
      then NilZero.string_of_int (Z.to_int z)
      else ToString rt n
  | _ => ToString rt n
  end.

(** *** The store, GET / and PUT / *)

(** **** GET / *)
Definition get_store (userId : string) : Handler :=
  fun db =>
    let r :=
      maybeSingle
        (map (embed_many "social_accounts" "store_id" (social_accounts db))
           (eq "seller_id" (text userId) (stores db))) in
    match error r with
    | Some e => (db, Throw (QueryError e))
    | None =>
        let store := match data r with Some s => JObj s | None => JNull end in
        (db, success 200 store)
    end.

(** What [.update(..).select().single()] leaves the handler with:
    [if (error) throw error], then the 404 of a missing [data], then the 200. *)
Definition updated (missing : string) (set : list Row -> Db -> Db)
    (out : list Row * reply Row) : Handler :=
  fun db =>
    let '(rows, r) := out in
    match error r, data r with
    | Some e, _ => (set rows db, Throw (QueryError e))
    | None, None => (set rows db, failure 404 missing)
    | None, Some d => (set rows db, success 200 (JObj d))
    end.

(** **** PUT / *)
Definition update_store (rt : Runtime) (userId : string) (req : Request) : Handler :=
  with_body req (fun b db =>
    let changes :=
      (when_truthy "name" (prop b "name")
       ++ when_truthy "slug" (prop b "slug")
       ++ when_defined "bio" (prop b "bio")
       ++ when_defined "logo" (prop b "logo")
       ++ when_truthy "visibility" (prop b "visibility")
       ++ when_truthy "status" (prop b "status")
       ++ [("updated_at", now_iso rt)])%list in
    let '(rows, r) :=
      update_single changes (fun s => pg_eq (col s "seller_id") (text userId))
        (stores db) in
    match error r, data r with
    | Some e, _ => (with_stores rows db, Throw (QueryError e))
    | None, Some store => (with_stores rows db, success 200 (JObj store))
    | None, None => (with_stores rows db, success 200 JNull)
    end).

(** *** Creating products and social accounts *)

(** **** POST /products *)
Definition create_product (rt : Runtime) (userId : string) (req : Request) : Handler :=
  with_body req (fun b db =>
    let name := prop b "name" in
    let description := prop b "description" in
    let price := prop b "price" in
    let images := prop b "images" in
    if negb (truthy name) then (db, failure 400 "Product name is required")
    else
      let store := data (maybeSingle (eq "seller_id" (text userId) (stores db))) in
      match store with
      | None => (db, failure 400 "Create a store first")
      | Some store =>
          let product :=
            new_row rt db
              [("store_id", Some (col store "id"));
               ("name", name);
               ("description", description);
               ("price", price);
               ("images", or_else images (Some (JArr [])));
               ("status", text "DRAFT")] in
          (next_serial (with_products (insert product (products db)) db),
           success 201 (JObj product))
      end).

(** **** POST /social *)
Definition connect_social (rt : Runtime) (userId : string) (req : Request) : Handler :=
  with_body req (fun b db =>
    let platform := prop b "platform" in
    let pageUrl := prop b "pageUrl" in
    let pageId := prop b "pageId" in
    if negb (truthy platform) || negb (truthy pageUrl) then
      (db, failure 400 "Platform and pageUrl are required")
    else
      let store := data (maybeSingle (eq "seller_id" (text userId) (stores db))) in
      match store with
      | None => (db, failure 400 "Create a store first")
      | Some store =>
          let account :=
            new_row rt db
              [("store_id", Some (col store "id"));
               ("platform", platform);
               ("page_url", pageUrl);
               ("page_id", pageId)] in
          (next_serial (with_social_accounts (insert account (social_accounts db)) db),
           success 201 (JObj account))
      end).

(** *** Review analytics *)

(** The approved reviews of the caller within the period, of one product
    when [product_id] is given. *)
Definition analytics_query (rt : Runtime) (userId : string) (req : Request)
    (db : Db) : list Row :=
  let params := searchParams req in
  let startDate := str_or (get "start_date" params) (date_days_ago rt 30) in
  let endDate := str_or (get "end_date" params) (today rt) in
  let productId := str_or (get "product_id" params) "" in
  let q :=
    lte "created_at" (JStr (endDate ++ "T23:59:59"))
      (gte "created_at" (JStr startDate)
         (eq "status" (text "approved")
            (eq "seller_id" (text userId) (product_reviews db)))) in
  if negb (String.eqb productId "") then eq "product_id" (text productId) q else q.

(** [x.rating || 0]; [rating] is a numeric column. *)
Definition rating_of (x : Row) : num :=
  match col x "rating" with
  | JNum n => or_zero n
  | _ => zero
  end.

(** [Math.min(5, Math.max(1, x.rating || 0))] *)
Definition star (x : Row) : num :=
  Math_min (of_Z 5) (Math_max (of_Z 1) (rating_of x)).

(** [dist[k]++]: a key the object lacks is created with [NaN]. *)
Fixpoint increment (k : string) (dist : list (string * json)) : list (string * json) :=
  match dist with
  | [] => [(k, JNum NaN)]
  | (k', v) :: rest =>
      if String.eqb k k' then
        (k', JNum (match v with JNum n => add n (of_Z 1) | _ => NaN end)) :: rest
      else (k', v) :: increment k rest
  end.

(** [{ 5: 0, 4: 0, 3: 0, 2: 0, 1: 0 }], whose keys an engine keeps in
    ascending order. *)
Definition no_stars : list (string * json) :=
  [("1", JNum zero); ("2", JNum zero); ("3", JNum zero); ("4", JNum zero);
   ("5", JNum zero)].

(** [r.forEach((x) => { dist[...]++; })] *)
Definition rating_distribution (rt : Runtime) (r : list Row) : list (string * json) :=
  fold_left (fun dist x => increment (number_key rt (star x)) dist) r no_stars.

(** [Array.isArray(x.images) && x.images.length > 0] *)
Definition has_photos (x : Row) : bool :=
  match col x "images" with
  | JArr (_ :: _) => true
  | _ => false
  end.

(** **** GET /reviews/analytics *)
Definition review_analytics (rt : Runtime) (userId : string) (req : Request) : Handler :=
  fun db =>
    let r := analytics_query rt userId req db in
    let total := List.length r in
    let avg :=
      if (0 <? total)%nat then div64 (reduce_sum rating_of r) (of_nat total) else zero in
    let dist := rating_distribution rt r in
    let withPhotos := List.length (filter has_photos r) in
    let withVideos :=
      List.length (filter (fun x => truthy (Some (col x "video_url"))) r) in
    let responded :=
      List.length (filter (fun x => truthy (Some (col x "seller_response"))) r) in
    (db, success 200
           (JObj [("summary",
                   JObj [("total_reviews", JNum (of_nat total));
                         ("average_rating", JStr (toFixed rt avg 2));
                         ("rating_distribution", JObj dist);
                         ("with_photos", JNum (of_nat withPhotos));
                         ("with_videos", JNum (of_nat withVideos));
                         ("response_rate",
                          JStr (if (0 <? total)%nat
                                then toFixed rt
                                       (mul64 (div64 (of_nat responded) (of_nat total))
                                          hundred) 1
                                else "0"))]);
                  ("trend", JArr []);
                  ("top_products", JArr [])])).

(** *** Review moderation *)

(** The filters [.eq("id", id).eq("seller_id", userId)]. *)
Definition own (userId id : string) (r : Row) : bool :=
  pg_eq (col r "id") (text id) && pg_eq (col r "seller_id") (text userId).

(** **** POST /reviews/:id/respond *)
Definition respond_review (rt : Runtime) (userId : string) (req : Request)
    (path : string) : Handler :=
  let reviewId := segment 2 path in
  with_body req (fun b db =>
    match prop b "response" with
    | Some response =>
        if truthy (Some response) then
          updated "Review not found" with_product_reviews
            (update_single
               [("seller_response", response);
                ("seller_responded_at", now_iso rt);
                ("seller_responder_id", JStr userId);
                ("updated_at", now_iso rt)]
               (own userId reviewId) (product_reviews db)) db
        else (db, failure 400 "Response text required")
    | None => (db, failure 400 "Response text required")
    end).

(** **** PATCH /reviews/:id/status *)
Definition set_review_status (rt : Runtime) (userId : string) (req : Request)
    (path : string) : Handler :=
  let reviewId := segment 2 path in
  with_body req (fun b db =>
    let newStatus := prop b "status" in
    match newStatus with
    | Some status =>
        if moderation_status newStatus then
          updated "Review not found" with_product_reviews
            (update_single
               [("status", status);
                ("is_published", JBool (is_approved newStatus));
                ("published_at", if is_approved newStatus then now_iso rt else JNull);
                ("moderation_status", JStr "reviewed");
                ("updated_at", now_iso rt)]
               (own userId reviewId) (product_reviews db)) db
        else (db, failure 400 "Status must be approved or rejected")
    | None => (db, failure 400 "Status must be approved or rejected")
    end).

(** *** Writing expenses *)

(** **** POST /financial/expenses *)
Definition create_expense (rt : Runtime) (eng : Engine) (userId : string)
    (req : Request) : Handler :=
  with_body req (fun b db =>
    let amount := prop b "amount" in
    let category := prop b "category" in
    let description := prop b "description" in
    let vendor_name := prop b "vendor_name" in
    let expense_date := prop b "expense_date" in
    let is_tax_deductible := prop b "is_tax_deductible" in
    match amount with
    | Some amt =>
        if negb (truthy amount) || negb (truthy category)
           || negb (truthy description) || negb (truthy expense_date)
        then (db, failure 400 "amount, category, description, expense_date required")
        else
          let expense :=
            new_row rt db
              [("seller_id", text userId);
               ("amount", Some (JNum (parseFloat eng amt)));
               ("category", category);
               ("description", description);
               ("vendor_name", or_else vendor_name (Some JNull));
               ("expense_date", expense_date);
               ("is_tax_deductible",
                Some (JBool (match is_tax_deductible with
                             | Some (JBool false) => false
                             | _ => true
                             end)))] in
          (next_serial (with_seller_expenses (insert expense (seller_expenses db)) db),
           success 201 (JObj expense))
    | None => (db, failure 400 "amount, category, description, expense_date required")
    end).

(** The fields PATCH /financial/expenses/:id writes. *)
Definition expense_changes (rt : Runtime) (eng : Engine) (b : json)
    : list (string * json) :=
  ((match prop b "amount" with
    | Some amt => [("amount", JNum (parseFloat eng amt))]
    | None => []
    end)
   ++ when_truthy "category" (prop b "category")
   ++ when_truthy "description" (prop b "description")
   ++ when_defined "vendor_name" (prop b "vendor_name")
   ++ when_truthy "expense_date" (prop b "expense_date")
   ++ [("updated_at", now_iso rt)])%list.

(** **** PATCH /financial/expenses/:id *)
Definition update_expense (rt : Runtime) (eng : Engine) (userId : string)
    (req : Request) (path : string) : Handler :=
  let expenseId := segment 3 path in
  with_body req (fun b db =>
    updated "Expense not found" with_seller_expenses
      (update_single (expense_changes rt eng b) (own userId expenseId)
         (seller_expenses db)) db).

(** *** The other tables *)

Record Tables : Type := mk_tables {
  core : Db;
  review_requests : list Row;
  seller_review_settings : list Row;
  chat_conversations : list Row;
  chat_messages : list Row;
  profiles : list Row;
  support_tickets : list Row;
  support_messages : list Row;
  accounting_integrations : list Row
}.

Definition with_core (db : Db) (t : Tables) : Tables :=
  mk_tables db (review_requests t) (seller_review_settings t) (chat_conversations t)
    (chat_messages t) (profiles t) (support_tickets t) (support_messages t)
    (accounting_integrations t).

Definition with_review_requests (rows : list Row) (t : Tables) : Tables :=
  mk_tables (core t) rows (seller_review_settings t) (chat_conversations t)
    (chat_messages t) (profiles t) (support_tickets t) (support_messages t)
    (accounting_integrations t).

Definition with_seller_review_settings (rows : list Row) (t : Tables) : Tables :=
  mk_tables (core t) (review_requests t) rows (chat_conversations t)
    (chat_messages t) (profiles t) (support_tickets t) (support_messages t)
    (accounting_integrations t).

Definition with_chat_conversations (rows : list Row) (t : Tables) : Tables :=
  mk_tables (core t) (review_requests t) (seller_review_settings t) rows
    (chat_messages t) (profiles t) (support_tickets t) (support_messages t)
    (accounting_integrations t).

Definition with_chat_messages (rows : list Row) (t : Tables) : Tables :=
  mk_tables (core t) (review_requests t) (seller_review_settings t)
    (chat_conversations t) rows (profiles t) (support_tickets t)
    (support_messages t) (accounting_integrations t).

Definition with_support_tickets (rows : list Row) (t : Tables) : Tables :=
  mk_tables (core t) (review_requests t) (seller_review_settings t)
    (chat_conversations t) (chat_messages t) (profiles t) rows
    (support_messages t) (accounting_integrations t).

Definition with_support_messages (rows : list Row) (t : Tables) : Tables :=
  mk_tables (core t) (review_requests t) (seller_review_settings t)
    (chat_conversations t) (chat_messages t) (profiles t) (support_tickets t)
    rows (accounting_integrations t).

(** A handler over all the tables. *)
Definition Block : Type := Tables -> Tables * Outcome.

(** A handler that stays within the tables of [Db]. *)
Definition lift (h : Handler) : Block :=
  fun t => let '(db, out) := h (core t) in (with_core db t, out).

(** [await req.json()] in a block over all the tables. *)
Definition with_body_of (req : Request) (k : json -> Block) : Block :=
  fun t =>
    match body req with
    | inl msg => (t, Throw (JsError msg))
    | inr JNull => (t, Throw (JsError "Cannot destructure property of null"))
    | inr b => k b t
    end.

(** The identifier of the next inserted row, and the store once it is used. *)
Definition fresh_id (rt : Runtime) (t : Tables) : string :=
  gen_random_uuid rt (serial (core t)).

Definition used_id (t : Tables) : Tables := with_core (next_serial (core t)) t.

(** *** The review request campaign *)

(** **** GET /reviews/requestable-orders *)
Definition requestable_orders (userId : string) : Block :=
  fun t =>
    let txList :=
      map (project ["id"; "item_name"; "created_at"; "product_id"])
        (limit 100
           (order "created_at" false
              (in_ "status" [JStr "completed"; JStr "delivered"]
                 (eq "seller_id" (text userId) (transactions (core t)))))) in
    let orderIds := map (fun x => col x "id") txList in
    let existing :=
      in_ "order_id" (match orderIds with [] => [JStr "__none__"] | _ => orderIds end)
        (eq "seller_id" (text userId) (review_requests t)) in
    let requestedSet := map (fun r => col r "order_id") existing in
    let requestable :=
      filter (fun x => negb (existsb (same_value (col x "id")) requestedSet)) txList in
    (t, success 200 (rows_json requestable)).

(** One turn of the loop of POST /reviews/request: the order is skipped
    unless it is a transaction of the caller; otherwise a request is stored
    and the order joins [inserted]. *)
Definition request_review (rt : Runtime) (userId : string) (send_via : json)
    (delayed : bool) (acc : Tables * list json) (orderId : json)
    : Tables * list json :=
  let '(t, inserted) := acc in
  let tx :=
    data (maybeSingle
            (eq "seller_id" (text userId)
               (eq "id" (Some orderId) (transactions (core t))))) in
  match tx with
  | None => acc
  | Some tx =>
      let oi := data (maybeSingle (eq "id" (Some orderId) (transactions (core t)))) in
      let productIds :=
        match oi with
        | Some o =>
            if truthy (Some (col o "product_id")) then [col o "product_id"] else []
        | None => []
        end in
      let request :=
        ("id", JStr (fresh_id rt t))
        :: obj_fields
             [("seller_id", text userId);
              ("order_id", Some orderId);
              ("customer_id", Some (col tx "buyer_id"));
              ("product_ids", Some (JArr productIds));
              ("request_type", Some send_via);
              ("status", text (if delayed then "pending" else "sent"));
              ("sent_at", Some (if delayed then JNull else now_iso rt))] in
      (used_id (with_review_requests (insert request (review_requests t)) t),
       (inserted ++ [orderId])%list)
  end.

(** **** POST /reviews/request *)
Definition request_reviews (rt : Runtime) (userId : string) (req : Request) : Block :=
  with_body_of req (fun b t =>
    let send_via :=
      match prop b "send_via" with Some v => v | None => JStr "email" end in
    let delay_days :=
      match prop b "delay_days" with Some v => v | None => JNum zero end in
    match prop b "order_ids" with
    | Some (JArr (first :: others)) =>
        let order_ids := first :: others in
        let store :=
          data (maybeSingle (eq "seller_id" (text userId) (stores (core t)))) in
        match store with
        | None => (t, failure 400 "Store not found")
        | Some _ =>
            let delayed := gtb (Number rt (Some delay_days)) zero in
            let '(t', inserted) :=
              fold_left (request_review rt userId send_via delayed)
                (firstn 50 order_ids) (t, []) in
            (t', respond 200
                   (JObj [("success", JBool true);
                          ("requests_sent", JNum (of_nat (List.length inserted)))]))
        end
    | _ => (t, failure 400 "order_ids array required")
    end).

(** The row POST /reviews/auto-request/config writes. *)
Definition review_settings (rt : Runtime) (userId : string) (b : json)
    : list (string * json) :=
  [("seller_id", JStr userId);
   ("review_auto_request_enabled", JBool (truthy (prop b "enabled")));
   ("review_auto_request_delay_days",
    match nullish (prop b "delay_days") (Some (JNum (of_Z 7))) with
    | Some v => v
    | None => JNull
    end);
   ("review_auto_request_method",
    match or_else (prop b "send_via") (Some (JStr "email")) with
    | Some v => v
    | None => JNull
    end);
   ("updated_at", now_iso rt)].

(** **** POST /reviews/auto-request/config *)
Definition set_auto_request (rt : Runtime) (userId : string) (req : Request) : Block :=
  with_body_of req (fun b t =>
    let '(rows, inserted) :=
      upsert (fresh_id rt t) "seller_id" (review_settings rt userId b)
        (seller_review_settings t) in
    let t' := with_seller_review_settings rows t in
    let t' := if inserted then used_id t' else t' in
    let r := single (eq "seller_id" (text userId) rows) in
    match error r, data r with
    | Some e, _ => (t', Throw (QueryError e))
    | None, Some d => (t', success 200 (JObj d))
    | None, None => (t', success 200 JNull)
    end).

(** **** GET /reviews/auto-request/config *)
Definition get_auto_request (userId : string) : Block :=
  fun t =>
    let r := maybeSingle (eq "seller_id" (text userId) (seller_review_settings t)) in
    match error r with
    | Some e => (t, Throw (QueryError e))
    | None =>
        let d :=
          match data r with
          | Some row => JObj row
          | None => JObj [("review_auto_request_enabled", JBool false)]
          end in
        (t, success 200 d)
    end.

(** *** Live chat *)

(** **** GET /chat/conversations *)
Definition list_conversations (userId : string) : Block :=
  fun t =>
    let convos :=
      limit 50
        (order_desc_nulls_last "last_message_at"
           (eq "seller_id" (text userId) (chat_conversations t))) in
    (t, success 200 (rows_json convos)).

(** The conversation [convId] of the caller, through [.single()]. *)
Definition own_conversation (userId convId : string) (t : Tables) : option Row :=
  data (single (filter (own userId convId) (chat_conversations t))).

(** **** GET /chat/conversations/:id *)
Definition get_conversation (userId path : string) : Block :=
  fun t =>
    let convId := segment 3 path in
    match own_conversation userId convId t with
    | None => (t, failure 404 "Not found")
    | Some convo =>
        let messages :=
          order "created_at" true
            (eq "conversation_id" (text convId) (chat_messages t)) in
        (t, success 200 (JObj (set_col "messages" (rows_json messages) convo)))
    end.

(** [profile?.name || "Seller"] *)
Definition sender_name (userId : string) (t : Tables) : json :=
  let profile := data (maybeSingle (eq "user_id" (text userId) (profiles t))) in
  match or_else (option_map (fun p => col p "name") profile) (Some (JStr "Seller")) with
  | Some v => v
  | None => JNull
  end.

(** **** POST /chat/conversations/:id/messages *)
Definition send_chat_message (rt : Runtime) (userId : string) (req : Request)
    (path : string) : Block :=
  let convId := segment 3 path in
  with_body_of req (fun b t =>
    match prop b "message" with
    | Some message =>
        if truthy (Some message) then
          match own_conversation userId convId t with
          | None => (t, failure 404 "Not found")
          | Some _ =>
              match slice_of 2000 message with
              | Some cut =>
                  let msg :=
                    ("id", JStr (fresh_id rt t))
                    :: obj_fields
                         [("conversation_id", text convId);
                          ("sender_id", text userId);
                          ("sender_type", text "seller");
                          ("sender_name", Some (sender_name userId t));
                          ("message", Some cut)] in
                  let t1 := used_id (with_chat_messages (insert msg (chat_messages t)) t) in
                  let t2 :=
                    with_chat_conversations
                      (update [("last_message_at", now_iso rt); ("updated_at", now_iso rt)]
                         (fun c => pg_eq (col c "id") (text convId))
                         (chat_conversations t1)) t1 in
                  (t2, success 201 (JObj msg))
              | None => (t, Throw (JsError "message.slice is not a function"))
              end
          end
        else (t, failure 400 "message required")
    | None => (t, failure 400 "message required")
    end).

(** *** Support tickets *)

(** **** GET /support/tickets *)
Definition list_tickets (userId : string) : Block :=
  fun t =>
    let tickets :=
      limit 50
        (order "created_at" false (eq "user_id" (text userId) (support_tickets t))) in
    (t, success 200 (rows_json tickets)).

(** **** POST /support/tickets *)
Definition create_ticket (rt : Runtime) (userId : string) (req : Request) : Block :=
  with_body_of req (fun b t =>
    match prop b "subject" with
    | Some subject =>
        if truthy (Some subject) then
          match slice_of 255 subject with
          | Some cut =>
              let ticket :=
                ("id", JStr (fresh_id rt t))
                :: obj_fields
                     [("user_id", text userId);
                      ("subject", Some cut);
                      ("category", or_else (prop b "category") (Some JNull));
                      ("priority", or_else (prop b "priority") (Some (JStr "normal")));
                      ("status", text "open")] in
              let t1 := used_id (with_support_tickets (insert ticket (support_tickets t)) t) in
              match prop b "message" with
              | Some message =>
                  if truthy (Some message) then
                    match slice_of 5000 message with
                    | Some text5000 =>
                        let first :=
                          ("id", JStr (fresh_id rt t1))
                          :: obj_fields
                               [("ticket_id", Some (col ticket "id"));
                                ("sender_id", text userId);
                                ("is_staff", Some (JBool false));
                                ("message", Some text5000)] in
                        (used_id
                           (with_support_messages (insert first (support_messages t1)) t1),
                         success 201 (JObj ticket))
                    | None => (t1, Throw (JsError "message.slice is not a function"))
                    end
                  else (t1, success 201 (JObj ticket))
              | None => (t1, success 201 (JObj ticket))
              end
          | None => (t, Throw (JsError "subject.slice is not a function"))
          end
        else (t, failure 400 "subject required")
    | None => (t, failure 400 "subject required")
    end).

(** The ticket [ticketId] of the caller, through [.single()]. *)
Definition own_ticket (userId ticketId : string) (t : Tables) : option Row :=
  data (single
          (eq "user_id" (text userId)
             (eq "id" (text ticketId) (support_tickets t)))).

(** **** GET /support/tickets/:id *)
Definition get_ticket (userId path : string) : Block :=
  fun t =>
    let ticketId := segment 3 path in
    match own_ticket userId ticketId t with
    | None => (t, failure 404 "Not found")
    | Some ticket =>
        let messages :=
          order "created_at" true (eq "ticket_id" (text ticketId) (support_messages t)) in
        (t, success 200 (JObj (set_col "messages" (rows_json messages) ticket)))
    end.

(** **** POST /support/tickets/:id/messages *)
Definition send_ticket_message (rt : Runtime) (userId : string) (req : Request)
    (path : string) : Block :=
  let ticketId := segment 3 path in
  with_body_of req (fun b t =>
    match prop b "message" with
    | Some message =>
        if truthy (Some message) then
          match own_ticket userId ticketId t with
          | None => (t, failure 404 "Not found")
          | Some _ =>
              match slice_of 5000 message with
              | Some cut =>
                  let msg :=
                    ("id", JStr (fresh_id rt t))
                    :: obj_fields
                         [("ticket_id", text ticketId);
                          ("sender_id", text userId);
                          ("is_staff", Some (JBool false));
                          ("message", Some cut)] in
                  let t1 :=
                    used_id (with_support_messages (insert msg (support_messages t)) t) in
                  let t2 :=
                    with_support_tickets
                      (update [("updated_at", now_iso rt)]
                         (fun k => pg_eq (col k "id") (text ticketId))
                         (support_tickets t1)) t1 in
                  (t2, success 201 (JObj msg))
              | None => (t, Throw (JsError "message.slice is not a function"))
              end
          end
        else (t, failure 400 "message required")
    | None => (t, failure 400 "message required")
    end).

(** **** GET /financial/integrations *)
Definition list_integrations (userId : string) : Block :=
  fun t =>
    (t, success 200
          (rows_json (eq "seller_id" (text userId) (accounting_integrations t)))).

(** *** The whole dispatcher *)

(** The body of every block of the chain. *)
Definition block (rt : Runtime) (eng : Engine) (userId : string) (req : Request)
    (path : string) (r : Route) : Block :=
  match r with
  | GetStore => lift (get_store userId)
  | UpdateStore => lift (update_store rt userId req)
  | CreateProduct => lift (create_product rt userId req)
  | ConnectSocial => lift (connect_social rt userId req)
  | ReviewAnalytics => lift (review_analytics rt userId req)
  | RespondReview => lift (respond_review rt userId req path)
  | SetReviewStatus => lift (set_review_status rt userId req path)
  | RequestableOrders => requestable_orders userId
  | RequestReviews => request_reviews rt userId req
  | SetAutoRequest => set_auto_request rt userId req
  | GetAutoRequest => get_auto_request userId
  | CreateExpense => lift (create_expense rt eng userId req)
  | UpdateExpense => lift (update_expense rt eng userId req path)
  | ListConversations => list_conversations userId
  | GetConversation => get_conversation userId path
  | SendChatMessage => send_chat_message rt userId req path
  | ListTickets => list_tickets userId
  | CreateTicket => create_ticket rt userId req
  | GetTicket => get_ticket userId path
  | SendTicketMessage => send_ticket_message rt userId req path
  | ListIntegrations => list_integrations userId
  | embedded =>
      match handler rt userId req path embedded with
      | Some h => lift h
      | None => lift not_found
      end
  end.

(** A block inside the [try]. *)
Definition run_block (h : Block) (t : Tables) : Tables * Response :=
  let '(t', out) := h t in
  match out with
  | Respond r => (t', r)
  | Throw e => (t', caught e)
  end.

(** The callback given to [Deno.serve], every block included. *)
Definition serve_all (rt : Runtime) (eng : Engine) (t : Tables) (req : Request)
    : Tables * Response :=
  if String.eqb (method req) "OPTIONS" then (t, mk_response 200 corsHeaders None)
  else
    match Authorization req with
    | None => (t, unauthorized)
    | Some authHeader =>
        if negb (startsWith authHeader "Bearer ") then (t, unauthorized)
        else
          let token := remove_first "Bearer " authHeader in
          match getUser rt token with
          | None => (t, unauthorized)
          | Some userId =>
              let path := route_path (pathname req) in
              run_block (block rt eng userId req path (route (method req) path)) t
          end
    end.

End Rest.


(* ================================================================== *)
(** ** More to run the function on, more vocabulary *)
(* ================================================================== *)

Module Desk.
Import Js Pg StoreApi Rest.

(** Numbers and decimal integers in text. *)
Definition engine : Engine :=
  {| parseFloat := fun v =>
       match v with
       | JNum x => x
       | JStr s => Sample.parse_int s
       | _ => NaN
       end |}.

(** The store of [Sample], with a conversation of alice and one of carol, a
    profile, and a ticket of bob. *)
Definition tables : Tables :=
  {| core := Sample.db;
     review_requests := [];
     seller_review_settings := [];
     chat_conversations :=
       [[("id", JStr "c1"); ("seller_id", JStr "alice"); ("customer_name", JStr "Dan");
         ("last_message_at", JNull)];
        [("id", JStr "c2"); ("seller_id", JStr "carol"); ("customer_name", JStr "Eve");
         ("last_message_at", JStr "2024-06-14T18:00:00")]];
     chat_messages :=
       [[("id", JStr "m1"); ("conversation_id", JStr "c2"); ("sender_type", JStr "customer");
         ("message", JStr "Is the vase blue?"); ("created_at", JStr "2024-06-14T18:00:00")]];
     profiles := [[("user_id", JStr "alice"); ("name", JStr "Alice A.")]];
     support_tickets :=
       [[("id", JStr "k1"); ("user_id", JStr "bob"); ("subject", JStr "Refund");
         ("status", JStr "open"); ("created_at", JStr "2024-06-11T08:00:00")]];
     support_messages := [];
     accounting_integrations := [] |}.

Definition ask (m : string) (token : option string) (p : string) (b : json) : Request :=
  Sample.request m token p [] b.

End Desk.

Module Terms.
Import Js Pg StoreApi Rest Spec.

(** A path segment: not empty, no slash. *)
Fixpoint no_slash (w : string) : bool :=
  match w with
  | EmptyString => true
  | String c rest => negb (Ascii.eqb c "/") && no_slash rest
  end.

Definition segment_ok (w : string) : bool := negb (String.eqb w "") && no_slash w.

(** The response [{ success: true, data }] under status 201. *)
Definition created (d : json) : Response :=
  mk_response 201 jsonHeaders (Some (JObj [("success", JBool true); ("data", d)])).

(** The 500 of a query that failed. *)
Definition unknown_error : Response := error_response 500 "Unknown error".

(** The row at every position that is not of [userId] is the same in both
    tables. *)
Definition others_untouched (c userId : string) (before after : list Row) : Prop :=
  List.length after = List.length before
  /\ forall i r, nth_error before i = Some r -> col r c <> JStr userId ->
                 nth_error after i = Some r.

(** The rating is missing or a whole number. *)
Definition whole_rating (x : Row) : Prop :=
  col x "rating" = JNull
  \/ exists q z, col x "rating" = JNum (Fin q) /\ q == inject_Z z.

(** The bucket a review falls into: its rating, brought into 1..5; a review
    without a rating counts as one star. *)
Definition stars_of (x : Row) : Z :=
  match col x "rating" with
  | JNum (Fin q) => Z.min 5 (Z.max 1 (Qfloor q))
  | _ => 1
  end.

(** How many of the reviews fall into bucket [k]. *)
Definition in_bucket (k : Z) (r : list Row) : nat :=
  List.length (filter (fun x => Z.eqb (stars_of x) k) r).

(** The distribution object with the given counts. *)
Definition distribution (c : Z -> nat) : list (string * json) :=
  [("1", JNum (of_nat (c 1%Z))); ("2", JNum (of_nat (c 2%Z)));
   ("3", JNum (of_nat (c 3%Z))); ("4", JNum (of_nat (c 4%Z)));
   ("5", JNum (of_nat (c 5%Z)))].

(** The tables once the rows [added] are stored as review requests, each
    under an identifier of its own. *)
Definition requested (added : list Row) (t : Tables) : Tables :=
  with_core (with_serial (serial (core t) + List.length added) (core t))
    (with_review_requests (review_requests t ++ added)%list t).

(** The caller has exactly one transaction with the id [o]. *)
Definition own_order (userId : string) (t : Tables) (o : json) : bool :=
  match eq "seller_id" (text userId) (eq "id" (Some o) (transactions (core t))) with
  | [_] => true
  | _ => false
  end.

(** The answer of POST /reviews/request. *)
Definition requests_sent (n : nat) : Response :=
  mk_response 200 jsonHeaders
    (Some (JObj [("success", JBool true); ("requests_sent", JNum (of_nat n))])).

(** The envelope of an answer: JSON with the CORS headers, one of the
    statuses the function uses, and an object whose first property,
    [success], tells whether the status is a 2xx. *)
Definition enveloped (r : Response) : Prop :=
  headers r = jsonHeaders
  /\ In (status r) [200; 201; 400; 401; 403; 404; 500; 501]%Z
  /\ exists rest,
       payload r = Some (JObj (("success", JBool (status r <? 300)%Z) :: rest)).

(** What a block answers is in the envelope; what it throws is put into it
    by the [catch] block. *)
Definition answers_enveloped (o : Outcome) : Prop :=
  match o with
  | Respond r => enveloped r
  | Throw _ => True
  end.

(** The routes a GET can take. *)
Definition reads : list Route :=
  [GetStore; ListProducts; ListSocial; ListReviews; ReviewAnalytics;
   RequestableOrders; GetAutoRequest; ListQuestions; FinancialDashboard;
   ListExpenses; ProfitLoss; ListConversations; GetConversation; ListTickets;
   GetTicket; ListIntegrations; TaxReport; NotFound].

End Terms.

(* ================================================================== *)
(** ** Properties *)
(* ================================================================== *)

Import Js Pg StoreApi Spec.

(** *** Strings and routes *)

Lemma prefix_append (p s : string) : String.prefix p (p ++ s) = true.
Proof.
  induction p as [|c p IH]; simpl.
  - now destruct s.
  - destruct (ascii_dec c c) as [_|n]; [exact IH | now elim n].
Qed.

Lemma drop_append (p s : string) : drop (String.length p) (p ++ s) = s.
Proof. induction p as [|c p IH]; simpl; [reflexivity | exact IH]. Qed.

Lemma startsWith_append (p s : string) : startsWith (p ++ s) p = true.
Proof. apply prefix_append. Qed.

Lemma remove_first_prefix (p x : string) :
  String.prefix p x = true -> remove_first p x = drop (String.length p) x.
Proof.
  intro H. destruct x as [|c x].
  - destruct p; [reflexivity | discriminate H].
  - cbn [remove_first]. now rewrite H.
Qed.

Lemma remove_first_append (p s : string) : remove_first p (p ++ s) = s.
Proof.
  rewrite remove_first_prefix by apply prefix_append. apply drop_append.
Qed.

Lemma pg_eq_text (c : json) (u : string) :
  pg_eq c (text u) = true <-> c = JStr u.
Proof.
  unfold text; destruct c; simpl; split; intro H; try discriminate.
  - apply String.eqb_eq in H. now subst.
  - injection H as ->. apply String.eqb_refl.
Qed.

Lemma pg_eq_text_false (c : json) (u : string) :
  pg_eq c (text u) = false <-> c <> JStr u.
Proof.
  rewrite <- pg_eq_text. destruct (pg_eq c (text u)); split; congruence.
Qed.

(** *** The dispatcher *)

Lemma serve_signed_in (rt : Runtime) (db : Db) (req : Request)
    (userId m path : string) :
  signed_in rt req userId -> asks req m path -> m <> "OPTIONS" ->
  serve rt db req
  = option_map (fun h => run h db) (handler rt userId req path (route m path)).
Proof.
  intros (token & Hauth & Huser) (Hm & Hp) Hopt. unfold serve.
  rewrite Hm, Hp.
  destruct (String.eqb m "OPTIONS") eqn:E.
  { apply String.eqb_eq in E. contradiction. }
  rewrite Hauth. cbv beta iota.
  rewrite startsWith_append, remove_first_append, Huser. reflexivity.
Qed.

Lemma with_body_ok (req : Request) (b : json) (k : json -> Handler) (db : Db) :
  body req = inr b -> b <> JNull -> with_body req k db = k b db.
Proof.
  intros Hb Hn. unfold with_body. rewrite Hb. destruct b; congruence.
Qed.

Lemma no_store_no_rows (db : Db) (userId : string) :
  has_no_store db userId -> eq "seller_id" (text userId) (stores db) = [].
Proof.
  unfold has_no_store, eq. induction (stores db) as [|s rows IH]; intro H; simpl.
  - reflexivity.
  - assert (Hs : pg_eq (col s "seller_id") (text userId) = false).
    { apply pg_eq_text_false, H. now left. }
    rewrite Hs. apply IH. intros s' Hin. apply H. now right.
Qed.

(** C10. A signed-in caller who has no store gets [200] with
    [{ success: true, data: [] }] from GET /products, GET /social and
    GET /reviews/questions, and the store is left as it was. *)
Theorem lists_are_empty_without_a_store
    (rt : Runtime) (db : Db) (req : Request) (userId path : string) :
  signed_in rt req userId ->
  has_no_store db userId ->
  In path ["/products"; "/social"; "/reviews/questions"] ->
  asks req "GET" path ->
  serve rt db req = Some (db, ok_200 (JArr [])).
Proof.
  intros Hin Hstore Hpath Hreq.
  rewrite (serve_signed_in rt db req userId "GET" path Hin Hreq) by discriminate.
  apply no_store_no_rows in Hstore.
  destruct Hpath as [<-|[<-|[<-|[]]]]; cbn;
    unfold run, list_products, list_social, list_questions;
    rewrite Hstore; reflexivity.
Qed.

Lemma lists_are_empty_without_a_store_witness :
  serve Sample.rt Sample.db (Sample.request "GET" Sample.bob "/social" [] JNull)
  = Some (Sample.db, ok_200 (JArr [])).
Proof.
  apply (lists_are_empty_without_a_store Sample.rt Sample.db _ "bob" "/social").
  - exists "token-bob". split; reflexivity.
  - intros s [<-|[<-|[]]]; discriminate.
  - simpl. tauto.
  - split; reflexivity.
Defined.

(** *** The bearer-token check *)

(** C6, as stated, fails on a preflight: an OPTIONS request without an
    Authorization header is answered 200 with an empty body, not 401. *)
Lemma preflight_without_token_is_not_refused :
  no_valid_token Sample.rt Sample.preflight
  /\ serve Sample.rt Sample.db Sample.preflight
     = Some (Sample.db, mk_response 200 corsHeaders None)
  /\ ~ (exists db' r,
          serve Sample.rt Sample.db Sample.preflight = Some (db', r)
          /\ status r = 401%Z).
Proof.
  split; [now left|]. split; [reflexivity|].
  intros (db' & r & H & Hst). cbv in H. injection H as _ <-. discriminate Hst.
Qed.

(** C6, amended.  Every request other than an OPTIONS preflight that carries
    no valid bearer token is answered 401 with [success: false], whatever its
    method and path, and the store is untouched: no block of the route chain
    is reached. *)
Theorem unauthorized_before_routing (rt : Runtime) (db : Db) (req : Request) :
  method req <> "OPTIONS" ->
  no_valid_token rt req ->
  serve rt db req = Some (db, error_response 401 "Unauthorized").
Proof.
  intros Hopt Htok. unfold serve.
  destruct (String.eqb (method req) "OPTIONS") eqn:E.
  { apply String.eqb_eq in E. contradiction. }
  destruct Htok as [H|[(h & H & Hpre)|(h & H & Hrej)]]; rewrite H.
  - reflexivity.
  - cbv beta iota. now rewrite Hpre.
  - cbv beta iota. destruct (startsWith h "Bearer "); [|reflexivity].
    cbv beta iota zeta. cbn [negb]. now rewrite Hrej.
Qed.

Lemma unauthorized_before_routing_witness :
  serve Sample.rt Sample.db
    (Sample.request "DELETE" (Some "expired") "/products/p1" [] JNull)
  = Some (Sample.db, error_response 401 "Unauthorized").
Proof.
  apply unauthorized_before_routing.
  - discriminate.
  - right. right. exists "Bearer expired". split; reflexivity.
Defined.

(** *** Store creation *)

Lemma route_create_store (path : string) :
  root path = true -> route "POST" path = CreateStore.
Proof.
  unfold root. intro H. apply orb_true_iff in H.
  destruct H as [H|H]; apply String.eqb_eq in H; subst; reflexivity.
Qed.

Lemma unique_row (c : string) (v : value) (rows : list Row) (s : Row) :
  unique_on c rows -> In s rows -> pg_eq (col s c) v = true ->
  eq c v rows = [s].
Proof.
  intros Huniq Hin Heq.
  assert (Hs : In s (eq c v rows)) by (apply filter_In; auto).
  specialize (Huniq v).
  destruct (eq c v rows) as [|r [|r' rest]]; simpl in *.
  - contradiction.
  - destruct Hs as [->|[]]. reflexivity.
  - lia.
Qed.

Lemma no_row (c : string) (v : value) (rows : list Row) :
  (forall s, In s rows -> pg_eq (col s c) v = false) -> eq c v rows = [].
Proof.
  unfold eq. induction rows as [|s rows IH]; intro H; simpl; [reflexivity|].
  rewrite (H s) by now left. apply IH. intros s' Hs. apply H. now right.
Qed.

(** What the two checks of POST / catch.  With a name and a slug: when the
    caller has a store, and only one, the answer is 400 "User already has a
    store"; otherwise, when the slug is in use, and by one store only, it is
    400 "Slug already taken"; in both cases the store is returned unchanged.
    Each check asks for [.maybeSingle()], which answers an error and no row
    when several rows match: a conflict with two rows passes. *)
Lemma create_store_conflicts
    (rt : Runtime) (db : Db) (req : Request) (userId path slug : string) (b : json) :
  signed_in rt req userId ->
  asks req "POST" path -> root path = true ->
  body req = inr b ->
  truthy (prop b "name") = true ->
  prop b "slug" = Some (JStr slug) -> slug <> "" ->
  (has_store db userId -> unique_on "seller_id" (stores db) ->
   serve rt db req = Some (db, error_response 400 "User already has a store"))
  /\ (has_no_store db userId ->
      slug_in_use db slug -> unique_on "slug" (stores db) ->
      serve rt db req = Some (db, error_response 400 "Slug already taken")).
Proof.
  intros Hin Hreq Hroot Hbody Hname Hslug Hne.
  rewrite (serve_signed_in rt db req userId "POST" path Hin Hreq) by discriminate.
  rewrite (route_create_store path Hroot). cbn [handler option_map].
  unfold run, create_store.
  rewrite (with_body_ok req b) by (auto; intros ->; discriminate Hslug).
  assert (Htr : truthy (prop b "slug") = true).
  { rewrite Hslug. simpl. destruct (String.eqb slug "") eqn:E; [|reflexivity].
    apply String.eqb_eq in E. contradiction. }
  rewrite Hname, Htr. cbn [negb orb]. split.
  - intros (st & Hs & Hown) Hsell.
    rewrite (unique_row "seller_id" (text userId) (stores db) st Hsell Hs)
      by (now apply pg_eq_text).
    reflexivity.
  - intros Hnone (st & Hs & Huse) Huslug.
    rewrite (no_store_no_rows db userId Hnone). cbn [maybeSingle data no_rows].
    rewrite Hslug.
    rewrite (unique_row "slug" (Some (JStr slug)) (stores db) st Huslug Hs)
      by (now apply pg_eq_text).
    reflexivity.
Qed.

Lemma pg_eq_JStr (a : string) (v : value) :
  pg_eq (JStr a) v = true -> v = Some (JStr a).
Proof.
  destruct v as [[| | |x| |]|]; simpl; try discriminate.
  intro H. apply String.eqb_eq in H. now subst.
Qed.

(** Distinct text keys make a column unique. *)
Lemma unique_on_text (c : string) (rows : list Row) :
  (forall r, In r rows -> exists s, col r c = JStr s) ->
  NoDup (map (fun r => col r c) rows) ->
  unique_on c rows.
Proof.
  intros Htext Hnd v. induction rows as [|r rows IH]; simpl; [lia|].
  inversion Hnd as [|? ? Hnotin Hnd']; subst.
  destruct (pg_eq (col r c) v) eqn:E.
  - destruct (Htext r (or_introl Logic.eq_refl)) as (a & Ha).
    rewrite Ha in E. apply pg_eq_JStr in E. subst v.
    rewrite no_row; [simpl; lia|].
    intros r' Hr'. apply pg_eq_text_false. intro Hc.
    apply Hnotin. rewrite Ha, <- Hc.
    exact (in_map (fun x => col x c) rows r' Hr').
  - apply IH; [|exact Hnd']. intros r' Hr'. apply Htext. now right.
Qed.

(** A concrete table whose rows carry distinct texts in a column. *)
Ltac distinct_keys :=
  apply unique_on_text;
  [ let r := fresh "r" in
    let Hr := fresh "Hr" in
    intros r Hr; simpl in Hr;
    repeat (destruct Hr as [<-|Hr]; [eexists; reflexivity|]); contradiction
  | repeat constructor; simpl; intuition discriminate ].

Lemma sample_stores_unique (c : string) :
  c = "seller_id" \/ c = "slug" \/ c = "id" -> unique_on c (stores Sample.db).
Proof. intros [->|[->| ->]]; distinct_keys. Qed.

Lemma create_store_conflicts_witness :
  serve Sample.rt Sample.db (Sample.request "POST" Sample.alice "" [] Sample.new_store)
  = Some (Sample.db, error_response 400 "User already has a store")
  /\ serve Sample.rt Sample.db (Sample.request "POST" Sample.bob "/" [] Sample.new_store)
     = Some (Sample.db, error_response 400 "Slug already taken").
Proof.
  split.
  - destruct (create_store_conflicts Sample.rt Sample.db
                (Sample.request "POST" Sample.alice "" [] Sample.new_store)
                "alice" "/" "alice-shop" Sample.new_store)
      as [Hhas _].
    + exists "token-alice". split; reflexivity.
    + split; reflexivity.
    + reflexivity.
    + reflexivity.
    + reflexivity.
    + reflexivity.
    + discriminate.
    + apply Hhas.
      * eexists. split; [left; reflexivity | reflexivity].
      * apply sample_stores_unique. tauto.
  - destruct (create_store_conflicts Sample.rt Sample.db
                (Sample.request "POST" Sample.bob "/" [] Sample.new_store)
                "bob" "/" "alice-shop" Sample.new_store)
      as [_ Htaken].
    + exists "token-bob". split; reflexivity.
    + split; reflexivity.
    + reflexivity.
    + reflexivity.
    + reflexivity.
    + reflexivity.
    + discriminate.
    + apply Htaken.
      * intros st [<-|[<-|[]]]; discriminate.
      * eexists. split; [left; reflexivity | reflexivity].
      * apply sample_stores_unique. tauto.
Defined.

(** Outside the two conflicts the store is created: one row is appended
    for the caller, inactive and private. *)
Lemma create_store_inserts
    (rt : Runtime) (db : Db) (req : Request) (userId path slug : string) (b : json) :
  signed_in rt req userId ->
  asks req "POST" path -> root path = true ->
  body req = inr b ->
  truthy (prop b "name") = true ->
  prop b "slug" = Some (JStr slug) -> slug <> "" ->
  has_no_store db userId -> ~ slug_in_use db slug ->
  exists store,
    serve rt db req
    = Some (next_serial (with_stores (insert store (stores db)) db),
            mk_response 201 jsonHeaders
              (Some (JObj [("success", JBool true); ("data", JObj store)])))
    /\ col store "seller_id" = JStr userId
    /\ col store "slug" = JStr slug
    /\ col store "status" = JStr "inactive"
    /\ col store "visibility" = JStr "PRIVATE".
Proof.
  intros Hin Hreq Hroot Hbody Hname Hslug Hne Hnone Hfree.
  rewrite (serve_signed_in rt db req userId "POST" path Hin Hreq) by discriminate.
  rewrite (route_create_store path Hroot). cbn [handler option_map].
  unfold run, create_store.
  rewrite (with_body_ok req b) by (auto; intros ->; discriminate Hslug).
  assert (Htr : truthy (prop b "slug") = true).
  { rewrite Hslug. simpl. destruct (String.eqb slug "") eqn:E; [|reflexivity].
    apply String.eqb_eq in E. contradiction. }
  rewrite Hname, Htr. cbn [negb orb].
  rewrite (no_store_no_rows db userId Hnone). cbn [maybeSingle data no_rows].
  rewrite Hslug, no_row.
  2:{ intros st Hst. apply pg_eq_text_false. intro Hc. apply Hfree. now exists st. }
  cbn [maybeSingle data no_rows].
  eexists. split; [reflexivity|].
  destruct (prop b "name") as [name|]; [|discriminate Hname].
  destruct (prop b "bio"), (prop b "logo"); repeat split; reflexivity.
Qed.

Lemma unique_on_insert (c a : string) (rows : list Row) (r : Row) :
  unique_on c rows -> col r c = JStr a -> eq c (text a) rows = [] ->
  unique_on c (insert r rows).
Proof.
  intros Huniq Hcol Hfree v. unfold insert, eq. rewrite filter_app, length_app.
  cbn [filter]. destruct (pg_eq (col r c) v) eqn:E.
  - rewrite Hcol in E. apply pg_eq_JStr in E. subst v.
    change (filter _ rows) with (eq c (text a) rows). rewrite Hfree. simpl. lia.
  - specialize (Huniq v). unfold eq in Huniq. simpl. lia.
Qed.

(** "One store per seller" and "unique slug" are kept by every POST /. *)
Lemma create_store_keeps_uniqueness
    (rt : Runtime) (db : Db) (req : Request) (userId path slug : string) (b : json) :
  signed_in rt req userId ->
  asks req "POST" path -> root path = true ->
  body req = inr b ->
  truthy (prop b "name") = true ->
  prop b "slug" = Some (JStr slug) -> slug <> "" ->
  unique_on "seller_id" (stores db) ->
  unique_on "slug" (stores db) ->
  exists db' r,
    serve rt db req = Some (db', r)
    /\ unique_on "seller_id" (stores db')
    /\ unique_on "slug" (stores db').
Proof.
  intros Hin Hreq Hroot Hbody Hname Hslug Hne Hsell Huslug.
  rewrite (serve_signed_in rt db req userId "POST" path Hin Hreq) by discriminate.
  rewrite (route_create_store path Hroot). cbn [handler option_map].
  unfold run, create_store.
  rewrite (with_body_ok req b) by (auto; intros ->; discriminate Hslug).
  assert (Htr : truthy (prop b "slug") = true).
  { rewrite Hslug. simpl. destruct (String.eqb slug "") eqn:E; [|reflexivity].
    apply String.eqb_eq in E. contradiction. }
  rewrite Hname, Htr, Hslug. cbn [negb orb].
  destruct (prop b "name") as [name|]; [|discriminate Hname].
  assert (H1 := Hsell (text userId)). assert (H2 := Huslug (Some (JStr slug))).
  destruct (eq "seller_id" (text userId) (stores db)) as [|s1 [|s2 more]] eqn:E1;
    [| eexists; eexists; split; [reflexivity | now split] | simpl in H1; lia].
  destruct (eq "slug" (Some (JStr slug)) (stores db)) as [|s1 [|s2 more]] eqn:E2;
    [| eexists; eexists; split; [reflexivity | now split] | simpl in H2; lia].
  eexists. eexists. split; [reflexivity|].
  cbn [maybeSingle data no_rows stores with_stores next_serial with_serial].
  split.
  - apply (unique_on_insert "seller_id" userId); auto.
  - apply (unique_on_insert "slug" slug); auto.
Qed.

(** C3 fails on the code.  alice's store has the slug alice-shop, carol's
    the slug carol-shop, bob has no store.  alice sends PUT / with the slug
    carol-shop: the update is made without a look at the other stores and
    answers 200, and two stores carry the slug.  bob then sends POST / with
    a name and that slug: the slug is in use, by another seller, yet the
    check, which asks for [.maybeSingle()], finds two rows, hence none; the
    answer is 201 and a third store carries the slug. *)
Theorem create_store_accepts_a_slug_used_twice :
  exists t1 r1 db2 r2,
    Rest.serve_all Sample.rt Desk.engine Desk.tables
      (Desk.ask "PUT" Sample.alice "/" (JObj [("slug", JStr "carol-shop")]))
    = (t1, r1)
    /\ status r1 = 200%Z
    /\ map (fun s => (col s "seller_id", col s "slug")) (stores Sample.db)
       = [(JStr "alice", JStr "alice-shop"); (JStr "carol", JStr "carol-shop")]
    /\ map (fun s => (col s "seller_id", col s "slug")) (stores (Rest.core t1))
       = [(JStr "alice", JStr "carol-shop"); (JStr "carol", JStr "carol-shop")]
    /\ has_no_store (Rest.core t1) "bob"
    /\ slug_in_use (Rest.core t1) "carol-shop"
    /\ serve Sample.rt (Rest.core t1)
         (Sample.request "POST" Sample.bob "/" []
            (JObj [("name", JStr "Third shop"); ("slug", JStr "carol-shop")]))
       = Some (db2, r2)
    /\ status r2 = 201%Z
    /\ map (fun s => (col s "seller_id", col s "slug")) (stores db2)
       = [(JStr "alice", JStr "carol-shop"); (JStr "carol", JStr "carol-shop");
          (JStr "bob", JStr "carol-shop")].
Proof.
  eexists. eexists. eexists. eexists.
  split; [vm_compute; reflexivity|].
  split; [reflexivity|]. split; [reflexivity|]. split; [reflexivity|].
  split; [intros s [<-|[<-|[]]]; discriminate|].
  split; [eexists; split; [right; left; reflexivity | reflexivity]|].
  split; [vm_compute; reflexivity|].
  split; reflexivity.
Qed.

(** *** Routes with an identifier *)

Lemma skip_id_rest (r suf : string) :
  all_id r = true -> stops suf -> snd (skip_id (r ++ suf)) = suf.
Proof.
  intros Hr Hs. induction r as [|c r IH]; simpl in *.
  - destruct suf as [|c s]; [reflexivity|]. simpl in *. now rewrite Hs.
  - apply andb_true_iff in Hr. destruct Hr as [Hc Hr]. rewrite Hc. simpl. auto.
Qed.

Lemma skip_id_append (id suf : string) :
  is_id id = true -> stops suf -> skip_id (id ++ suf) = (true, suf).
Proof.
  unfold is_id. intros H Hs. apply andb_true_iff in H. destruct H as [Hne Hall].
  destruct id as [|c r]; [discriminate Hne|]. simpl in *.
  apply andb_true_iff in Hall. destruct Hall as [Hc Hr]. rewrite Hc.
  now rewrite skip_id_rest.
Qed.

Lemma id_char_not_slash (c : ascii) : id_char c = true -> Ascii.eqb c "/" = false.
Proof.
  intro H. destruct (Ascii.eqb c "/") eqn:E; [|reflexivity].
  apply Ascii.eqb_eq in E. subst c. discriminate H.
Qed.

Lemma split_slash_id (id r : string) :
  all_id id = true -> split_slash (id ++ String "/" r) = id :: split_slash r.
Proof.
  intro H. induction id as [|c id IH]; simpl in *; [reflexivity|].
  apply andb_true_iff in H. destruct H as [Hc Hid].
  rewrite (id_char_not_slash c Hc), (IH Hid). reflexivity.
Qed.

Lemma split_slash_last (id : string) :
  all_id id = true -> split_slash id = [id].
Proof.
  intro H. induction id as [|c id IH]; simpl in *; [reflexivity|].
  apply andb_true_iff in H. destruct H as [Hc Hid].
  rewrite (id_char_not_slash c Hc), (IH Hid). reflexivity.
Qed.

Lemma is_id_all (id : string) : is_id id = true -> all_id id = true.
Proof. unfold is_id. intro H. now apply andb_true_iff in H. Qed.

Lemma prefix_nil (s : string) : String.prefix "" s = true.
Proof. now destruct s. Qed.



(** *** Rows *)

Lemma col_set_col_same (c : string) (v : json) (r : Row) :
  col (set_col c v r) c = v.
Proof.
  unfold col. induction r as [|[c' v'] r IH]; simpl.
  - now rewrite String.eqb_refl.
  - destruct (String.eqb c c') eqn:E; simpl.
    + now rewrite String.eqb_refl.
    + now rewrite E.
Qed.

Lemma col_set_col_other (c c' : string) (v : json) (r : Row) :
  c' <> c -> col (set_col c v r) c' = col r c'.
Proof.
  intro Hne. unfold col. induction r as [|[k w] r IH]; simpl.
  - destruct (String.eqb c' c) eqn:E; [|reflexivity].
    apply String.eqb_eq in E. contradiction.
  - destruct (String.eqb c k) eqn:E; simpl.
    + apply String.eqb_eq in E. subst k.
      destruct (String.eqb c' c) eqn:E'; [|reflexivity].
      apply String.eqb_eq in E'. contradiction.
    + destruct (String.eqb c' k); [reflexivity | exact IH].
Qed.

Lemma update_length (changes : list (string * json)) (sel : Row -> bool)
    (rows : list Row) :
  List.length (update changes sel rows) = List.length rows.
Proof. apply length_map. Qed.

(** *** Answering a question *)








(** *** Sums *)

Lemma filter_and {A : Type} (p q : A -> bool) (l : list A) :
  filter p (filter q l) = filter (fun x => q x && p x) l.
Proof.
  induction l as [|x l IH]; [reflexivity|]. simpl.
  destruct (q x); simpl; [destruct (p x)|]; now rewrite IH.
Qed.

(** The [reduce] of the handlers over a filtered list adds up, in order and
    from 0, the rows that pass the filter. *)
Lemma reduce_sum_filter (p : Row -> bool) (f g : Row -> num) (rows : list Row) :
  (forall t, f t = g t) ->
  reduce_sum f (filter p rows) = sum_over p g rows.
Proof.
  intro H. unfold reduce_sum, sum_over. generalize zero.
  induction rows as [|t rows IH]; intro a; [reflexivity|].
  cbn [filter sum_from]. destruct (p t); cbn [fold_left]; rewrite ?H; apply IH.
Qed.

Lemma filter_swap (p q : Row -> bool) (rows : list Row) :
  filter p (filter q rows) = filter q (filter p rows).
Proof.
  induction rows as [|r rows IH]; simpl; [reflexivity|].
  destruct (q r) eqn:Eq, (p r) eqn:Ep; simpl; rewrite ?Eq, ?Ep, IH; reflexivity.
Qed.

Lemma status_of_is (s : string) (t : Row) :
  s <> "" -> String.eqb (status_of t) s = status_is s t.
Proof.
  intro Hs. unfold status_of, status_is. destruct (col t "status"); try reflexivity;
    destruct s; try contradiction; reflexivity.
Qed.

Lemma completed_filter (txRows : list Row) :
  completed txRows = filter (status_is "completed") txRows.
Proof.
  unfold completed. apply filter_ext. intro t. now apply status_of_is.
Qed.

Lemma refunded_filter (txRows : list Row) :
  refunded txRows = filter (status_is "refunded") txRows.
Proof.
  unfold refunded. apply filter_ext. intro t. now apply status_of_is.
Qed.

Lemma payout_of_fallback (rt : Runtime) (t : Row) :
  payout_of rt t = payout_or_amount rt t.
Proof.
  unfold payout_of, payout_or_amount, number_or_zero, nullish.
  destruct (col t "seller_payout"); try reflexivity.
  destruct (col t "amount"); reflexivity.
Qed.

Lemma amount_of_or_zero (rt : Runtime) (t : Row) :
  amount_of rt t = number_or_zero rt t "amount".
Proof.
  unfold amount_of, number_or_zero, nullish. destruct (col t "amount"); reflexivity.
Qed.

Lemma fee_of_or_zero (rt : Runtime) (t : Row) :
  fee_of rt t = number_or_zero rt t "platform_fee".
Proof.
  unfold fee_of, number_or_zero, nullish. destruct (col t "platform_fee"); reflexivity.
Qed.

Lemma expense_of_amount (rt : Runtime) (e : Row) :
  expense_of rt e = expense_amount rt e.
Proof.
  unfold expense_of, expense_amount, or_zero, truthy.
  destruct (Number rt (Some (col e "amount"))) as [x| | |]; try reflexivity.
  now destruct (Qeq_bool x 0).
Qed.

(** *** The rows of the period *)

Lemma seller_filter (userId : string) (r : Row) :
  pg_eq (col r "seller_id") (text userId) = of_seller userId r.
Proof. unfold of_seller. now destruct (col r "seller_id"). Qed.

Lemma dated_filter (c lo hi : string) (r : Row) :
  pg_le (JStr lo) (col r c) && pg_le (col r c) (JStr hi) = dated c lo hi r.
Proof. unfold dated. now destruct (col r c). Qed.

(** The three filters of the transaction query select the caller's
    transactions of the period. *)
Lemma txRows_scoped (userId startDate endDate : string) (db : Db) :
  txRows_of userId startDate endDate db
  = transactions_between userId startDate endDate db.
Proof.
  unfold txRows_of, transactions_between, lte, gte, eq.
  rewrite !filter_and. apply filter_ext. intro t.
  rewrite seller_filter,
    <- (dated_filter "created_at" startDate (endDate ++ "T23:59:59") t).
  destruct (of_seller userId t), (pg_le (JStr startDate) (col t "created_at")),
    (pg_le (col t "created_at") (JStr (endDate ++ "T23:59:59"))); reflexivity.
Qed.

(** The four filters of the expense query select the active ones among the
    caller's expenses of the period. *)
Lemma expenseRows_active (userId startDate endDate : string) (db : Db) :
  expenseRows_of userId startDate endDate db
  = filter is_active (expenses_in_range userId startDate endDate db).
Proof.
  unfold expenseRows_of, expenses_in_range, lte, gte, eq.
  rewrite !filter_and. apply filter_ext. intro e. unfold is_active.
  rewrite seller_filter, <- (dated_filter "expense_date" startDate endDate e).
  destruct (of_seller userId e), (pg_eq (col e "status") (text "active")),
    (pg_le (JStr startDate) (col e "expense_date")),
    (pg_le (col e "expense_date") (JStr endDate)); reflexivity.
Qed.

Lemma days_of_period (req : Request) :
  period_days req = days_back (get "period" (searchParams req)).
Proof.
  unfold period_days, days_back, str_or.
  destruct (get "period" (searchParams req)) as [p|]; [|reflexivity].
  destruct (String.eqb p "") eqn:E; [|reflexivity].
  apply String.eqb_eq in E. now subst.
Qed.

Lemma dashboard_days (rt : Runtime) (req : Request) :
  date_days_ago rt (period_days req)
  = first_day rt (days_back (get "period" (searchParams req)))
  /\ today rt = last_day rt.
Proof. now rewrite days_of_period. Qed.

(** *** The engine's arithmetic *)

(** The operations round as the engine does: 0.1 + 0.2 is
    0.30000000000000004, the integers above 2^53 are spaced, a quotient is
    the nearest binary64 number, and a sum beyond the range is an infinity. *)
Example rounding_of_the_engine :
  add64 (Fin (1 # 10)) (Fin (2 # 10)) = Fin (1351079888211149 # 4503599627370496)
  /\ add64 (of_Z 9007199254740992) (of_Z 1) = of_Z 9007199254740992
  /\ add64 (of_Z 9007199254740992) (of_Z 3) = of_Z 9007199254740996
  /\ sub64 (Fin (3 # 10)) (Fin (1 # 10)) = Fin (7205759403792793 # 36028797018963968)
  /\ mul64 (div64 (of_Z 65) (of_Z 90)) hundred
     = Fin (5082187079497955 # 70368744177664)
  /\ add64 (Fin (2 ^ 1023)) (Fin (2 ^ 1023)) = PInf
  /\ div64 (of_Z 1) zero = PInf
  /\ div64 zero zero = NaN.
Proof. vm_compute. repeat split; reflexivity. Qed.

(** On whole amounts of ordinary size nothing is rounded. *)
Example whole_amounts_are_exact :
  add64 zero (of_Z 90) = of_Z 90
  /\ add64 (of_Z 90) (of_Z (-90)) = zero
  /\ sub64 (sub64 (of_Z 90) zero) zero = of_Z 90
  /\ sub64 (of_Z 90) (of_Z 25) = of_Z 65.
Proof. vm_compute. repeat split; reflexivity. Qed.

(** *** The financial dashboard *)

(** C4. GET /financial/dashboard, over the caller's transactions and expenses
    of the period (the caller's rows dated from the day that lies 7, 90, 365
    or, by default, 30 days back to the end of today): revenue is the sum
    of seller_payout (falling back to amount) over the completed rows, refunds
    the sum of amount over the refunded rows, commission the sum of
    platform_fee over the completed rows, expenses the sum of the active
    expenses' amounts, gross_profit = revenue - refunds and
    net_profit = gross_profit - expenses, the sums and differences being
    those of the engine, taken in the order of the rows.  In particular, one
    completed transaction with amount 100, seller_payout 90 and platform_fee
    10 and no expense give revenue 90, commission 10 and net_profit 90. *)
Theorem dashboard_summary
    (rt : Runtime) (db : Db) (req : Request) (userId : string) :
  signed_in rt req userId ->
  asks req "GET" "/financial/dashboard" ->
  let startDate := first_day rt (days_back (get "period" (searchParams req))) in
  let endDate := last_day rt in
  let txRows := transactions_between userId startDate endDate db in
  let expenseRows := expenses_in_range userId startDate endDate db in
  let revenue := sum_over (status_is "completed") (payout_or_amount rt) txRows in
  let refunds :=
    sum_over (status_is "refunded") (fun t => number_or_zero rt t "amount") txRows in
  let commission :=
    sum_over (status_is "completed") (fun t => number_or_zero rt t "platform_fee")
      txRows in
  let expenses := sum_over is_active (expense_amount rt) expenseRows in
  exists summary,
    serve rt db req
    = Some (db, ok_200 (JObj [("summary", JObj summary);
                              ("trend", JArr []); ("breakdown", JArr [])]))
    /\ assoc "revenue" summary = Some (JNum revenue)
    /\ assoc "refunds" summary = Some (JNum refunds)
    /\ assoc "commission" summary = Some (JNum commission)
    /\ assoc "expenses" summary = Some (JNum expenses)
    /\ assoc "gross_profit" summary = Some (JNum (sub64 revenue refunds))
    /\ assoc "net_profit" summary = Some (JNum (sub64 (sub64 revenue refunds) expenses))
    /\ (forall t,
          txRows = [t] -> expenseRows = [] ->
          status_is "completed" t = true ->
          col t "amount" = JNum (of_Z 100) ->
          col t "seller_payout" = JNum (of_Z 90) ->
          col t "platform_fee" = JNum (of_Z 10) ->
          revenue = of_Z 90 /\ commission = of_Z 10
          /\ sub64 (sub64 revenue refunds) expenses = of_Z 90).
Proof.
  intros Hin Hreq startDate endDate txRows expenseRows revenue refunds commission
    expenses.
  rewrite (serve_signed_in rt db req userId "GET" _ Hin Hreq) by discriminate.
  change (route "GET" "/financial/dashboard") with FinancialDashboard.
  cbn [handler option_map]. unfold run, financial_dashboard.
  destruct (dashboard_days rt req) as [-> ->].
  fold startDate endDate.
  rewrite txRows_scoped. fold txRows.
  rewrite completed_filter, refunded_filter, expenseRows_active.
  fold expenseRows.
  rewrite (reduce_sum_filter _ (payout_of rt) (payout_or_amount rt))
    by apply payout_of_fallback.
  rewrite (reduce_sum_filter _ (amount_of rt) (fun t => number_or_zero rt t "amount"))
    by apply amount_of_or_zero.
  rewrite (reduce_sum_filter _ (fee_of rt) (fun t => number_or_zero rt t "platform_fee"))
    by apply fee_of_or_zero.
  rewrite (reduce_sum_filter _ (expense_of rt) (expense_amount rt))
    by apply expense_of_amount.
  fold revenue refunds commission expenses.
  eexists. split; [reflexivity|].
  repeat (split; [reflexivity|]).
  intros t Htx Hex Hst Hamount Hpayout Hfee.
  assert (Hnot : status_is "refunded" t = false).
  { unfold status_is in *. destruct (col t "status"); try discriminate.
    apply String.eqb_eq in Hst. now rewrite Hst. }
  subst revenue refunds commission expenses.
  rewrite Htx, Hex. unfold sum_over. cbn [sum_from]. rewrite Hst, Hnot.
  unfold payout_or_amount, number_or_zero. rewrite Hpayout, Hfee.
  cbn [Number]. vm_compute. repeat split; reflexivity.
Qed.

Lemma dashboard_summary_witness :
  exists summary,
    serve Sample.rt Sample.ledger
      (Sample.request "GET" Sample.alice "/financial/dashboard" [] JNull)
    = Some (Sample.ledger,
            ok_200 (JObj [("summary", JObj summary);
                          ("trend", JArr []); ("breakdown", JArr [])]))
    /\ assoc "revenue" summary = Some (JNum (of_Z 90))
    /\ assoc "commission" summary = Some (JNum (of_Z 10))
    /\ assoc "net_profit" summary = Some (JNum (of_Z 90)).
Proof.
  destruct (dashboard_summary Sample.rt Sample.ledger
              (Sample.request "GET" Sample.alice "/financial/dashboard" [] JNull)
              "alice")
    as (summary & Hserve & Hrev & _ & Hcom & _ & _ & Hnet & Hone).
  - exists "token-alice". split; reflexivity.
  - split; reflexivity.
  - destruct (Hone Sample.t1) as (H90 & H10 & Hprofit);
      try (vm_compute; reflexivity).
    exists summary. rewrite <- H90 at 1. rewrite <- H10, <- Hprofit. tauto.
Defined.

(** The sums are those of the engine.  Four completed payouts, 0.1, 0.2,
    -0.3 and -2^-55, add up to 0 as rationals; added in order in binary64
    they leave 2^-55, which the dashboard reports as the revenue, with a
    margin of 100 percent. *)
Example revenue_is_rounded_as_by_the_engine :
  exists summary,
    serve Sample.rt Sample.pennies
      (Sample.request "GET" Sample.alice "/financial/dashboard" [] JNull)
    = Some (Sample.pennies,
            ok_200 (JObj [("summary", JObj summary);
                          ("trend", JArr []); ("breakdown", JArr [])]))
    /\ assoc "revenue" summary = Some (JNum (Fin (1 # 36028797018963968)))
    /\ assoc "profit_margin" summary = Some (JStr "100.00").
Proof. eexists. split; [vm_compute; reflexivity|]. split; reflexivity. Qed.

(** *** The profit margin *)

Lemma profitMargin_zero (rt : Runtime) (revenue netProfit : num) :
  is_zero revenue -> profitMargin rt revenue netProfit = "0".
Proof.
  intros (q & -> & Hq). unfold profitMargin, gtb, ltb, zero, of_Z.
  assert (H : Qle_bool q (inject_Z 0) = true) by (apply Qle_bool_iff; now rewrite Hq).
  now rewrite H.
Qed.

(** The revenue a report computes is the revenue of the period. *)
Lemma handler_revenue (rt : Runtime) (userId startDate endDate : string) (db : Db) :
  reduce_sum (payout_of rt) (completed (txRows_of userId startDate endDate db))
  = revenue_between rt userId startDate endDate db.
Proof.
  unfold revenue_between. rewrite completed_filter, txRows_scoped.
  apply reduce_sum_filter, payout_of_fallback.
Qed.

(** C5, as stated, fails on the tax report: with no revenue at all it
    reports no profit margin and no other ratio, so none is the string "0". *)
Lemma tax_report_has_no_margin :
  revenue_between Sample.rt "bob" "2024-01-01" "2024-12-31" Sample.db = zero
  /\ serve Sample.rt Sample.db
       (Sample.request "GET" Sample.bob "/financial/reports/tax" [] JNull)
     = Some (Sample.db,
             ok_200 (JObj [("report_type", JStr "annual");
                           ("year", JNum (of_Z 2024));
                           ("quarter", JNull);
                           ("total_sales", JNum zero);
                           ("total_refunds", JNum zero);
                           ("total_expenses", JNum zero);
                           ("taxable_income", JNum zero);
                           ("status", JStr "draft")]))
  /\ ~ (exists d r,
          serve Sample.rt Sample.db
            (Sample.request "GET" Sample.bob "/financial/reports/tax" [] JNull)
          = Some (d, ok_200 r)
          /\ prop r "profit_margin" = Some (JStr "0")).
Proof.
  split; [reflexivity|]. split; [vm_compute; reflexivity|].
  intros (d & r & H & Hm). vm_compute in H. injection H as _ <-. discriminate Hm.
Qed.

(** C5, amended.  On the dashboard and on the profit-and-loss report, when
    the revenue of the period (the sum, as the engine computes it and as the
    report shows it, of the payouts of the caller's completed transactions of
    the period) is 0, profit_margin is the string "0"; the tax report carries
    no profit margin and no other ratio: its data are the report type, the
    year, the quarter, three sums, their difference and a status. *)
Theorem profit_margin_without_revenue
    (rt : Runtime) (db : Db) (req : Request) (userId : string) :
  signed_in rt req userId ->
  (asks req "GET" "/financial/dashboard" ->
   is_zero (revenue_between rt userId
              (first_day rt (days_back (get "period" (searchParams req))))
              (last_day rt) db) ->
   exists summary,
     serve rt db req
     = Some (db, ok_200 (JObj [("summary", JObj summary);
                               ("trend", JArr []); ("breakdown", JArr [])]))
     /\ assoc "revenue" summary
        = Some (JNum (revenue_between rt userId
                        (first_day rt (days_back (get "period" (searchParams req))))
                        (last_day rt) db))
     /\ assoc "profit_margin" summary = Some (JStr "0"))
  /\ (asks req "GET" "/financial/reports/profit-loss" ->
      is_zero (revenue_between rt userId
                 (str_or (get "start_date" (searchParams req)) (first_day rt 30))
                 (str_or (get "end_date" (searchParams req)) (last_day rt)) db) ->
      exists data,
        serve rt db req = Some (db, ok_200 (JObj data))
        /\ assoc "profit_margin" data = Some (JStr "0"))
  /\ (asks req "GET" "/financial/reports/tax" ->
      exists data,
        serve rt db req = Some (db, ok_200 (JObj data))
        /\ map fst data
           = ["report_type"; "year"; "quarter"; "total_sales"; "total_refunds";
              "total_expenses"; "taxable_income"; "status"]).
Proof.
  intros Hin. repeat split.
  - intros Hreq Hzero.
    rewrite (serve_signed_in rt db req userId "GET" _ Hin Hreq) by discriminate.
    change (route "GET" "/financial/dashboard") with FinancialDashboard.
    cbn [handler option_map]. unfold run, financial_dashboard.
    destruct (dashboard_days rt req) as [-> ->].
    rewrite handler_revenue, (profitMargin_zero rt _ _ Hzero).
    eexists. split; [reflexivity|]. split; reflexivity.
  - intros Hreq Hzero.
    rewrite (serve_signed_in rt db req userId "GET" _ Hin Hreq) by discriminate.
    change (route "GET" "/financial/reports/profit-loss") with ProfitLoss.
    cbn [handler option_map]. unfold run, profit_loss.
    change (date_days_ago rt 30) with (first_day rt 30).
    change (today rt) with (last_day rt).
    rewrite handler_revenue, (profitMargin_zero rt _ _ Hzero).
    eexists. split; reflexivity.
  - intros Hreq.
    rewrite (serve_signed_in rt db req userId "GET" _ Hin Hreq) by discriminate.
    change (route "GET" "/financial/reports/tax") with TaxReport.
    cbn [handler option_map]. unfold run, tax_report.
    destruct (tax_window rt _ _) as [startDate endDate].
    eexists. split; reflexivity.
Qed.

Lemma profit_margin_without_revenue_witness :
  (exists summary,
     serve Sample.rt Sample.cancelled
       (Sample.request "GET" Sample.alice "/financial/dashboard" [] JNull)
     = Some (Sample.cancelled,
             ok_200 (JObj [("summary", JObj summary);
                           ("trend", JArr []); ("breakdown", JArr [])]))
     /\ assoc "revenue" summary = Some (JNum zero)
     /\ assoc "profit_margin" summary = Some (JStr "0"))
  /\ (exists data,
        serve Sample.rt Sample.cancelled
          (Sample.request "GET" Sample.alice "/financial/reports/profit-loss" [] JNull)
        = Some (Sample.cancelled, ok_200 (JObj data))
        /\ assoc "profit_margin" data = Some (JStr "0"))
  /\ (exists data,
        serve Sample.rt Sample.db
          (Sample.request "GET" Sample.bob "/financial/reports/tax" [] JNull)
        = Some (Sample.db, ok_200 (JObj data))
        /\ map fst data
           = ["report_type"; "year"; "quarter"; "total_sales"; "total_refunds";
              "total_expenses"; "taxable_income"; "status"]).
Proof.
  assert (Hzero : forall s e,
             s = "2024-05-16" -> e = "2024-06-15" ->
             revenue_between Sample.rt "alice" s e Sample.cancelled = zero)
    by (intros s e -> ->; vm_compute; reflexivity).
  split; [|split].
  - destruct (profit_margin_without_revenue Sample.rt Sample.cancelled
                (Sample.request "GET" Sample.alice "/financial/dashboard" [] JNull)
                "alice") as [Hdash _].
    + exists "token-alice". split; reflexivity.
    + destruct Hdash as (summary & Hserve & Hrev & Hmargin).
      * split; reflexivity.
      * exists 0. split; [|reflexivity].
        apply Hzero; vm_compute; reflexivity.
      * exists summary. split; [exact Hserve|]. split; [|exact Hmargin].
        rewrite Hrev, Hzero by (vm_compute; reflexivity). reflexivity.
  - destruct (profit_margin_without_revenue Sample.rt Sample.cancelled
                (Sample.request "GET" Sample.alice "/financial/reports/profit-loss" []
                   JNull)
                "alice") as (_ & Hpl & _).
    + exists "token-alice". split; reflexivity.
    + apply Hpl.
      * split; reflexivity.
      * exists 0. split; [|reflexivity].
        apply Hzero; vm_compute; reflexivity.
  - destruct (profit_margin_without_revenue Sample.rt Sample.db
                (Sample.request "GET" Sample.bob "/financial/reports/tax" [] JNull)
                "bob") as (_ & _ & Htax).
    + exists "token-bob". split; reflexivity.
    + apply Htax. split; reflexivity.
Defined.

(** *** Pagination *)

Lemma min_hundred (a : num) : ltb hundred (Math_min a hundred) = false.
Proof.
  destruct a as [x| | |]; try reflexivity.
  unfold Math_min, hundred, of_Z.
  destruct (ltb (Fin (inject_Z 100)) (Fin x)) eqn:E; [reflexivity | exact E].
Qed.

Lemma not_above_hundred (l : Q) : ltb hundred (Fin l) = false -> l <= 100.
Proof.
  unfold ltb, hundred, of_Z. intro H. apply negb_false_iff in H.
  now apply Qle_bool_iff in H.
Qed.

Lemma or_zero_of_nat (n : nat) : or_zero (of_nat n) = of_nat n.
Proof.
  unfold or_zero, of_nat, of_Z, truthy.
  destruct (Qeq_bool (inject_Z (Z.of_nat n)) 0) eqn:E; [|reflexivity].
  apply Qeq_bool_iff in E. unfold Qeq in E. simpl in E.
  assert (Hn : Z.of_nat n = 0%Z) by lia. now rewrite Hn.
Qed.

Lemma in_firstn (n : nat) (rows : list Row) (r : Row) :
  In r (firstn n rows) -> In r rows.
Proof.
  revert rows. induction n as [|n IH]; intros [|x rows]; simpl; try tauto.
  intros [->|H]; [now left | right; now apply IH].
Qed.

Lemma in_skipn (n : nat) (rows : list Row) (r : Row) :
  In r (skipn n rows) -> In r rows.
Proof.
  revert rows. induction n as [|n IH]; intros [|x rows]; simpl; try tauto.
  intro H. right. now apply IH.
Qed.

(** A page holds at most [limit] rows, hence at most 100. *)
Lemma page_window_fin (page l : Q) (rows : list Row) :
  l <= 100 ->
  exists items,
    page_window (Fin page) (Fin l) rows = ok items
    /\ (List.length items <= 100)%nat
    /\ incl items rows.
Proof.
  intro Hl. unfold page_window, range, mul, sub, add, neg, of_Z.
  set (hi := Qfloor _). set (lo := Qfloor _).
  eexists. split; [reflexivity|]. split.
  - eapply Nat.le_trans; [apply firstn_le_length|].
    assert (Hhi : inject_Z hi <= page * l - 1).
    { subst hi. eapply Qle_trans; [apply Qfloor_le|].
      rewrite !Qred_correct. change (inject_Z 1) with 1. lra. }
    assert (Hlo : (page - 1) * l < inject_Z (lo + 1)).
    { subst lo. eapply Qle_lt_trans; [|apply Qlt_floor].
      rewrite !Qred_correct. change (inject_Z 1) with 1. lra. }
    rewrite inject_Z_plus in Hlo. change (inject_Z 1) with 1 in Hlo.
    assert (E : (page - 1) * l == page * l - l) by ring. rewrite E in Hlo.
    set (x := page * l) in *.
    assert (H : inject_Z hi + - inject_Z lo < 100) by lra.
    rewrite <- inject_Z_opp, <- inject_Z_plus in H.
    change 100 with (inject_Z 100) in H. rewrite <- Zlt_Qlt in H. lia.
  - intros r Hr. apply in_firstn, in_skipn in Hr. exact Hr.
Qed.

Lemma pages_is_ceiling (total : nat) (l : Q) :
  0 < l ->
  exists n, Math_ceil (div (of_nat total) (Fin l)) = of_Z n /\ is_ceiling n total l.
Proof.
  intro Hl. unfold div, of_nat, of_Z, Math_ceil.
  assert (Hne : ~ l == 0) by lra.
  destruct (Qeq_bool l 0) eqn:E; [apply Qeq_bool_iff in E; contradiction|].
  unfold is_ceiling. set (t := inject_Z (Z.of_nat total)). clearbody t.
  exists (Qceiling (t / l)). split.
  - unfold of_Z. now rewrite (Qceiling_comp _ _ (Qred_correct (t / l))).
  - assert (Hup := Qle_ceiling (t / l)). assert (Hlow := Qceiling_lt (t / l)).
    assert (Ht : t / l * l == t) by (field; exact Hne).
    split.
    + eapply Qlt_le_trans; [apply (Qmult_lt_compat_r _ _ l Hl Hlow)|].
      rewrite Ht. apply Qle_refl.
    + eapply Qle_trans; [|apply (Qmult_le_compat_r _ _ l Hup); lra].
      rewrite Ht. apply Qle_refl.
Qed.

(** C7. GET /reviews and GET /financial/expenses with a page of at least 1:
    the effective limit never exceeds 100, whatever limit is requested, the
    page returned holds at most 100 rows, [total] counts the matching rows,
    and [pages] is the ceiling of [total / limit]. *)
Theorem pagination_contract
    (rt : Runtime) (db : Db) (req : Request) (userId : string) (page : Q) :
  signed_in rt req userId ->
  page_of rt req = Fin page -> 1 <= page ->
  ltb hundred (limit_of rt req) = false
  /\ forall l,
       limit_of rt req = Fin l ->
       l <= 100
       /\ (asks req "GET" "/reviews" ->
           let total := List.length (reviews_query rt userId req db) in
           let pages := Math_ceil (div (of_nat total) (Fin l)) in
           exists items,
             serve rt db req
             = Some (db, page_response "reviews" items page l total pages)
             /\ (List.length items <= 100)%nat
             /\ (0 < l -> exists n, pages = of_Z n /\ is_ceiling n total l))
       /\ (asks req "GET" "/financial/expenses" ->
           let total := List.length (expenses_query userId req db) in
           let pages := Math_ceil (div (of_nat total) (Fin l)) in
           exists items,
             serve rt db req
             = Some (db, page_response "expenses" items page l total pages)
             /\ (List.length items <= 100)%nat
             /\ (0 < l -> exists n, pages = of_Z n /\ is_ceiling n total l)).
Proof.
  intros Hin Hpage Hge.
  split; [apply min_hundred|].
  intros l Hl.
  assert (Hle : l <= 100).
  { apply not_above_hundred. rewrite <- Hl. apply min_hundred. }
  split; [exact Hle|]. split.
  - intros Hreq total pages.
    rewrite (serve_signed_in rt db req userId "GET" _ Hin Hreq) by discriminate.
    change (route "GET" "/reviews") with ListReviews.
    cbn [handler option_map]. unfold run, list_reviews. rewrite Hpage, Hl.
    destruct (page_window_fin page l (reviews_query rt userId req db) Hle)
      as (rows & -> & Hlen & _).
    cbn [error data ok]. unfold pagination. rewrite or_zero_of_nat.
    fold total. fold pages.
    eexists. split; [reflexivity|]. split.
    + now rewrite length_map.
    + apply pages_is_ceiling.
  - intros Hreq total pages.
    rewrite (serve_signed_in rt db req userId "GET" _ Hin Hreq) by discriminate.
    change (route "GET" "/financial/expenses") with ListExpenses.
    cbn [handler option_map]. unfold run, list_expenses. rewrite Hpage, Hl.
    destruct (page_window_fin page l (expenses_query userId req db) Hle)
      as (rows & -> & Hlen & _).
    cbn [error data ok]. unfold pagination. rewrite or_zero_of_nat.
    fold total. fold pages.
    eexists. split; [reflexivity|]. split.
    + exact Hlen.
    + apply pages_is_ceiling.
Qed.

Lemma pagination_contract_witness :
  ltb hundred
    (limit_of Sample.rt
       (Sample.request "GET" Sample.alice "/reviews" [("limit", "500")] JNull))
  = false
  /\ exists items,
       serve Sample.rt Sample.db
         (Sample.request "GET" Sample.alice "/reviews" [("limit", "500")] JNull)
       = Some (Sample.db, page_response "reviews" items 1 100 2 (of_Z 1))
       /\ (List.length items <= 100)%nat
       /\ exists n, of_Z 1 = of_Z n /\ is_ceiling n 2 100.
Proof.
  destruct (pagination_contract Sample.rt Sample.db
              (Sample.request "GET" Sample.alice "/reviews" [("limit", "500")] JNull)
              "alice" 1)
    as [Hmax Hpage].
  - exists "token-alice". split; reflexivity.
  - reflexivity.
  - apply Qle_refl.
  - split; [exact Hmax|].
    destruct (Hpage 100 Logic.eq_refl) as (_ & Hreviews & _).
    destruct (Hreviews (conj Logic.eq_refl Logic.eq_refl))
      as (items & Hserve & Hlen & Hceil).
    exists items. split; [exact Hserve|]. split; [exact Hlen|].
    apply Hceil. reflexivity.
Defined.

(** *** Deleting an expense *)

Lemma skip_id_whole (id : string) : is_id id = true -> skip_id id = (true, "").
Proof.
  intro H. rewrite <- (skip_id_append id "" H I). f_equal.
  clear H. induction id as [|c id IH]; simpl; [reflexivity | now rewrite <- IH].
Qed.

Lemma route_delete_expense (id : string) :
  is_id id = true -> route "DELETE" ("/financial/expenses/" ++ id) = DeleteExpense.
Proof.
  intro H. unfold route, match_id. cbn.
  rewrite (skip_id_whole id H), prefix_nil. reflexivity.
Qed.

Lemma segment_delete_expense (id : string) :
  is_id id = true -> segment 3 ("/financial/expenses/" ++ id) = id.
Proof.
  intro H. unfold segment. cbn.
  rewrite (split_slash_last id (is_id_all id H)). reflexivity.
Qed.

(** What the soft delete writes leaves the owner and the id of a row alone
    and makes its status "deleted". *)
Lemma soft_deleted_row (stamp : json) (e : Row) :
  let e' := patch [("status", JStr "deleted"); ("updated_at", stamp)] e in
  col e' "id" = col e "id"
  /\ col e' "seller_id" = col e "seller_id"
  /\ col e' "status" = JStr "deleted".
Proof.
  cbn. repeat split.
  - rewrite !col_set_col_other by discriminate. reflexivity.
  - rewrite !col_set_col_other by discriminate. reflexivity.
  - rewrite col_set_col_other by discriminate. apply col_set_col_same.
Qed.

(** The active expenses of the caller are the same after the soft delete as
    after a removal of the row. *)
Lemma active_after_soft_delete (stamp : json) (userId id : string) (rows : list Row) :
  eq "status" (text "active")
    (eq "seller_id" (text userId)
       (update [("status", JStr "deleted"); ("updated_at", stamp)]
          (fun e => pg_eq (col e "id") (text id)
                    && pg_eq (col e "seller_id") (text userId)) rows))
  = eq "status" (text "active")
      (eq "seller_id" (text userId)
         (filter (fun e => negb (is_expense userId id e)) rows)).
Proof.
  unfold eq, update, is_expense. induction rows as [|e rows IH]; [reflexivity|].
  cbn [map filter].
  destruct (pg_eq (col e "id") (text id) && pg_eq (col e "seller_id") (text userId))
    eqn:E; cbn [negb].
  - destruct (soft_deleted_row stamp e) as (_ & Hs & Hst).
    apply andb_true_iff in E. destruct E as [_ E].
    rewrite Hs, E. cbn [filter]. rewrite Hst. exact IH.
  - cbn [filter]. destruct (pg_eq (col e "seller_id") (text userId)); [|exact IH].
    cbn [filter]. destruct (pg_eq (col e "status") (text "active")); [|exact IH].
    now rewrite IH.
Qed.

Lemma in_insert_sorted (le : Row -> Row -> bool) (r x : Row) (rows : list Row) :
  In x (insert_sorted le r rows) -> x = r \/ In x rows.
Proof.
  induction rows as [|y rows IH]; simpl.
  - intros [<-|[]]. now left.
  - destruct (le r y); simpl.
    + intros [<-|H]; [now left | now right].
    + intros [<-|H]; [right; now left|].
      destruct (IH H) as [->|Hin]; [now left | right; now right].
Qed.

Lemma expenses_query_after_delete (stamp : json) (userId id : string)
    (req : Request) (db : Db) :
  expenses_query userId req
    (with_seller_expenses
       (update [("status", JStr "deleted"); ("updated_at", stamp)]
          (fun e => pg_eq (col e "id") (text id)
                    && pg_eq (col e "seller_id") (text userId))
          (seller_expenses db)) db)
  = expenses_query userId req (without_expense userId id db).
Proof.
  unfold expenses_query, without_expense. cbn [seller_expenses with_seller_expenses].
  now rewrite active_after_soft_delete.
Qed.

Lemma expenseRows_after_delete (stamp : json) (userId id startDate endDate : string)
    (db : Db) :
  expenseRows_of userId startDate endDate
    (with_seller_expenses
       (update [("status", JStr "deleted"); ("updated_at", stamp)]
          (fun e => pg_eq (col e "id") (text id)
                    && pg_eq (col e "seller_id") (text userId))
          (seller_expenses db)) db)
  = expenseRows_of userId startDate endDate (without_expense userId id db).
Proof.
  unfold expenseRows_of, without_expense. cbn [seller_expenses with_seller_expenses].
  now rewrite active_after_soft_delete.
Qed.

Lemma no_expense_left (userId id : string) (req : Request) (db : Db) (r : Row) :
  In r (expenses_query userId req (without_expense userId id db)) ->
  col r "id" <> JStr id.
Proof.
  unfold expenses_query, without_expense. cbn [seller_expenses with_seller_expenses].
  set (rows := filter _ (seller_expenses db)).
  assert (Hbase : forall x,
             In x (eq "status" (text "active") (eq "seller_id" (text userId) rows)) ->
             col x "id" <> JStr id).
  { intros x Hx. apply filter_In in Hx. destruct Hx as [Hx _].
    apply filter_In in Hx. destruct Hx as [Hx Hsel].
    apply filter_In in Hx. destruct Hx as [_ Hkeep].
    unfold is_expense in Hkeep. rewrite Hsel, andb_true_r in Hkeep.
    apply negb_true_iff in Hkeep. now apply pg_eq_text_false. }
  set (base := eq "status" _ _) in *.
  assert (Hsub : forall q : list Row, incl q base ->
             forall x, In x (order "expense_date" false q) -> In x base).
  { intros q Hq x Hx. apply Hq. revert Hx. unfold order.
    induction q as [|y q IH]; simpl; [tauto|].
    intro Hx. apply in_insert_sorted in Hx. destruct Hx as [->|Hx]; [now left|].
    right. apply IH; [|exact Hx]. intros z Hz. apply Hq. now right. }
  intro Hr. apply Hbase. revert Hr. apply Hsub.
  repeat match goal with
         | |- context [if ?c then _ else _] => destruct c
         end;
    unfold gte, lte, eq;
    repeat (apply incl_refl || (eapply incl_tran; [apply incl_filter|])).
Qed.

(** C8. DELETE /financial/expenses/:id on an expense of the caller answers
    200, keeps every row of the table (only [seller_expenses] is written, and
    its length is unchanged) and leaves the expense in it with the status
    "deleted"; afterwards GET /financial/expenses selects no row with that id
    and answers as if the row had been removed, and so does the financial
    dashboard, whose expenses are summed over the active rows. *)
Theorem expense_soft_delete
    (rt : Runtime) (db : Db) (req : Request) (userId id : string) (e : Row) :
  signed_in rt req userId ->
  asks req "DELETE" ("/financial/expenses/" ++ id) ->
  is_id id = true ->
  In e (seller_expenses db) ->
  col e "id" = JStr id -> col e "seller_id" = JStr userId ->
  exists db',
    serve rt db req = Some (db', deleted_response)
    /\ db' = with_seller_expenses (seller_expenses db') db
    /\ List.length (seller_expenses db') = List.length (seller_expenses db)
    /\ (exists e', In e' (seller_expenses db')
                   /\ col e' "id" = JStr id /\ col e' "seller_id" = JStr userId
                   /\ col e' "status" = JStr "deleted")
    /\ (forall req' r, In r (expenses_query userId req' db') -> col r "id" <> JStr id)
    /\ (forall req' path,
          signed_in rt req' userId ->
          In path ["/financial/expenses"; "/financial/dashboard"] ->
          asks req' "GET" path ->
          option_map snd (serve rt db' req')
          = option_map snd (serve rt (without_expense userId id db) req')).
Proof.
  intros Hin Hreq Hid He Heid Hes.
  rewrite (serve_signed_in rt db req userId "DELETE" _ Hin Hreq) by discriminate.
  rewrite (route_delete_expense id Hid). cbn [handler option_map].
  unfold run, delete_expense. rewrite (segment_delete_expense id Hid).
  eexists. split; [reflexivity|]. split; [reflexivity|].
  cbn [seller_expenses with_seller_expenses].
  split; [apply length_map|]. split; [|split].
  - exists (patch [("status", JStr "deleted"); ("updated_at", now_iso rt)] e).
    destruct (soft_deleted_row (now_iso rt) e) as (H1 & H2 & H3).
    rewrite H1, H2, H3. repeat split; auto.
    unfold update. apply in_map_iff. exists e. split; [|exact He].
    rewrite Heid, Hes. cbn. now rewrite !String.eqb_refl.
  - intros req' r. rewrite expenses_query_after_delete. apply no_expense_left.
  - intros req' path Hin' Hpath Hreq'.
    rewrite !(serve_signed_in rt _ req' userId "GET" path Hin' Hreq') by discriminate.
    destruct Hpath as [<-|[<-|[]]].
    + change (route "GET" "/financial/expenses") with ListExpenses.
      cbn [handler option_map]. unfold run, list_expenses.
      rewrite expenses_query_after_delete.
      destruct (error (page_window _ _ _)); reflexivity.
    + change (route "GET" "/financial/dashboard") with FinancialDashboard.
      cbn [handler option_map]. unfold run, financial_dashboard.
      rewrite expenseRows_after_delete. reflexivity.
Qed.

Lemma expense_soft_delete_witness :
  exists db',
    serve Sample.rt Sample.db
      (Sample.request "DELETE" Sample.alice "/financial/expenses/e1" [] JNull)
    = Some (db', deleted_response)
    /\ db' = with_seller_expenses (seller_expenses db') Sample.db
    /\ List.length (seller_expenses db') = List.length (seller_expenses Sample.db)
    /\ (exists e', In e' (seller_expenses db')
                   /\ col e' "id" = JStr "e1" /\ col e' "seller_id" = JStr "alice"
                   /\ col e' "status" = JStr "deleted")
    /\ (forall req' r, In r (expenses_query "alice" req' db') -> col r "id" <> JStr "e1")
    /\ (forall req' path,
          signed_in Sample.rt req' "alice" ->
          In path ["/financial/expenses"; "/financial/dashboard"] ->
          asks req' "GET" path ->
          option_map snd (serve Sample.rt db' req')
          = option_map snd (serve Sample.rt (without_expense "alice" "e1" Sample.db) req')).
Proof.
  apply (expense_soft_delete Sample.rt Sample.db _ "alice" "e1"
           [("id", JStr "e1"); ("seller_id", JStr "alice"); ("amount", Sample.n 25);
            ("category", JStr "shipping"); ("status", JStr "active");
            ("expense_date", JStr "2024-06-12")]).
  - exists "token-alice". split; reflexivity.
  - split; reflexivity.
  - reflexivity.
  - left. reflexivity.
  - reflexivity.
  - reflexivity.
Defined.

(** *** Rows of other sellers *)

Lemma update_untouched (changes : list (string * json)) (sel : Row -> bool)
    (rows : list Row) :
  (forall r, In r rows -> sel r = false) -> update changes sel rows = rows.
Proof.
  unfold update. induction rows as [|r rows IH]; intro H; simpl; [reflexivity|].
  rewrite (H r) by now left. f_equal. apply IH. intros x Hx. apply H. now right.
Qed.

(** The expense routes do filter on the caller: a DELETE on an expense of
    another seller answers 200 and writes nothing. *)
Lemma expense_delete_is_scoped
    (rt : Runtime) (db : Db) (req : Request) (userId id : string) :
  signed_in rt req userId ->
  asks req "DELETE" ("/financial/expenses/" ++ id) ->
  is_id id = true ->
  (forall e, In e (seller_expenses db) ->
             col e "id" = JStr id -> col e "seller_id" <> JStr userId) ->
  exists db',
    serve rt db req = Some (db', deleted_response)
    /\ seller_expenses db' = seller_expenses db.
Proof.
  intros Hin Hreq Hid Hother.
  rewrite (serve_signed_in rt db req userId "DELETE" _ Hin Hreq) by discriminate.
  rewrite (route_delete_expense id Hid). cbn [handler option_map].
  unfold run, delete_expense. rewrite (segment_delete_expense id Hid).
  eexists. split; [reflexivity|]. cbn [seller_expenses with_seller_expenses].
  apply update_untouched. intros e He.
  destruct (pg_eq (col e "id") (text id)) eqn:E; [|reflexivity].
  apply pg_eq_text in E. cbn [andb]. apply pg_eq_text_false. now apply Hother.
Qed.

Lemma route_delete_product (id : string) :
  route "DELETE" ("/products/" ++ id) = DeleteProduct.
Proof. unfold route, startsWith. cbn. now rewrite prefix_nil. Qed.

(** DELETE /products/:id removes the rows with that id whoever the caller
    is: the caller's id does not enter the query. *)
Lemma product_delete_is_not_scoped
    (rt : Runtime) (db : Db) (req : Request) (userId id : string) :
  signed_in rt req userId ->
  asks req "DELETE" ("/products/" ++ id) ->
  exists r,
    serve rt db req
    = Some (with_products
              (filter (fun p => negb (pg_eq (col p "id") (text id))) (products db)) db,
            r)
    /\ status r = 200%Z.
Proof.
  intros Hin Hreq.
  rewrite (serve_signed_in rt db req userId "DELETE" _ Hin Hreq) by discriminate.
  rewrite route_delete_product. cbn [handler option_map].
  unfold run, delete_product. rewrite remove_first_append.
  eexists. split; reflexivity.
Qed.

(** C1 fails on the code.  bob, who has no store, deletes alice's product p1,
    renames carol's product p2 and disconnects alice's social account a1: the
    three handlers select the row by its id alone. *)
Theorem product_and_social_rows_are_not_scoped :
  has_no_store Sample.db "bob"
  /\ (exists db' r,
        serve Sample.rt Sample.db
          (Sample.request "DELETE" Sample.bob "/products/p1" [] JNull)
        = Some (db', r)
        /\ status r = 200%Z
        /\ map (fun p => col p "id") (products Sample.db) = [JStr "p1"; JStr "p2"]
        /\ map (fun p => col p "id") (products db') = [JStr "p2"])
  /\ (exists db' r,
        serve Sample.rt Sample.db
          (Sample.request "PUT" Sample.bob "/products/p2" [] Sample.rename)
        = Some (db', r)
        /\ status r = 200%Z
        /\ map (fun p => col p "name") (products Sample.db) = [JStr "Lamp"; JStr "Vase"]
        /\ map (fun p => col p "name") (products db')
           = [JStr "Lamp"; JStr "Taken over"])
  /\ (exists db' r,
        serve Sample.rt Sample.db
          (Sample.request "DELETE" Sample.bob "/social/a1" [] JNull)
        = Some (db', r)
        /\ status r = 200%Z
        /\ map (fun a => col a "id") (social_accounts Sample.db) = [JStr "a1"]
        /\ social_accounts db' = []).
Proof.
  split.
  { intros st [<-|[<-|[]]]; discriminate. }
  repeat split; eexists; eexists; (split; [vm_compute; reflexivity|]);
    repeat split; reflexivity.
Qed.

(** *** Bulk moderation *)

(** The rows of other sellers are left alone by POST /reviews/bulk-update,
    and the count answered is the length of the batch. *)
Lemma bulk_update_is_scoped
    (rt : Runtime) (db : Db) (req : Request) (userId : string)
    (review_ids : list json) (newStatus : string) :
  signed_in rt req userId ->
  asks req "POST" "/reviews/bulk-update" ->
  body req = inr (JObj [("review_ids", JArr review_ids); ("status", JStr newStatus)]) ->
  newStatus = "approved" \/ newStatus = "rejected" ->
  exists db',
    serve rt db req
    = Some (db',
            mk_response 200 jsonHeaders
              (Some (JObj [("success", JBool true);
                           ("updated", JNum (of_nat (List.length review_ids)))])))
    /\ List.length (product_reviews db') = List.length (product_reviews db)
    /\ (forall i r, nth_error (product_reviews db) i = Some r ->
                    col r "seller_id" <> JStr userId ->
                    nth_error (product_reviews db') i = Some r).
Proof.
  intros Hin Hreq Hbody Hst.
  rewrite (serve_signed_in rt db req userId "POST" _ Hin Hreq) by discriminate.
  change (route "POST" "/reviews/bulk-update") with BulkUpdateReviews.
  cbn [handler option_map]. unfold run, bulk_update_reviews.
  rewrite (with_body_ok req _ _ db Hbody) by discriminate.
  cbn [prop assoc String.eqb Ascii.eqb Bool.eqb].
  assert (Hmod : moderation_status (Some (JStr newStatus)) = true)
    by (destruct Hst as [->| ->]; reflexivity).
  rewrite Hmod.
  eexists. split; [reflexivity|]. cbn [product_reviews with_product_reviews].
  split; [apply length_map|].
  intros i r Hr Hother. unfold update. rewrite nth_error_map, Hr. cbn [option_map].
  apply pg_eq_text_false in Hother. now rewrite Hother.
Qed.

(** C2 fails on the code.  alice approves a batch that names her review r1
    and carol's review r2: r2 is left as it was, yet the answer counts it,
    [updated: 2]. *)
Theorem bulk_update_counts_foreign_reviews :
  exists db',
    serve Sample.rt Sample.db
      (Sample.request "POST" Sample.alice "/reviews/bulk-update" [] Sample.approve_both)
    = Some (db',
            mk_response 200 jsonHeaders
              (Some (JObj [("success", JBool true); ("updated", JNum (of_Z 2))])))
    /\ map (fun r => (col r "id", col r "seller_id", col r "status"))
         (product_reviews Sample.db)
       = [(JStr "r1", JStr "alice", JStr "pending");
          (JStr "r2", JStr "carol", JStr "pending");
          (JStr "r3", JStr "alice", JStr "approved")]
    /\ map (fun r => (col r "id", col r "seller_id", col r "status"))
         (product_reviews db')
       = [(JStr "r1", JStr "alice", JStr "approved");
          (JStr "r2", JStr "carol", JStr "pending");
          (JStr "r3", JStr "alice", JStr "approved")]
    /\ nth_error (product_reviews db') 1 = nth_error (product_reviews Sample.db) 1.
Proof.
  eexists. split; [vm_compute; reflexivity|]. repeat split; reflexivity.
Qed.

(** *** The model at work *)

Example path_without_function_prefix :
  route_path "/functions/v1/store-api/questions/q1/answer" = "/questions/q1/answer"
  /\ route_path "/functions/v1/store-api" = "/"
  /\ route_path "/health" = "/health".
Proof. repeat split. Qed.

Example product_routes :
  route "PUT" "/products/p1" = UpdateProduct
  /\ route "DELETE" "/products/p1" = DeleteProduct
  /\ route "GET" "/products/p1" = NotFound
  /\ route "GET" "/products" = ListProducts.
Proof. repeat split. Qed.

Example identifier_pattern :
  route "DELETE" "/financial/expenses/e-1" = DeleteExpense
  /\ route "DELETE" "/financial/expenses/e_1" = NotFound
  /\ route "DELETE" "/financial/expenses/" = NotFound
  /\ route "POST" "/questions/q1/answer/more" = NotFound.
Proof. repeat split. Qed.

Example status_is_folded :
  status_is "completed" [("status", JStr "COMPLETED")] = true
  /\ status_is "completed" [("status", JNull)] = false.
Proof. split; reflexivity. Qed.

Example margin_of_alice :
  exists db' r summary,
    serve Sample.rt Sample.db
      (Sample.request "GET" Sample.alice "/financial/dashboard" [] JNull)
    = Some (db', r)
    /\ payload r
       = Some (JObj [("success", JBool true);
                     ("data", JObj [("summary", JObj summary);
                                    ("trend", JArr []); ("breakdown", JArr [])])])
    /\ assoc "expenses" summary = Some (JNum (of_Z 25))
    /\ assoc "net_profit" summary = Some (JNum (of_Z 65))
    /\ assoc "profit_margin" summary = Some (JStr "72.22").
Proof.
  eexists. eexists. eexists. split; [vm_compute; reflexivity|].
  repeat split; reflexivity.
Qed.

Example malformed_body_is_a_500 :
  option_map (fun out => status (snd out))
    (serve Sample.rt Sample.db
       {| method := "POST"; Authorization := Some "Bearer token-alice";
          pathname := "/store-api/reviews/bulk-update"; searchParams := [];
          body := inl "Unexpected end of JSON input" |})
  = Some 500%Z.
Proof. reflexivity. Qed.

(* ================================================================== *)
(** ** Properties of the remaining blocks *)
(* ================================================================== *)

Import Rest Terms.

(** *** The whole dispatcher *)

Lemma serve_all_signed_in (rt : Runtime) (eng : Engine) (t : Tables) (req : Request)
    (userId m path : string) :
  signed_in rt req userId -> asks req m path -> m <> "OPTIONS" ->
  serve_all rt eng t req = run_block (block rt eng userId req path (route m path)) t.
Proof.
  intros (token & Hauth & Huser) (Hm & Hp) Hopt. unfold serve_all.
  rewrite Hm, Hp.
  destruct (String.eqb m "OPTIONS") eqn:E.
  { apply String.eqb_eq in E. contradiction. }
  rewrite Hauth. cbv beta iota.
  rewrite startsWith_append, remove_first_append, Huser. reflexivity.
Qed.

Lemma some_eq {A : Type} (a b : A) : Some a = Some b -> a = b.
Proof. congruence. Qed.

Lemma run_block_lift (h : Handler) (t : Tables) :
  run_block (lift h) t = let '(db, r) := run h (core t) in (with_core db t, r).
Proof.
  unfold run_block, lift, run. destruct (h (core t)) as [d [x|e]]; reflexivity.
Qed.

(** On the blocks of [StoreApi.handler] the whole dispatcher is [serve]. *)
Lemma serve_all_extends_serve (rt : Runtime) (eng : Engine) (t : Tables)
    (req : Request) (db' : Db) (r : Response) :
  serve rt (core t) req = Some (db', r) ->
  serve_all rt eng t req = (with_core db' t, r).
Proof.
  unfold serve, serve_all.
  destruct (String.eqb (method req) "OPTIONS").
  { intro H. injection H as <- <-. now destruct t. }
  destruct (Authorization req) as [h|].
  2:{ intro H. injection H as <- <-. now destruct t. }
  destruct (negb (startsWith h "Bearer ")).
  { intro H. injection H as <- <-. now destruct t. }
  destruct (getUser rt (remove_first "Bearer " h)) as [u|].
  2:{ intro H. injection H as <- <-. now destruct t. }
  cbv zeta. set (path := route_path (pathname req)).
  destruct (route (method req) path); cbn [handler option_map block];
    try discriminate;
    intro H; apply some_eq in H; rewrite run_block_lift, H; reflexivity.
Qed.

(** *** The path the routes see *)

Lemma split_slash_word (w r : string) :
  no_slash w = true -> split_slash (w ++ String "/" r) = w :: split_slash r.
Proof.
  intro H. induction w as [|c w IH]; simpl in *; [reflexivity|].
  apply andb_true_iff in H. destruct H as [Hc Hw].
  apply negb_true_iff in Hc. rewrite Hc, (IH Hw). reflexivity.
Qed.

Lemma split_slash_one (w : string) : no_slash w = true -> split_slash w = [w].
Proof.
  intro H. induction w as [|c w IH]; simpl in *; [reflexivity|].
  apply andb_true_iff in H. destruct H as [Hc Hw].
  apply negb_true_iff in Hc. rewrite Hc, (IH Hw). reflexivity.
Qed.

Lemma segment_ok_no_slash (w : string) : segment_ok w = true -> no_slash w = true.
Proof. unfold segment_ok. intro H. now apply andb_true_iff in H. Qed.

(** Splitting what was joined gives the segments back. *)
Lemma split_join (w : string) (ws : list string) :
  Forall (fun x => segment_ok x = true) (w :: ws) ->
  split_slash (join_slash (w :: ws)) = w :: ws.
Proof.
  revert w. induction ws as [|x ws IH]; intros w H.
  - simpl. apply split_slash_one, segment_ok_no_slash. now inversion H.
  - inversion H as [|? ? Hw Hrest]; subst.
    change (join_slash (w :: x :: ws)) with (w ++ String "/" (join_slash (x :: ws))).
    rewrite split_slash_word by now apply segment_ok_no_slash.
    now rewrite IH.
Qed.

Lemma filter_segments (ws : list string) :
  Forall (fun x => segment_ok x = true) ws ->
  filter (fun w => negb (String.eqb w "")) ws = ws.
Proof.
  induction 1 as [|w ws Hw _ IH]; simpl; [reflexivity|].
  unfold segment_ok in Hw. apply andb_true_iff in Hw. destruct Hw as [Hw _].
  now rewrite Hw, IH.
Qed.

Lemma path_parts (ws : list string) :
  Forall (fun x => segment_ok x = true) ws ->
  filter (fun w => negb (String.eqb w ""))
    (split_slash ("/" ++ join_slash ws)) = ws.
Proof.
  intro H. destruct ws as [|w ws]; [reflexivity|].
  change ("/" ++ join_slash (w :: ws)) with (String "/" (join_slash (w :: ws))).
  cbn [split_slash]. change (Ascii.eqb "/" "/") with true. cbv iota.
  rewrite split_join by exact H.
  transitivity (filter (fun x => negb (String.eqb x "")) (w :: ws));
    [reflexivity | now apply filter_segments].
Qed.

Lemma indexOf_first (w : string) (pre rest : list string) :
  ~ In w pre -> indexOf w (pre ++ w :: rest) = Some (List.length pre).
Proof.
  induction pre as [|p pre IH]; intro H; simpl.
  - now rewrite String.eqb_refl.
  - destruct (String.eqb p w) eqn:E.
    + apply String.eqb_eq in E. subst. elim H. now left.
    + rewrite IH; [reflexivity|]. intro Hin. apply H. now right.
Qed.

Lemma indexOf_none (w : string) (ws : list string) :
  ~ In w ws -> indexOf w ws = None.
Proof.
  induction ws as [|p ws IH]; intro H; simpl; [reflexivity|].
  destruct (String.eqb p w) eqn:E.
  - apply String.eqb_eq in E. subst. elim H. now left.
  - rewrite IH; [reflexivity|]. intro Hin. apply H. now right.
Qed.

Lemma skipn_after (pre : list string) (w : string) (rest : list string) :
  skipn (S (List.length pre)) (pre ++ w :: rest) = rest.
Proof. induction pre as [|p pre IH]; simpl; [reflexivity | exact IH]. Qed.

(** X1. Whatever precedes the function name in the URL path is dropped
    together with it, and what follows is the path the routes are matched
    against; a path that does not name the function is left as it is. *)
Theorem function_prefix_is_stripped (pre ws : list string) :
  Forall (fun x => segment_ok x = true) pre ->
  Forall (fun x => segment_ok x = true) ws ->
  ~ In "store-api" pre ->
  route_path ("/" ++ join_slash (pre ++ "store-api" :: ws)) = "/" ++ join_slash ws
  /\ (~ In "store-api" ws ->
      route_path ("/" ++ join_slash ws) = "/" ++ join_slash ws).
Proof.
  intros Hpre Hws Hnot. split.
  - unfold route_path. rewrite path_parts.
    + now rewrite indexOf_first, skipn_after.
    + apply Forall_app. split; [exact Hpre|]. constructor; [reflexivity | exact Hws].
  - intro Hnone. unfold route_path. rewrite path_parts by exact Hws.
    now rewrite indexOf_none.
Qed.

Lemma function_prefix_is_stripped_witness :
  route_path "/functions/v1/store-api/chat/conversations/c1"
  = "/chat/conversations/c1"
  /\ route_path "/chat/conversations/c1" = "/chat/conversations/c1".
Proof.
  destruct (function_prefix_is_stripped ["functions"; "v1"]
              ["chat"; "conversations"; "c1"]) as [Hstrip Hkeep].
  - repeat constructor.
  - repeat constructor.
  - simpl. intuition discriminate.
  - split; [exact Hstrip|]. apply Hkeep. simpl. intuition discriminate.
Defined.

(** *** Methods and missing rows *)

Lemma same_db (db : Db) :
  with_products (products db) db = db
  /\ with_social_accounts (social_accounts db) db = db
  /\ with_stores (stores db) db = db
  /\ with_product_reviews (product_reviews db) db = db
  /\ with_seller_expenses (seller_expenses db) db = db.
Proof. destruct db. repeat split. Qed.

Lemma delete_nothing (sel : Row -> bool) (rows : list Row) :
  (forall r, In r rows -> sel r = false) -> delete sel rows = rows.
Proof.
  unfold delete. induction rows as [|r rows IH]; intro H; simpl; [reflexivity|].
  rewrite (H r) by now left. simpl. f_equal. apply IH. intros x Hx. apply H. now right.
Qed.

(** X2. A signed-in request whose method is none of GET, POST, PUT, PATCH
    and DELETE (nor the OPTIONS of a preflight) reaches no block: it is
    answered 404 "Not found" on every path and nothing is written. *)
Theorem other_methods_are_not_found
    (rt : Runtime) (db : Db) (req : Request) (userId m path : string) :
  signed_in rt req userId ->
  asks req m path ->
  ~ In m ["GET"; "POST"; "PUT"; "PATCH"; "DELETE"; "OPTIONS"] ->
  serve rt db req = Some (db, error_response 404 "Not found").
Proof.
  intros Hin Hreq Hm.
  assert (H : forall x, In x ["GET"; "POST"; "PUT"; "PATCH"; "DELETE"; "OPTIONS"] ->
                        String.eqb m x = false).
  { intros x Hx. destruct (String.eqb m x) eqn:E; [|reflexivity].
    apply String.eqb_eq in E. subst. contradiction. }
  rewrite (serve_signed_in rt db req userId m path Hin Hreq)
    by (intros ->; apply Hm; simpl; tauto).
  assert (Hroute : route m path = NotFound).
  { cbv beta zeta delta [route].
    rewrite (H "GET"), (H "POST"), (H "PUT"), (H "PATCH"), (H "DELETE")
      by (simpl; tauto).
    reflexivity. }
  rewrite Hroute. reflexivity.
Qed.

Lemma other_methods_are_not_found_witness :
  serve Sample.rt Sample.db (Sample.request "HEAD" Sample.alice "/products" [] JNull)
  = Some (Sample.db, error_response 404 "Not found").
Proof.
  apply (other_methods_are_not_found Sample.rt Sample.db _ "alice" "HEAD" "/products").
  - exists "token-alice". split; reflexivity.
  - split; reflexivity.
  - simpl. intuition discriminate.
Defined.

Lemma route_disconnect_social (id : string) :
  route "DELETE" ("/social/" ++ id) = DisconnectSocial.
Proof. unfold route, startsWith. cbn. now rewrite prefix_nil. Qed.

Lemma route_update_product (id : string) :
  route "PUT" ("/products/" ++ id) = UpdateProduct.
Proof. unfold route, startsWith. cbn. now rewrite prefix_nil. Qed.

(** X3. Deleting a product or a social account that does not exist is not
    reported: the answer is 200 with the usual message and the store is as
    it was. *)
Theorem deleting_nothing_succeeds
    (rt : Runtime) (db : Db) (req : Request) (userId id : string) :
  signed_in rt req userId ->
  (asks req "DELETE" ("/products/" ++ id) ->
   (forall p, In p (products db) -> col p "id" <> JStr id) ->
   serve rt db req
   = Some (db, mk_response 200 jsonHeaders
                 (Some (JObj [("success", JBool true);
                              ("message", JStr "Product deleted")]))))
  /\ (asks req "DELETE" ("/social/" ++ id) ->
      (forall a, In a (social_accounts db) -> col a "id" <> JStr id) ->
      serve rt db req
      = Some (db, mk_response 200 jsonHeaders
                    (Some (JObj [("success", JBool true);
                                 ("message", JStr "Account disconnected")])))).
Proof.
  intro Hin. split; intros Hreq Hnone;
    rewrite (serve_signed_in rt db req userId "DELETE" _ Hin Hreq) by discriminate.
  - rewrite route_delete_product. cbn [handler option_map].
    unfold run, delete_product. rewrite remove_first_append.
    rewrite delete_nothing by (intros p Hp; now apply pg_eq_text_false, Hnone).
    now rewrite (proj1 (same_db db)).
  - rewrite route_disconnect_social. cbn [handler option_map].
    unfold run, disconnect_social. rewrite remove_first_append.
    rewrite delete_nothing by (intros p Hp; now apply pg_eq_text_false, Hnone).
    now rewrite (proj1 (proj2 (same_db db))).
Qed.

Lemma deleting_nothing_succeeds_witness :
  serve Sample.rt Sample.db (Sample.request "DELETE" Sample.alice "/products/p9" [] JNull)
  = Some (Sample.db,
          mk_response 200 jsonHeaders
            (Some (JObj [("success", JBool true); ("message", JStr "Product deleted")])))
  /\ serve Sample.rt Sample.db (Sample.request "DELETE" Sample.alice "/social/a9" [] JNull)
     = Some (Sample.db,
             mk_response 200 jsonHeaders
               (Some (JObj [("success", JBool true);
                            ("message", JStr "Account disconnected")]))).
Proof.
  split.
  - destruct (deleting_nothing_succeeds Sample.rt Sample.db
                (Sample.request "DELETE" Sample.alice "/products/p9" [] JNull)
                "alice" "p9") as [Hproduct _].
    + exists "token-alice". split; reflexivity.
    + apply Hproduct; [split; reflexivity|].
      intros p [<-|[<-|[]]]; discriminate.
  - destruct (deleting_nothing_succeeds Sample.rt Sample.db
                (Sample.request "DELETE" Sample.alice "/social/a9" [] JNull)
                "alice" "a9") as [_ Haccount].
    + exists "token-alice". split; reflexivity.
    + apply Haccount; [split; reflexivity|].
      intros p [<-|[]]; discriminate.
Defined.

(** X4. Updating a product that does not exist is answered 500 "Unknown
    error", not 404: the [.single()] of the update fails and the error,
    which is no [Error] instance, is thrown.  Nothing is written. *)
Theorem updating_a_missing_product_is_a_500
    (rt : Runtime) (db : Db) (req : Request) (userId id : string) (b : json) :
  signed_in rt req userId ->
  asks req "PUT" ("/products/" ++ id) ->
  body req = inr b -> b <> JNull ->
  (forall p, In p (products db) -> col p "id" <> JStr id) ->
  serve rt db req = Some (db, unknown_error).
Proof.
  intros Hin Hreq Hbody Hb Hnone.
  rewrite (serve_signed_in rt db req userId "PUT" _ Hin Hreq) by discriminate.
  rewrite route_update_product. cbn [handler option_map].
  unfold run, update_product. rewrite remove_first_append.
  rewrite (with_body_ok req b) by assumption.
  unfold update_single.
  assert (Hf : filter (fun p => pg_eq (col p "id") (text id)) (products db) = []).
  { apply (no_row "id" (text id)). intros p Hp. now apply pg_eq_text_false, Hnone. }
  rewrite Hf. cbn [error data failed]. now rewrite (proj1 (same_db db)).
Qed.

Lemma updating_a_missing_product_is_a_500_witness :
  serve Sample.rt Sample.db
    (Sample.request "PUT" Sample.alice "/products/p9" [] Sample.rename)
  = Some (Sample.db, unknown_error).
Proof.
  apply (updating_a_missing_product_is_a_500 Sample.rt Sample.db _ "alice" "p9"
           Sample.rename).
  - exists "token-alice". split; reflexivity.
  - split; reflexivity.
  - reflexivity.
  - discriminate.
  - intros p [<-|[<-|[]]]; discriminate.
Defined.

(** *** Blocks that stay within the first tables *)

Lemma with_core_same (t : Tables) : with_core (core t) t = t.
Proof. now destruct t. Qed.

Lemma serve_all_lifted (rt : Runtime) (eng : Engine) (t : Tables) (req : Request)
    (userId m path : string) (h : Handler) :
  signed_in rt req userId -> asks req m path -> m <> "OPTIONS" ->
  block rt eng userId req path (route m path) = lift h ->
  serve_all rt eng t req = let '(db, r) := run h (core t) in (with_core db t, r).
Proof.
  intros Hin Hreq Hm Hb.
  rewrite (serve_all_signed_in rt eng t req userId m path Hin Hreq Hm), Hb.
  apply run_block_lift.
Qed.

(** *** Updates *)

Lemma patch_app (c1 c2 : list (string * json)) (r : Row) :
  patch (c1 ++ c2)%list r = patch c2 (patch c1 r).
Proof. unfold patch. apply fold_left_app. Qed.

Lemma col_patch_other (changes : list (string * json)) (r : Row) (c : string) :
  ~ In c (map fst changes) -> col (patch changes r) c = col r c.
Proof.
  revert r. induction changes as [|[k v] changes IH]; intros r H; [reflexivity|].
  change (patch ((k, v) :: changes) r) with (patch changes (set_col k v r)).
  rewrite IH by (intro Hc; apply H; now right).
  apply col_set_col_other. intro Hc. apply H. left. now symmetry.
Qed.

Lemma patch_cons (k : string) (v : json) (rest : list (string * json)) (r : Row) :
  patch ((k, v) :: rest) r = patch rest (set_col k v r).
Proof. reflexivity. Qed.

Lemma col_patch_cons_same (k : string) (v : json) (rest : list (string * json))
    (r : Row) :
  ~ In k (map fst rest) -> col (patch ((k, v) :: rest) r) k = v.
Proof.
  intro H. rewrite patch_cons, col_patch_other by assumption. apply col_set_col_same.
Qed.

(** The column a list of changes sets, when it sets it once. *)
Ltac patched :=
  repeat first [ apply col_patch_cons_same; simpl; intuition discriminate
               | rewrite patch_cons ].

Lemma key_when_truthy (k c : string) (v : value) :
  In c (map fst (when_truthy k v)) -> c = k.
Proof.
  unfold when_truthy. destruct v as [x|]; [destruct (truthy (Some x))|];
    simpl; intuition.
Qed.

Lemma key_when_defined (k c : string) (v : value) :
  In c (map fst (when_defined k v)) -> c = k.
Proof. unfold when_defined. destruct v as [x|]; simpl; intuition. Qed.

Ltac not_a_key :=
  let H := fresh "H" in
  intro H; rewrite ?map_app in H;
  repeat (apply in_app_or in H; destruct H as [H|H]);
  try (apply key_when_truthy in H); try (apply key_when_defined in H);
  try discriminate; simpl in H; intuition discriminate.

Lemma others_untouched_refl (c userId : string) (rows : list Row) :
  others_untouched c userId rows rows.
Proof. split; auto. Qed.

Lemma update_others (c userId : string) (changes : list (string * json))
    (sel : Row -> bool) (rows : list Row) :
  (forall r, sel r = true -> col r c = JStr userId) ->
  others_untouched c userId rows (update changes sel rows).
Proof.
  intro Hsel. split; [apply update_length|].
  intros i r Hr Hother. unfold update. rewrite nth_error_map, Hr. cbn [option_map].
  destruct (sel r) eqn:E; [|reflexivity].
  apply Hsel in E. contradiction.
Qed.

Lemma update_single_others (c userId : string) (changes : list (string * json))
    (sel : Row -> bool) (rows : list Row) :
  (forall r, sel r = true -> col r c = JStr userId) ->
  others_untouched c userId rows (fst (update_single changes sel rows)).
Proof.
  intro Hsel. unfold update_single.
  destruct (filter sel rows) as [|r [|r' rest]]; cbn [fst];
    auto using others_untouched_refl, update_others.
Qed.

(** What [.update(..).select().single()] yields: the changed row, or the
    error of a selection that is not one row; never neither. *)
Lemma update_single_reply (changes : list (string * json)) (sel : Row -> bool)
    (rows : list Row) :
  (exists r, filter sel rows = [r]
             /\ update_single changes sel rows
                = (update changes sel rows, ok (patch changes r)))
  \/ ((List.length (filter sel rows) <> 1)%nat
      /\ update_single changes sel rows = (rows, failed not_single)).
Proof.
  unfold update_single. destruct (filter sel rows) as [|r [|r' rest]].
  - right. split; [discriminate | reflexivity].
  - left. exists r. split; reflexivity.
  - right. split; [discriminate | reflexivity].
Qed.

Lemma in_update (changes : list (string * json)) (sel : Row -> bool)
    (rows : list Row) (r : Row) :
  In r rows ->
  In (if sel r then patch changes r else r) (update changes sel rows).
Proof.
  intro H. unfold update.
  now apply (in_map (fun x => if sel x then patch changes x else x)).
Qed.

Lemma two_in_length {A : Type} (a b : A) (l : list A) :
  In a l -> In b l -> a <> b -> (2 <= List.length l)%nat.
Proof.
  induction l as [|x l IH]; intros Ha Hb Hab; [contradiction|].
  destruct Ha as [->|Ha], Hb as [->|Hb]; simpl.
  - contradiction.
  - destruct l; [contradiction | simpl; lia].
  - destruct l; [contradiction | simpl; lia].
  - specialize (IH Ha Hb Hab). lia.
Qed.

(** *** The store of the caller *)

Lemma route_get_store (path : string) :
  root path = true -> route "GET" path = GetStore.
Proof.
  unfold root. intro H. apply orb_true_iff in H.
  destruct H as [H|H]; apply String.eqb_eq in H; subst; reflexivity.
Qed.

Lemma route_update_store (path : string) :
  root path = true -> route "PUT" path = UpdateStore.
Proof.
  unfold root. intro H. apply orb_true_iff in H.
  destruct H as [H|H]; apply String.eqb_eq in H; subst; reflexivity.
Qed.

(** X5. GET / reads and never writes.  To a caller without a store it
    answers [null]; to a caller with a store (one, as POST / keeps it) it
    answers that store, every column as it is stored, with the social
    accounts that point to it; it never shows a store of another seller;
    and when several stores carry the caller's id the answer is the 500 of
    the failed query. *)
Theorem get_store_shows_the_own_store
    (rt : Runtime) (eng : Engine) (t : Tables) (req : Request) (userId path : string) :
  signed_in rt req userId ->
  asks req "GET" path -> root path = true ->
  exists r,
    serve_all rt eng t req = (t, r)
    /\ (has_no_store (core t) userId -> r = ok_200 JNull)
    /\ (forall s,
          unique_on "seller_id" (stores (core t)) ->
          In s (stores (core t)) -> col s "seller_id" = JStr userId ->
          exists shown,
            r = ok_200 (JObj shown)
            /\ col shown "social_accounts"
               = rows_json (eq "store_id" (Some (col s "id"))
                              (social_accounts (core t)))
            /\ forall c, c <> "social_accounts" -> col shown c = col s c)
    /\ (forall d, r = ok_200 d ->
          d = JNull
          \/ exists s shown,
               d = JObj shown
               /\ In s (stores (core t))
               /\ col s "seller_id" = JStr userId
               /\ col shown "seller_id" = JStr userId
               /\ col shown "id" = col s "id"
               /\ col shown "social_accounts"
                  = rows_json (eq "store_id" (Some (col s "id"))
                                 (social_accounts (core t))))
    /\ ((2 <= List.length (eq "seller_id" (text userId) (stores (core t))))%nat ->
        r = unknown_error).
Proof.
  intros Hin Hreq Hroot.
  rewrite (serve_all_lifted rt eng t req userId "GET" path (get_store userId))
    by (assumption || discriminate || now rewrite route_get_store).
  unfold run, get_store.
  assert (Hown : forall s, In s (eq "seller_id" (text userId) (stores (core t))) ->
                           In s (stores (core t)) /\ col s "seller_id" = JStr userId).
  { intros s Hs. apply filter_In in Hs. destruct Hs as [Hs Heq].
    split; [assumption | now apply pg_eq_text]. }
  assert (Hnone : has_no_store (core t) userId ->
                  eq "seller_id" (text userId) (stores (core t)) = [])
    by apply no_store_no_rows.
  assert (Hone : forall s,
             unique_on "seller_id" (stores (core t)) ->
             In s (stores (core t)) -> col s "seller_id" = JStr userId ->
             eq "seller_id" (text userId) (stores (core t)) = [s]).
  { intros s Hu Hs Hseller. apply unique_row; [assumption | assumption |].
    now apply pg_eq_text. }
  destruct (eq "seller_id" (text userId) (stores (core t))) as [|s [|s' rest]].
  - cbn. rewrite with_core_same. eexists. split; [reflexivity|].
    split; [reflexivity|].
    split; [intros s Hu Hs Hseller; now specialize (Hone s Hu Hs Hseller)|].
    split; [| simpl; lia].
    intros d Hd. left. unfold ok_200 in Hd. congruence.
  - cbn. rewrite with_core_same. eexists. split; [reflexivity|].
    destruct (Hown s (or_introl Logic.eq_refl)) as [Hs Hseller].
    split; [intro H; now specialize (Hnone H)|].
    split.
    { intros s0 Hu Hs0 Hseller0. specialize (Hone s0 Hu Hs0 Hseller0).
      injection Hone as <-. eexists. split; [reflexivity|].
      unfold embed_many. split; [apply col_set_col_same|].
      intros c Hc. now apply col_set_col_other. }
    split; [| simpl; lia].
    intros d Hd. right. exists s. eexists. unfold ok_200 in Hd.
    split; [injection Hd as <-; reflexivity|].
    unfold embed_many.
    rewrite !col_set_col_other by discriminate. rewrite col_set_col_same.
    repeat split; assumption.
  - cbn. rewrite with_core_same. eexists. split; [reflexivity|].
    split; [intro H; now specialize (Hnone H)|].
    split.
    { intros s0 Hu Hs0 Hseller0. specialize (Hone s0 Hu Hs0 Hseller0).
      discriminate. }
    split; [intros d Hd; discriminate | reflexivity].
Qed.

Lemma get_store_shows_the_own_store_witness :
  exists shown,
    serve_all Sample.rt Desk.engine Desk.tables (Desk.ask "GET" Sample.alice "/" JNull)
    = (Desk.tables, ok_200 (JObj shown))
    /\ col shown "id" = JStr "s1"
    /\ col shown "slug" = JStr "alice-shop"
    /\ col shown "social_accounts" = rows_json (social_accounts Sample.db).
Proof.
  destruct (get_store_shows_the_own_store Sample.rt Desk.engine Desk.tables
              (Desk.ask "GET" Sample.alice "/" JNull) "alice" "/")
    as (r & Hserve & _ & Hshown & _).
  - exists "token-alice". split; reflexivity.
  - split; reflexivity.
  - reflexivity.
  - destruct (Hshown (nth 0 (stores Sample.db) []))
      as (shown & -> & Haccounts & Hcols).
    + apply sample_stores_unique. now left.
    + simpl. now left.
    + reflexivity.
    + exists shown. split; [exact Hserve|].
      split; [now rewrite Hcols by discriminate|].
      split; [now rewrite Hcols by discriminate | exact Haccounts].
Defined.

(** X6. PUT / writes to the store of the caller only: the stores of other
    sellers are the rows they were, no other table changes, and a caller
    without a store gets the 500 of the failed update, nothing being
    created. *)
Theorem update_store_is_scoped
    (rt : Runtime) (eng : Engine) (t : Tables) (req : Request) (userId path : string)
    (b : json) :
  signed_in rt req userId ->
  asks req "PUT" path -> root path = true ->
  body req = inr b -> b <> JNull ->
  exists t' r,
    serve_all rt eng t req = (t', r)
    /\ t' = with_core (with_stores (stores (core t')) (core t)) t
    /\ others_untouched "seller_id" userId (stores (core t)) (stores (core t'))
    /\ (has_no_store (core t) userId -> t' = t /\ r = unknown_error).
Proof.
  intros Hin Hreq Hroot Hbody Hb.
  rewrite (serve_all_lifted rt eng t req userId "PUT" path (update_store rt userId req))
    by (assumption || discriminate || now rewrite route_update_store).
  unfold run, update_store. rewrite (with_body_ok req b) by assumption.
  match goal with
  | |- context [update_single ?c ?s ?rows] =>
      pose proof (update_single_others "seller_id" userId c s rows) as Hothers;
      destruct (update_single_reply c s rows) as [(x & Hx & E)|(Hn & E)];
      rewrite E in *
  end.
  - cbn [error data ok fst] in *.
    eexists. eexists. split; [reflexivity|].
    split; [reflexivity|]. cbn [core with_core stores with_stores].
    split; [apply Hothers; intros r0 H0; now apply pg_eq_text|].
    intro Hnone. apply no_store_no_rows in Hnone. unfold eq in Hnone.
    rewrite Hnone in Hx. discriminate.
  - cbn [error data failed fst] in *.
    eexists. eexists. split; [reflexivity|].
    split; [reflexivity|]. cbn [core with_core stores with_stores].
    split; [apply others_untouched_refl|].
    intros _. split; [|reflexivity].
    rewrite (proj1 (proj2 (proj2 (same_db (core t))))). apply with_core_same.
Qed.

Lemma update_store_is_scoped_witness :
  exists t' r,
    serve_all Sample.rt Desk.engine Desk.tables
      (Desk.ask "PUT" Sample.alice "/" Sample.rename)
    = (t', r)
    /\ others_untouched "seller_id" "alice" (stores Sample.db) (stores (core t')).
Proof.
  destruct (update_store_is_scoped Sample.rt Desk.engine Desk.tables
              (Desk.ask "PUT" Sample.alice "/" Sample.rename) "alice" "/" Sample.rename)
    as (t' & r & Hserve & _ & Hothers & _).
  - exists "token-alice". split; reflexivity.
  - split; reflexivity.
  - reflexivity.
  - reflexivity.
  - discriminate.
  - exists t', r. split; assumption.
Defined.

Lemma when_truthy_text (k s : string) :
  s <> "" -> when_truthy k (Some (JStr s)) = [(k, JStr s)].
Proof.
  intro H. unfold when_truthy, truthy.
  destruct (String.eqb s "") eqn:E; [apply String.eqb_eq in E; contradiction|].
  reflexivity.
Qed.

(** X7. PUT / makes no check of the slug it is given.  Where POST / refuses
    a slug that a store uses, PUT / sends the update: applied, the caller's
    store carries a slug that another store carries too, and slugs are no
    longer unique. *)
Theorem update_store_takes_a_used_slug
    (rt : Runtime) (eng : Engine) (t : Tables) (req : Request) (userId path slug : string)
    (b : json) (s other : Row) :
  signed_in rt req userId ->
  asks req "PUT" path -> root path = true ->
  body req = inr b ->
  prop b "slug" = Some (JStr slug) -> slug <> "" ->
  unique_on "seller_id" (stores (core t)) ->
  In s (stores (core t)) -> col s "seller_id" = JStr userId ->
  In other (stores (core t)) -> col other "seller_id" <> JStr userId ->
  col other "slug" = JStr slug ->
  exists t' s',
    serve_all rt eng t req = (t', ok_200 (JObj s'))
    /\ In s' (stores (core t')) /\ In other (stores (core t'))
    /\ col s' "id" = col s "id"
    /\ col s' "seller_id" = JStr userId
    /\ col s' "slug" = JStr slug
    /\ ~ unique_on "slug" (stores (core t')).
Proof.
  intros Hin Hreq Hroot Hbody Hslug Hne Huniq Hs Hseller Ho Hoseller Hoslug.
  assert (Hb : b <> JNull) by (intros ->; discriminate).
  rewrite (serve_all_lifted rt eng t req userId "PUT" path (update_store rt userId req))
    by (assumption || discriminate || now rewrite route_update_store).
  unfold run, update_store. rewrite (with_body_ok req b) by assumption.
  rewrite Hslug, (when_truthy_text "slug" slug Hne).
  assert (Hsel : pg_eq (col s "seller_id") (text userId) = true)
    by now apply pg_eq_text.
  assert (Hosel : pg_eq (col other "seller_id") (text userId) = false)
    by now apply pg_eq_text_false.
  pose proof (unique_row "seller_id" (text userId) _ s Huniq Hs Hsel) as Hone.
  unfold eq in Hone. unfold update_single. rewrite Hone.
  cbn [error data ok].
  match goal with
  | |- context [update ?c ?f _] => set (changes := c); set (sel := f)
  end.
  exists (with_core (with_stores (update changes sel (stores (core t))) (core t)) t).
  exists (patch changes s).
  split; [reflexivity|]. cbn [core with_core stores with_stores].
  assert (Hs' : In (patch changes s) (update changes sel (stores (core t)))).
  { pose proof (in_update changes sel _ s Hs) as H. unfold sel in H at 1.
    now rewrite Hsel in H. }
  assert (Ho' : In other (update changes sel (stores (core t)))).
  { pose proof (in_update changes sel _ other Ho) as H. unfold sel in H at 1.
    now rewrite Hosel in H. }
  assert (Hid : col (patch changes s) "id" = col s "id")
    by (apply col_patch_other; unfold changes; not_a_key).
  assert (Hsl : col (patch changes s) "seller_id" = JStr userId)
    by (rewrite <- Hseller; apply col_patch_other; unfold changes; not_a_key).
  assert (Hslug' : col (patch changes s) "slug" = JStr slug).
  { unfold changes. rewrite !patch_app.
    rewrite col_patch_other by not_a_key.
    rewrite col_patch_other by not_a_key.
    rewrite col_patch_other by not_a_key.
    rewrite col_patch_other by not_a_key.
    rewrite col_patch_other by not_a_key.
    apply col_set_col_same. }
  repeat split; try assumption.
  intro Hu. specialize (Hu (text slug)).
  assert (H2 : (2 <= List.length
                       (eq "slug" (text slug) (update changes sel (stores (core t)))))%nat).
  { apply (two_in_length (patch changes s) other).
    - apply filter_In. split; [assumption | now apply pg_eq_text].
    - apply filter_In. split; [assumption | now apply pg_eq_text].
    - intros E. rewrite <- E in Hoseller. contradiction. }
  lia.
Qed.

Lemma update_store_takes_a_used_slug_witness :
  exists t' s',
    serve_all Sample.rt Desk.engine Desk.tables
      (Desk.ask "PUT" Sample.alice "/" (JObj [("slug", JStr "carol-shop")]))
    = (t', ok_200 (JObj s'))
    /\ col s' "seller_id" = JStr "alice"
    /\ col s' "slug" = JStr "carol-shop"
    /\ ~ unique_on "slug" (stores (core t')).
Proof.
  destruct (update_store_takes_a_used_slug Sample.rt Desk.engine Desk.tables
              (Desk.ask "PUT" Sample.alice "/" (JObj [("slug", JStr "carol-shop")]))
              "alice" "/" "carol-shop" (JObj [("slug", JStr "carol-shop")])
              (nth 0 (stores Sample.db) []) (nth 1 (stores Sample.db) []))
    as (t' & s' & Hserve & _ & _ & _ & Hseller & Hslug & Hnot).
  - exists "token-alice". split; reflexivity.
  - split; reflexivity.
  - reflexivity.
  - reflexivity.
  - reflexivity.
  - discriminate.
  - apply sample_stores_unique. now left.
  - simpl. now left.
  - reflexivity.
  - simpl. right. now left.
  - discriminate.
  - reflexivity.
  - exists t', s'. repeat split; assumption.
Defined.

(** *** Creating products and social accounts *)

Lemma insert_sorted_in (le : Row -> Row -> bool) (r x : Row) (rows : list Row) :
  x = r \/ In x rows -> In x (insert_sorted le r rows).
Proof.
  induction rows as [|y rows IH]; simpl.
  - intros [->|[]]. now left.
  - destruct (le r y); simpl; intuition.
Qed.

Lemma in_sorted (le : Row -> Row -> bool) (x : Row) (rows : list Row) :
  In x rows -> In x (fold_right (insert_sorted le) [] rows).
Proof.
  induction rows as [|y rows IH]; simpl; [auto|].
  intros [->|H]; apply insert_sorted_in; auto.
Qed.

Lemma in_order (c : string) (ascending : bool) (x : Row) (rows : list Row) :
  In x rows -> In x (order c ascending rows).
Proof. apply in_sorted. Qed.

Lemma one_store (db : Db) (userId : string) (s : Row) :
  unique_on "seller_id" (stores db) ->
  In s (stores db) -> col s "seller_id" = JStr userId ->
  maybeSingle (eq "seller_id" (text userId) (stores db)) = ok s.
Proof.
  intros Hu Hs Hseller.
  rewrite (unique_row "seller_id" (text userId) _ s Hu Hs); [reflexivity|].
  now apply pg_eq_text.
Qed.

Lemma no_store (db : Db) (userId : string) :
  has_no_store db userId ->
  maybeSingle (eq "seller_id" (text userId) (stores db)) = no_rows.
Proof. intro H. now rewrite no_store_no_rows. Qed.

Lemma truthy_some (v : value) : truthy v = true -> exists x, v = Some x.
Proof. destruct v as [x|]; [now exists x | discriminate]. Qed.

(** X8. POST /products with a name, by a seller who has a store, stores one
    product, a draft of that store, under a fresh identifier and answers it
    with status 201; GET /products of the same seller then lists it, also
    under the filter [status=DRAFT]. *)
Theorem created_product_is_listed
    (rt : Runtime) (eng : Engine) (t : Tables) (req : Request) (userId sid : string)
    (b : json) (s : Row) :
  signed_in rt req userId ->
  asks req "POST" "/products" ->
  body req = inr b ->
  truthy (prop b "name") = true ->
  unique_on "seller_id" (stores (core t)) ->
  In s (stores (core t)) -> col s "seller_id" = JStr userId -> col s "id" = JStr sid ->
  exists p t',
    serve_all rt eng t req = (t', created (JObj p))
    /\ t' = with_core (next_serial (with_products (products (core t) ++ [p])%list (core t))) t
    /\ col p "id" = JStr (gen_random_uuid rt (serial (core t)))
    /\ col p "store_id" = JStr sid
    /\ Some (col p "name") = prop b "name"
    /\ col p "status" = JStr "DRAFT"
    /\ (forall req',
          signed_in rt req' userId -> asks req' "GET" "/products" ->
          In (str_or (get "status" (searchParams req')) "all") ["all"; "DRAFT"] ->
          exists items,
            serve_all rt eng t' req' = (t', ok_200 (rows_json items)) /\ In p items).
Proof.
  intros Hin Hreq Hbody Hname Hu Hs Hseller Hid.
  assert (Hb : b <> JNull) by (intros ->; discriminate).
  rewrite (serve_all_lifted rt eng t req userId "POST" "/products"
             (create_product rt userId req)) by (assumption || discriminate || reflexivity).
  unfold run, create_product. rewrite (with_body_ok req b) by assumption.
  rewrite Hname. cbn [negb]. rewrite (one_store _ userId s Hu Hs Hseller).
  cbn [data ok]. rewrite Hid.
  destruct (truthy_some _ Hname) as [name Hn]. rewrite Hn.
  match goal with
  | |- context [insert ?row _] => set (p := row)
  end.
  assert (Hcols : col p "id" = JStr (gen_random_uuid rt (serial (core t)))
                  /\ col p "store_id" = JStr sid
                  /\ col p "name" = name
                  /\ col p "status" = JStr "DRAFT").
  { unfold p, new_row, or_else.
    destruct (prop b "description"), (prop b "price"), (prop b "images") as [i|];
      try destruct (truthy (Some i)); repeat split. }
  destruct Hcols as (Hpid & Hpstore & Hpname & Hpstatus).
  exists p. eexists. split; [reflexivity|]. split; [reflexivity|].
  split; [assumption|]. split; [assumption|].
  split; [now rewrite Hpname|]. split; [assumption|].
  intros req' Hin' Hreq' Hstatus.
  rewrite (serve_all_lifted rt eng _ req' userId "GET" "/products"
             (list_products userId req')) by (assumption || discriminate || reflexivity).
  unfold run, list_products.
  cbn [core with_core next_serial with_serial with_products stores products].
  rewrite (one_store _ userId s Hu Hs Hseller). cbn [data ok]. rewrite Hid.
  eexists. split; [reflexivity|].
  apply in_order.
  assert (Hq : In p (eq "store_id" (text sid) (insert p (products (core t))))).
  { apply filter_In. split; [apply in_or_app; right; now left|].
    now apply pg_eq_text. }
  destruct Hstatus as [<-|[<-|[]]]; cbn [String.eqb Ascii.eqb Bool.eqb negb].
  - exact Hq.
  - apply filter_In. split; [exact Hq | now apply pg_eq_text].
Qed.

Lemma created_product_is_listed_witness :
  exists p t',
    serve_all Sample.rt Desk.engine Desk.tables
      (Desk.ask "POST" Sample.alice "/products"
         (JObj [("name", JStr "Bowl"); ("price", Sample.n 12)]))
    = (t', created (JObj p))
    /\ col p "store_id" = JStr "s1"
    /\ col p "status" = JStr "DRAFT"
    /\ exists items,
         serve_all Sample.rt Desk.engine t'
           (Sample.request "GET" Sample.alice "/products" [("status", "DRAFT")] JNull)
         = (t', ok_200 (rows_json items))
         /\ In p items.
Proof.
  destruct (created_product_is_listed Sample.rt Desk.engine Desk.tables
              (Desk.ask "POST" Sample.alice "/products"
                 (JObj [("name", JStr "Bowl"); ("price", Sample.n 12)]))
              "alice" "s1" (JObj [("name", JStr "Bowl"); ("price", Sample.n 12)])
              (nth 0 (stores Sample.db) []))
    as (p & t' & Hserve & _ & _ & Hstore & _ & Hstatus & Hlist).
  - exists "token-alice". split; reflexivity.
  - split; reflexivity.
  - reflexivity.
  - reflexivity.
  - apply sample_stores_unique. now left.
  - simpl. now left.
  - reflexivity.
  - reflexivity.
  - exists p, t'. repeat split; try assumption.
    apply Hlist.
    + exists "token-alice". split; reflexivity.
    + split; reflexivity.
    + simpl. right. now left.
Defined.

(** X9. POST /social with a platform and a page URL, by a seller who has a
    store, stores one account of that store and answers it with status 201;
    GET /social of the same seller then lists it. *)
Theorem connected_account_is_listed
    (rt : Runtime) (eng : Engine) (t : Tables) (req : Request) (userId sid : string)
    (b : json) (s : Row) :
  signed_in rt req userId ->
  asks req "POST" "/social" ->
  body req = inr b ->
  truthy (prop b "platform") = true -> truthy (prop b "pageUrl") = true ->
  unique_on "seller_id" (stores (core t)) ->
  In s (stores (core t)) -> col s "seller_id" = JStr userId -> col s "id" = JStr sid ->
  exists a t',
    serve_all rt eng t req = (t', created (JObj a))
    /\ t' = with_core (next_serial
                         (with_social_accounts (social_accounts (core t) ++ [a])%list
                            (core t))) t
    /\ col a "store_id" = JStr sid
    /\ Some (col a "platform") = prop b "platform"
    /\ Some (col a "page_url") = prop b "pageUrl"
    /\ (forall req',
          signed_in rt req' userId -> asks req' "GET" "/social" ->
          exists items,
            serve_all rt eng t' req' = (t', ok_200 (rows_json items)) /\ In a items).
Proof.
  intros Hin Hreq Hbody Hplatform Hurl Hu Hs Hseller Hid.
  assert (Hb : b <> JNull) by (intros ->; discriminate).
  rewrite (serve_all_lifted rt eng t req userId "POST" "/social"
             (connect_social rt userId req)) by (assumption || discriminate || reflexivity).
  unfold run, connect_social. rewrite (with_body_ok req b) by assumption.
  rewrite Hplatform, Hurl. cbn [negb orb]. rewrite (one_store _ userId s Hu Hs Hseller).
  cbn [data ok]. rewrite Hid.
  destruct (truthy_some _ Hplatform) as [platform Hp]. rewrite Hp.
  destruct (truthy_some _ Hurl) as [url Hurl']. rewrite Hurl'.
  match goal with
  | |- context [insert ?row _] => set (a := row)
  end.
  assert (Hcols : col a "store_id" = JStr sid
                  /\ col a "platform" = platform
                  /\ col a "page_url" = url).
  { unfold a, new_row. repeat split. }
  destruct Hcols as (Hastore & Haplatform & Haurl).
  exists a. eexists. split; [reflexivity|]. split; [reflexivity|].
  split; [assumption|]. split; [now rewrite Haplatform|]. split; [now rewrite Haurl|].
  intros req' Hin' Hreq'.
  rewrite (serve_all_lifted rt eng _ req' userId "GET" "/social" (list_social userId))
    by (assumption || discriminate || reflexivity).
  unfold run, list_social.
  cbn [core with_core next_serial with_serial with_social_accounts stores social_accounts].
  rewrite (one_store _ userId s Hu Hs Hseller). cbn [data ok]. rewrite Hid.
  eexists. split; [reflexivity|].
  apply filter_In. split; [apply in_or_app; right; now left | now apply pg_eq_text].
Qed.

Lemma connected_account_is_listed_witness :
  exists a t',
    serve_all Sample.rt Desk.engine Desk.tables
      (Desk.ask "POST" Sample.alice "/social"
         (JObj [("platform", JStr "tiktok"); ("pageUrl", JStr "https://tiktok.example/alice")]))
    = (t', created (JObj a))
    /\ col a "store_id" = JStr "s1"
    /\ exists items,
         serve_all Sample.rt Desk.engine t' (Desk.ask "GET" Sample.alice "/social" JNull)
         = (t', ok_200 (rows_json items))
         /\ In a items.
Proof.
  destruct (connected_account_is_listed Sample.rt Desk.engine Desk.tables
              (Desk.ask "POST" Sample.alice "/social"
                 (JObj [("platform", JStr "tiktok");
                        ("pageUrl", JStr "https://tiktok.example/alice")]))
              "alice" "s1"
              (JObj [("platform", JStr "tiktok");
                     ("pageUrl", JStr "https://tiktok.example/alice")])
              (nth 0 (stores Sample.db) []))
    as (a & t' & Hserve & _ & Hstore & _ & _ & Hlist).
  - exists "token-alice". split; reflexivity.
  - split; reflexivity.
  - reflexivity.
  - reflexivity.
  - reflexivity.
  - apply sample_stores_unique. now left.
  - simpl. now left.
  - reflexivity.
  - reflexivity.
  - exists a, t'. repeat split; try assumption.
    apply Hlist.
    + exists "token-alice". split; reflexivity.
    + split; reflexivity.
Defined.

(** X10. What POST /products and POST /social refuse, with status 400 and
    nothing written: a body without a name ("Product name is required"),
    a body without a platform or a page URL ("Platform and pageUrl are
    required"), and, these being given, a caller without a store ("Create
    a store first").  The fields are checked before the store is. *)
Theorem products_and_accounts_need_a_store
    (rt : Runtime) (eng : Engine) (t : Tables) (req : Request) (userId : string)
    (b : json) :
  signed_in rt req userId ->
  body req = inr b -> b <> JNull ->
  (asks req "POST" "/products" ->
   (truthy (prop b "name") = false ->
    serve_all rt eng t req = (t, error_response 400 "Product name is required"))
   /\ (truthy (prop b "name") = true -> has_no_store (core t) userId ->
       serve_all rt eng t req = (t, error_response 400 "Create a store first")))
  /\ (asks req "POST" "/social" ->
      (truthy (prop b "platform") = false \/ truthy (prop b "pageUrl") = false ->
       serve_all rt eng t req
       = (t, error_response 400 "Platform and pageUrl are required"))
      /\ (truthy (prop b "platform") = true -> truthy (prop b "pageUrl") = true ->
          has_no_store (core t) userId ->
          serve_all rt eng t req = (t, error_response 400 "Create a store first"))).
Proof.
  intros Hin Hbody Hb. split; intro Hreq.
  - rewrite (serve_all_lifted rt eng t req userId "POST" "/products"
               (create_product rt userId req))
      by (assumption || discriminate || reflexivity).
    unfold run, create_product. rewrite (with_body_ok req b) by assumption.
    split.
    + intros ->. cbn [negb failure respond]. now rewrite with_core_same.
    + intros -> Hnone. cbn [negb]. rewrite (no_store _ _ Hnone).
      cbn [data no_rows failure respond]. now rewrite with_core_same.
  - rewrite (serve_all_lifted rt eng t req userId "POST" "/social"
               (connect_social rt userId req))
      by (assumption || discriminate || reflexivity).
    unfold run, connect_social. rewrite (with_body_ok req b) by assumption.
    split.
    + intros [-> | ->]; cbn [negb orb]; rewrite ?orb_true_r;
        cbn [failure respond]; now rewrite with_core_same.
    + intros -> -> Hnone. cbn [negb orb]. rewrite (no_store _ _ Hnone).
      cbn [data no_rows failure respond]. now rewrite with_core_same.
Qed.

Lemma products_and_accounts_need_a_store_witness :
  serve_all Sample.rt Desk.engine Desk.tables
    (Desk.ask "POST" Sample.bob "/products" (JObj [("name", JStr "Bowl")]))
  = (Desk.tables, error_response 400 "Create a store first")
  /\ serve_all Sample.rt Desk.engine Desk.tables
       (Desk.ask "POST" Sample.alice "/social" (JObj [("platform", JStr "tiktok")]))
     = (Desk.tables, error_response 400 "Platform and pageUrl are required").
Proof.
  split.
  - destruct (products_and_accounts_need_a_store Sample.rt Desk.engine Desk.tables
                (Desk.ask "POST" Sample.bob "/products" (JObj [("name", JStr "Bowl")]))
                "bob" (JObj [("name", JStr "Bowl")])) as [Hproducts _].
    + exists "token-bob". split; reflexivity.
    + reflexivity.
    + discriminate.
    + apply Hproducts; [split; reflexivity | reflexivity |].
      intros s [<-|[<-|[]]]; discriminate.
  - destruct (products_and_accounts_need_a_store Sample.rt Desk.engine Desk.tables
                (Desk.ask "POST" Sample.alice "/social" (JObj [("platform", JStr "tiktok")]))
                "alice" (JObj [("platform", JStr "tiktok")])) as [_ Hsocial].
    + exists "token-alice". split; reflexivity.
    + reflexivity.
    + discriminate.
    + apply Hsocial; [split; reflexivity |]. right. reflexivity.
Defined.

(** *** Review analytics *)

Lemma Qred_inject_Z (z : Z) : Qred (inject_Z z) = inject_Z z.
Proof.
  unfold Qred, inject_Z.
  pose proof (Z.ggcd_gcd z 1) as Hg. pose proof (Z.ggcd_correct_divisors z 1) as Hd.
  destruct (Z.ggcd z 1) as [g [a b]]. cbn [fst snd] in *.
  rewrite Z.gcd_1_r in Hg. subst g. destruct Hd as [Ha Hb].
  rewrite Z.mul_1_l in Ha, Hb. subst. reflexivity.
Qed.

Lemma add_of_nat_one (n : nat) : add (of_nat n) (of_Z 1) = of_nat (S n).
Proof.
  unfold of_nat, of_Z. cbn [add]. f_equal.
  rewrite <- (Qred_inject_Z (Z.of_nat (S n))). apply Qred_complete.
  rewrite Nat2Z.inj_succ. unfold Z.succ. rewrite inject_Z_plus. reflexivity.
Qed.

Lemma stars_of_range (x : Row) : (1 <= stars_of x <= 5)%Z.
Proof. unfold stars_of. destruct (col x "rating") as [| |[q| | |]| | |]; lia. Qed.

Lemma Qle_bool_false (a b : Q) : Qle_bool a b = false <-> b < a.
Proof.
  split; intro H.
  - apply Qnot_le_lt. intro Hle. apply Qle_bool_iff in Hle. congruence.
  - destruct (Qle_bool a b) eqn:E; [|reflexivity].
    apply Qle_bool_iff in E. apply Qle_not_lt in E. contradiction.
Qed.

(** The index of [dist[..]] for a review with a whole rating. *)
Lemma star_whole (x : Row) :
  whole_rating x -> exists q, star x = Fin q /\ q == inject_Z (stars_of x).
Proof.
  unfold whole_rating, star, rating_of, stars_of.
  intros [->|(q & z & -> & Hz)].
  - exists (inject_Z 1). split; reflexivity.
  - assert (Hfloor : Qfloor q = z) by (rewrite Hz; apply Qfloor_Z).
    rewrite Hfloor. unfold or_zero, truthy.
    destruct (Qeq_bool q 0) eqn:E0; cbn [negb].
    + apply Qeq_bool_iff in E0. rewrite E0 in Hz.
      assert (H0 : z = 0%Z) by (symmetry; apply inject_Z_injective; exact Hz).
      rewrite H0.
      exists (inject_Z 1). split; reflexivity.
    + unfold Math_max, of_Z. cbn [ltb]. 
      destruct (Qle_bool q (inject_Z 1)) eqn:E1; cbn [negb].
      * apply Qle_bool_iff in E1. rewrite Hz, <- Zle_Qle in E1.
        exists (inject_Z 1). split; [reflexivity|].
        replace (Z.min 5 (Z.max 1 z)) with 1%Z by lia. reflexivity.
      * apply Qle_bool_false in E1. rewrite Hz, <- Zlt_Qlt in E1.
        unfold Math_min. cbn [ltb].
        destruct (Qle_bool (inject_Z 5) q) eqn:E5; cbn [negb].
        -- apply Qle_bool_iff in E5. rewrite Hz, <- Zle_Qle in E5.
           exists (inject_Z 5). split; [reflexivity|].
           replace (Z.min 5 (Z.max 1 z)) with 5%Z by lia. reflexivity.
        -- apply Qle_bool_false in E5. rewrite Hz, <- Zlt_Qlt in E5.
           exists q. split; [reflexivity|].
           replace (Z.min 5 (Z.max 1 z)) with z by lia. exact Hz.
Qed.

Lemma number_key_whole (rt : Runtime) (q : Q) (k : Z) :
  q == inject_Z k -> (1 <= k <= 5)%Z ->
  number_key rt (Fin q) = NilZero.string_of_int (Z.to_int k).
Proof.
  intros Hq Hk. unfold number_key.
  assert (Hfloor : Qfloor q = k) by (rewrite Hq; apply Qfloor_Z).
  rewrite Hfloor.
  assert (E : Qeq_bool q (inject_Z k) = true) by now apply Qeq_bool_iff.
  rewrite E.
  assert (E' : (Z.abs k <? 10 ^ 21)%Z = true).
  { apply Z.ltb_lt. change (10 ^ 21)%Z with 1000000000000000000000%Z. lia. }
  now rewrite E'.
Qed.

Lemma distribution_ext (f g : Z -> nat) :
  (forall k, (1 <= k <= 5)%Z -> f k = g k) -> distribution f = distribution g.
Proof.
  intro H. unfold distribution.
  rewrite (H 1%Z), (H 2%Z), (H 3%Z), (H 4%Z), (H 5%Z) by lia. reflexivity.
Qed.

Lemma increment_distribution (k : Z) (c : Z -> nat) :
  (1 <= k <= 5)%Z ->
  increment (NilZero.string_of_int (Z.to_int k)) (distribution c)
  = distribution (fun j => if (j =? k)%Z then S (c j) else c j).
Proof.
  intro Hk.
  assert (Hcases : k = 1%Z \/ k = 2%Z \/ k = 3%Z \/ k = 4%Z \/ k = 5%Z) by lia.
  destruct Hcases as [->|[->|[->|[->| ->]]]];
    unfold distribution; cbn [Z.eqb Pos.eqb];
    rewrite <- add_of_nat_one; reflexivity.
Qed.

Lemma rating_distribution_from (rt : Runtime) (r : list Row) (c : Z -> nat) :
  Forall whole_rating r ->
  fold_left (fun dist x => increment (number_key rt (star x)) dist) r (distribution c)
  = distribution (fun k => (c k + in_bucket k r)%nat).
Proof.
  intro H. revert c. induction H as [|x r Hx Hr IH]; intro c.
  - apply distribution_ext. intros k _. unfold in_bucket. simpl. lia.
  - cbn [fold_left].
    destruct (star_whole x Hx) as (q & -> & Hq).
    rewrite (number_key_whole rt q _ Hq (stars_of_range x)).
    rewrite (increment_distribution _ c (stars_of_range x)), IH.
    apply distribution_ext. intros k _. unfold in_bucket. cbn [filter].
    rewrite (Z.eqb_sym k). destruct (stars_of x =? k)%Z; simpl; lia.
Qed.

Lemma buckets_cover (r : list Row) :
  (in_bucket 1 r + in_bucket 2 r + in_bucket 3 r + in_bucket 4 r + in_bucket 5 r
   = List.length r)%nat.
Proof.
  unfold in_bucket. induction r as [|x r IH]; [reflexivity|].
  pose proof (stars_of_range x) as Hx. cbn [filter List.length].
  assert (Hcases : stars_of x = 1%Z \/ stars_of x = 2%Z \/ stars_of x = 3%Z
                   \/ stars_of x = 4%Z \/ stars_of x = 5%Z) by lia.
  destruct Hcases as [->|[->|[->|[->| ->]]]]; cbn [Z.eqb Pos.eqb List.length]; lia.
Qed.

(** X11. GET /reviews/analytics reads and never writes.  For reviews whose
    rating is missing or a whole number, the distribution it answers holds,
    under each of the keys 1 to 5, the number of reviews whose rating,
    brought into 1..5, is that key: ratings below 1 and missing ratings
    count as one star, ratings above 5 as five.  The five counts add up to
    [total_reviews].  Without reviews nothing is divided: the response rate
    is "0" and the average is that of 0. *)
Theorem analytics_counts_the_stars
    (rt : Runtime) (eng : Engine) (t : Tables) (req : Request) (userId : string) :
  signed_in rt req userId ->
  asks req "GET" "/reviews/analytics" ->
  Forall whole_rating (analytics_query rt userId req (core t)) ->
  exists summary,
    serve_all rt eng t req
    = (t, ok_200 (JObj [("summary", JObj summary);
                        ("trend", JArr []); ("top_products", JArr [])]))
    /\ assoc "total_reviews" summary
       = Some (JNum (of_nat (List.length (analytics_query rt userId req (core t)))))
    /\ assoc "rating_distribution" summary
       = Some (JObj (distribution
                       (fun k => in_bucket k (analytics_query rt userId req (core t)))))
    /\ (in_bucket 1 (analytics_query rt userId req (core t))
        + in_bucket 2 (analytics_query rt userId req (core t))
        + in_bucket 3 (analytics_query rt userId req (core t))
        + in_bucket 4 (analytics_query rt userId req (core t))
        + in_bucket 5 (analytics_query rt userId req (core t))
        = List.length (analytics_query rt userId req (core t)))%nat
    /\ (analytics_query rt userId req (core t) = [] ->
        assoc "average_rating" summary = Some (JStr (toFixed rt zero 2))
        /\ assoc "response_rate" summary = Some (JStr "0")).
Proof.
  intros Hin Hreq Hwhole.
  rewrite (serve_all_lifted rt eng t req userId "GET" "/reviews/analytics"
             (review_analytics rt userId req))
    by (assumption || discriminate || reflexivity).
  unfold run, review_analytics. cbn [success respond]. rewrite with_core_same.
  unfold rating_distribution.
  change no_stars with (distribution (fun _ => 0%nat)).
  rewrite (rating_distribution_from rt _ _ Hwhole).
  eexists. split; [reflexivity|].
  cbn [assoc String.eqb Ascii.eqb Bool.eqb].
  split; [reflexivity|]. split; [reflexivity|]. split; [apply buckets_cover|].
  intros ->. split; reflexivity.
Qed.

Lemma analytics_counts_the_stars_witness :
  exists summary,
    serve_all Sample.rt Desk.engine Desk.tables
      (Desk.ask "GET" Sample.alice "/reviews/analytics" JNull)
    = (Desk.tables,
       ok_200 (JObj [("summary", JObj summary);
                     ("trend", JArr []); ("top_products", JArr [])]))
    /\ assoc "total_reviews" summary = Some (JNum (of_nat 1))
    /\ assoc "rating_distribution" summary
       = Some (JObj [("1", JNum (of_nat 0)); ("2", JNum (of_nat 0));
                     ("3", JNum (of_nat 0)); ("4", JNum (of_nat 1));
                     ("5", JNum (of_nat 0))]).
Proof.
  destruct (analytics_counts_the_stars Sample.rt Desk.engine Desk.tables
              (Desk.ask "GET" Sample.alice "/reviews/analytics" JNull) "alice")
    as (summary & Hserve & Htotal & Hdist & _).
  - exists "token-alice". split; reflexivity.
  - split; reflexivity.
  - assert (E : analytics_query Sample.rt "alice"
                  (Desk.ask "GET" Sample.alice "/reviews/analytics" JNull)
                  (core Desk.tables)
                = [nth 2 (product_reviews Sample.db) []])
      by (vm_compute; reflexivity).
    rewrite E. apply Forall_cons; [|apply Forall_nil].
    right. exists (inject_Z 4), 4%Z. split; reflexivity.
  - exists summary. split; [exact Hserve|]. split; [exact Htotal | exact Hdist].
Defined.

(** X12. GET /reviews/analytics depends on the approved reviews of the
    caller and on nothing else of the reviews table: the answer is the one
    given when every other review is taken out of the table. *)
Theorem analytics_reads_own_approved_reviews
    (rt : Runtime) (eng : Engine) (t : Tables) (req : Request) (userId : string) :
  signed_in rt req userId ->
  asks req "GET" "/reviews/analytics" ->
  let own_approved x :=
    pg_eq (col x "seller_id") (text userId) && pg_eq (col x "status") (text "approved") in
  snd (serve_all rt eng t req)
  = snd (serve_all rt eng
           (with_core (with_product_reviews
                         (filter own_approved (product_reviews (core t))) (core t)) t)
           req)
  /\ forall x, In x (analytics_query rt userId req (core t)) ->
               In x (product_reviews (core t))
               /\ col x "seller_id" = JStr userId /\ col x "status" = JStr "approved".
Proof.
  intros Hin Hreq own_approved.
  assert (Hq : forall rows,
             eq "status" (text "approved") (eq "seller_id" (text userId) rows)
             = filter own_approved rows)
    by (intro rows; apply filter_and).
  split.
  - rewrite !(serve_all_lifted rt eng _ req userId "GET" "/reviews/analytics"
                (review_analytics rt userId req))
      by (assumption || discriminate || reflexivity).
    unfold run, review_analytics, analytics_query.
    cbn [core with_core product_reviews with_product_reviews snd success respond].
    rewrite !Hq.
    assert (Hidem : filter own_approved (filter own_approved (product_reviews (core t)))
                    = filter own_approved (product_reviews (core t))).
    { rewrite filter_and. apply filter_ext. intro x. now destruct (own_approved x). }
    now rewrite Hidem.
  - intros x Hx. unfold analytics_query in Hx.
    assert (Hx' : In x (filter own_approved (product_reviews (core t)))).
    { rewrite <- Hq.
      destruct (negb (String.eqb _ "")) in Hx;
        [apply filter_In in Hx; destruct Hx as [Hx _]|];
        apply filter_In in Hx; destruct Hx as [Hx _];
        apply filter_In in Hx; destruct Hx as [Hx _]; exact Hx. }
    apply filter_In in Hx'. destruct Hx' as [Hrow Hown].
    apply andb_true_iff in Hown. destruct Hown as [H1 H2].
    repeat split; [assumption | now apply pg_eq_text | now apply pg_eq_text].
Qed.

Lemma analytics_reads_own_approved_reviews_witness :
  snd (serve_all Sample.rt Desk.engine Desk.tables
         (Desk.ask "GET" Sample.alice "/reviews/analytics" JNull))
  = snd (serve_all Sample.rt Desk.engine
           (with_core
              (with_product_reviews [nth 2 (product_reviews Sample.db) []] Sample.db)
              Desk.tables)
           (Desk.ask "GET" Sample.alice "/reviews/analytics" JNull)).
Proof.
  destruct (analytics_reads_own_approved_reviews Sample.rt Desk.engine Desk.tables
              (Desk.ask "GET" Sample.alice "/reviews/analytics" JNull) "alice")
    as [Hsame _].
  - exists "token-alice". split; reflexivity.
  - split; reflexivity.
  - exact Hsame.
Defined.

(** *** Review moderation and expense updates *)

Lemma route_respond_review (id : string) :
  is_id id = true -> route "POST" ("/reviews/" ++ id ++ "/respond") = RespondReview.
Proof.
  intro H. unfold route, match_id. cbn.
  rewrite (skip_id_append id "/respond" H), prefix_nil by reflexivity. reflexivity.
Qed.

Lemma route_set_review_status (id : string) :
  is_id id = true -> route "PATCH" ("/reviews/" ++ id ++ "/status") = SetReviewStatus.
Proof.
  intro H. unfold route, match_id. cbn.
  rewrite (skip_id_append id "/status" H), prefix_nil by reflexivity. reflexivity.
Qed.


Lemma segment_review (id suf : string) :
  is_id id = true -> segment 2 ("/reviews/" ++ id ++ String "/" suf) = id.
Proof.
  intro H. unfold segment. cbn.
  rewrite (split_slash_id id suf (is_id_all id H)). reflexivity.
Qed.

Lemma filter_none (sel : Row -> bool) (rows : list Row) :
  (forall r, In r rows -> sel r = false) -> filter sel rows = [].
Proof.
  induction rows as [|s rows IH]; intro H; simpl; [reflexivity|].
  rewrite (H s) by now left. apply IH. intros s' Hs. apply H. now right.
Qed.

Lemma own_true (userId id : string) (r : Row) :
  own userId id r = true <-> col r "id" = JStr id /\ col r "seller_id" = JStr userId.
Proof. unfold own. rewrite andb_true_iff, !pg_eq_text. reflexivity. Qed.

Lemma own_row (userId id : string) (rows : list Row) (r : Row) :
  unique_on "id" rows -> In r rows ->
  col r "id" = JStr id -> col r "seller_id" = JStr userId ->
  filter (own userId id) rows = [r].
Proof.
  intros Hu Hr Hid Hseller.
  transitivity (filter (fun x => pg_eq (col x "seller_id") (text userId))
                  (eq "id" (text id) rows)); [symmetry; apply filter_and|].
  rewrite (unique_row "id" (text id) rows r Hu Hr) by now apply pg_eq_text.
  simpl. apply pg_eq_text in Hseller. now rewrite Hseller.
Qed.

Lemma not_own_row (userId id : string) (rows : list Row) :
  (forall r, In r rows -> col r "id" = JStr id -> col r "seller_id" <> JStr userId) ->
  filter (own userId id) rows = [].
Proof.
  intro H. apply filter_none. intros r Hr.
  destruct (own userId id r) eqn:E; [|reflexivity].
  apply own_true in E. destruct E as [Hid Hseller]. now apply H in Hid.
Qed.

Lemma others_of_own (userId id : string) (r : Row) :
  own userId id r = true -> col r "seller_id" = JStr userId.
Proof. intro H. now apply own_true in H. Qed.

(** X13. POST /reviews/:id/respond with a response.  When no review with
    that id belongs to the caller (none exists, or it is another seller's)
    the answer is 500 "Unknown error" and nothing is written.  On the
    caller's own review the response is stored with the caller as the
    responder, every other column of the review and every other review is
    left alone, and the changed review is answered with status 200. *)
Theorem respond_review_is_scoped
    (rt : Runtime) (eng : Engine) (t : Tables) (req : Request) (userId id : string)
    (b response : json) :
  signed_in rt req userId ->
  asks req "POST" ("/reviews/" ++ id ++ "/respond") ->
  is_id id = true ->
  body req = inr b ->
  prop b "response" = Some response -> truthy (Some response) = true ->
  ((forall r, In r (product_reviews (core t)) ->
              col r "id" = JStr id -> col r "seller_id" <> JStr userId) ->
   serve_all rt eng t req = (t, unknown_error))
  /\ (forall r,
        unique_on "id" (product_reviews (core t)) ->
        In r (product_reviews (core t)) ->
        col r "id" = JStr id -> col r "seller_id" = JStr userId ->
        exists r' t',
          serve_all rt eng t req = (t', ok_200 (JObj r'))
          /\ t' = with_core (with_product_reviews (product_reviews (core t')) (core t)) t
          /\ In r' (product_reviews (core t'))
          /\ col r' "seller_response" = response
          /\ col r' "seller_responder_id" = JStr userId
          /\ (forall c, ~ In c ["seller_response"; "seller_responded_at";
                                "seller_responder_id"; "updated_at"] ->
                        col r' c = col r c)
          /\ others_untouched "seller_id" userId
               (product_reviews (core t)) (product_reviews (core t'))).
Proof.
  intros Hin Hreq Hid Hbody Hresp Htruthy.
  assert (Hb : b <> JNull) by (intros ->; discriminate).
  rewrite (serve_all_lifted rt eng t req userId "POST" ("/reviews/" ++ id ++ "/respond")
             (respond_review rt userId req ("/reviews/" ++ id ++ "/respond")))
    by (assumption || discriminate || now rewrite route_respond_review).
  unfold run, respond_review. rewrite (with_body_ok req b) by assumption.
  rewrite Hresp, Htruthy, (segment_review id "respond" Hid).
  unfold updated, update_single. split.
  - intro Hnone. rewrite (not_own_row userId id _ Hnone). cbn [error data failed].
    now rewrite (proj1 (proj2 (proj2 (proj2 (same_db (core t)))))), with_core_same.
  - intros r Hu Hr Hrid Hseller. rewrite (own_row userId id _ r Hu Hr Hrid Hseller).
    cbn [error data ok success respond].
    match goal with
    | |- context [update ?c _ _] => set (changes := c)
    end.
    exists (patch changes r). eexists. split; [reflexivity|].
    split; [reflexivity|]. cbn [core with_core product_reviews with_product_reviews].
    split.
    { pose proof (in_update changes (own userId id) _ r Hr) as H.
      rewrite (proj2 (own_true userId id r) (conj Hrid Hseller)) in H. exact H. }
    split; [unfold changes; patched|]. split; [unfold changes; patched|].
    split; [intros c Hc; apply col_patch_other; exact Hc|].
    apply update_others, others_of_own.
Qed.

Lemma respond_review_is_scoped_witness :
  serve_all Sample.rt Desk.engine Desk.tables
    (Desk.ask "POST" Sample.alice "/reviews/r2/respond"
       (JObj [("response", JStr "Thank you!")]))
  = (Desk.tables, unknown_error)
  /\ exists r' t',
       serve_all Sample.rt Desk.engine Desk.tables
         (Desk.ask "POST" Sample.alice "/reviews/r3/respond"
            (JObj [("response", JStr "Thank you!")]))
       = (t', ok_200 (JObj r'))
       /\ In r' (product_reviews (core t'))
       /\ col r' "seller_response" = JStr "Thank you!"
       /\ others_untouched "seller_id" "alice"
            (product_reviews Sample.db) (product_reviews (core t')).
Proof.
  split.
  - destruct (respond_review_is_scoped Sample.rt Desk.engine Desk.tables
                (Desk.ask "POST" Sample.alice "/reviews/r2/respond"
                   (JObj [("response", JStr "Thank you!")]))
                "alice" "r2" (JObj [("response", JStr "Thank you!")])
                (JStr "Thank you!")) as [Hforeign _].
    + exists "token-alice". split; reflexivity.
    + split; reflexivity.
    + reflexivity.
    + reflexivity.
    + reflexivity.
    + reflexivity.
    + apply Hforeign. intros r [<-|[<-|[<-|[]]]]; discriminate.
  - destruct (respond_review_is_scoped Sample.rt Desk.engine Desk.tables
                (Desk.ask "POST" Sample.alice "/reviews/r3/respond"
                   (JObj [("response", JStr "Thank you!")]))
                "alice" "r3" (JObj [("response", JStr "Thank you!")])
                (JStr "Thank you!")) as [_ Hown].
    + exists "token-alice". split; reflexivity.
    + split; reflexivity.
    + reflexivity.
    + reflexivity.
    + reflexivity.
    + reflexivity.
    + destruct (Hown (nth 2 (product_reviews Sample.db) []))
        as (r' & t' & Hserve & _ & Hr' & Hresp & _ & _ & Hothers).
      * distinct_keys.
      * simpl. right. right. now left.
      * reflexivity.
      * reflexivity.
      * exists r', t'. repeat split; try assumption; apply Hothers.
Defined.

(** X14. PATCH /reviews/:id/status.  A status other than the texts
    "approved" and "rejected" is refused with 400 and nothing is written.
    On the caller's own review the status is stored, the review is
    published exactly when it is approved (a rejected one loses its
    publication date), and the reviews of other sellers are left alone. *)
Theorem review_status_publishes_approved_reviews
    (rt : Runtime) (eng : Engine) (t : Tables) (req : Request) (userId id : string)
    (b : json) :
  signed_in rt req userId ->
  asks req "PATCH" ("/reviews/" ++ id ++ "/status") ->
  is_id id = true ->
  body req = inr b -> b <> JNull ->
  (~ In (prop b "status") [text "approved"; text "rejected"] ->
   serve_all rt eng t req
   = (t, error_response 400 "Status must be approved or rejected"))
  /\ (forall r s,
        prop b "status" = text s -> s = "approved" \/ s = "rejected" ->
        unique_on "id" (product_reviews (core t)) ->
        In r (product_reviews (core t)) ->
        col r "id" = JStr id -> col r "seller_id" = JStr userId ->
        exists r' t',
          serve_all rt eng t req = (t', ok_200 (JObj r'))
          /\ t' = with_core (with_product_reviews (product_reviews (core t')) (core t)) t
          /\ In r' (product_reviews (core t'))
          /\ col r' "id" = JStr id
          /\ col r' "status" = JStr s
          /\ col r' "is_published" = JBool (String.eqb s "approved")
          /\ col r' "published_at" = (if String.eqb s "approved" then now_iso rt else JNull)
          /\ others_untouched "seller_id" userId
               (product_reviews (core t)) (product_reviews (core t'))).
Proof.
  intros Hin Hreq Hid Hbody Hb.
  rewrite (serve_all_lifted rt eng t req userId "PATCH" ("/reviews/" ++ id ++ "/status")
             (set_review_status rt userId req ("/reviews/" ++ id ++ "/status")))
    by (assumption || discriminate || now rewrite route_set_review_status).
  unfold run, set_review_status. rewrite (with_body_ok req b) by assumption.
  rewrite (segment_review id "status" Hid). split.
  - intro Hnot.
    assert (Hmod : moderation_status (prop b "status") = false).
    { destruct (prop b "status") as [[| | |s| |]|]; try reflexivity.
      unfold moderation_status.
      destruct (String.eqb s "approved") eqn:E1;
        [apply String.eqb_eq in E1; subst; exfalso; apply Hnot; now left|].
      destruct (String.eqb s "rejected") eqn:E2;
        [apply String.eqb_eq in E2; subst; exfalso; apply Hnot; right; now left|].
      reflexivity. }
    destruct (prop b "status") as [st|]; [|cbn [failure respond]; now rewrite with_core_same].
    rewrite Hmod. cbn [failure respond]. now rewrite with_core_same.
  - intros r s Hs Hcase Hu Hr Hrid Hseller. rewrite Hs. unfold text.
    assert (Hmod : moderation_status (Some (JStr s)) = true)
      by (destruct Hcase as [->| ->]; reflexivity).
    rewrite Hmod. unfold updated, update_single.
    rewrite (own_row userId id _ r Hu Hr Hrid Hseller).
    cbn [error data ok success respond is_approved].
    match goal with
    | |- context [update ?c _ _] => set (changes := c)
    end.
    exists (patch changes r). eexists. split; [reflexivity|].
    split; [reflexivity|]. cbn [core with_core product_reviews with_product_reviews].
    split.
    { pose proof (in_update changes (own userId id) _ r Hr) as H.
      rewrite (proj2 (own_true userId id r) (conj Hrid Hseller)) in H. exact H. }
    split; [rewrite <- Hrid; apply col_patch_other; simpl; intuition discriminate|].
    split; [unfold changes; patched|]. split; [unfold changes; patched|].
    split; [unfold changes; patched|].
    apply update_others, others_of_own.
Qed.

Lemma review_status_publishes_approved_reviews_witness :
  serve_all Sample.rt Desk.engine Desk.tables
    (Desk.ask "PATCH" Sample.alice "/reviews/r1/status" (JObj [("status", JStr "spam")]))
  = (Desk.tables, error_response 400 "Status must be approved or rejected")
  /\ exists r' t',
       serve_all Sample.rt Desk.engine Desk.tables
         (Desk.ask "PATCH" Sample.alice "/reviews/r1/status"
            (JObj [("status", JStr "rejected")]))
       = (t', ok_200 (JObj r'))
       /\ col r' "status" = JStr "rejected"
       /\ col r' "is_published" = JBool false
       /\ col r' "published_at" = JNull.
Proof.
  split.
  - destruct (review_status_publishes_approved_reviews Sample.rt Desk.engine Desk.tables
                (Desk.ask "PATCH" Sample.alice "/reviews/r1/status"
                   (JObj [("status", JStr "spam")]))
                "alice" "r1" (JObj [("status", JStr "spam")])) as [Hrefused _].
    + exists "token-alice". split; reflexivity.
    + split; reflexivity.
    + reflexivity.
    + reflexivity.
    + discriminate.
    + apply Hrefused. simpl. intuition discriminate.
  - destruct (review_status_publishes_approved_reviews Sample.rt Desk.engine Desk.tables
                (Desk.ask "PATCH" Sample.alice "/reviews/r1/status"
                   (JObj [("status", JStr "rejected")]))
                "alice" "r1" (JObj [("status", JStr "rejected")])) as [_ Hown].
    + exists "token-alice". split; reflexivity.
    + split; reflexivity.
    + reflexivity.
    + reflexivity.
    + discriminate.
    + destruct (Hown (nth 0 (product_reviews Sample.db) []) "rejected")
        as (r' & t' & Hserve & _ & _ & _ & Hstatus & Hpub & Hat & _).
      * reflexivity.
      * now right.
      * distinct_keys.
      * simpl. now left.
      * reflexivity.
      * reflexivity.
      * exists r', t'. repeat split; assumption.
Defined.

(** X15. The 404 that the three update blocks keep for a missing row
    ("Review not found", "Expense not found") is never answered: the update
    ends in [.single()], which reports a missing row as an error, and the
    error is thrown first.  Whatever the request, these blocks answer 200,
    400 or 500. *)
Theorem not_found_of_an_update_is_unreachable
    (rt : Runtime) (eng : Engine) (t : Tables) (req : Request) (userId m path : string) :
  signed_in rt req userId ->
  asks req m path ->
  In (route m path) [RespondReview; SetReviewStatus; UpdateExpense] ->
  In (status (snd (serve_all rt eng t req))) [200; 400; 500]%Z.
Proof.
  intros Hin Hreq Hroute.
  assert (Hm : m <> "OPTIONS").
  { intros ->. revert Hroute. cbv beta zeta delta [route].
    cbn [String.eqb Ascii.eqb Bool.eqb andb]. simpl. intuition discriminate. }
  rewrite (serve_all_signed_in rt eng t req userId m path Hin Hreq Hm).
  assert (Hupdated : forall missing set changes sel rows db,
             In (status (snd (run (updated missing set
                                     (update_single changes sel rows)) db)))
                [200; 400; 500]%Z).
  { intros. unfold run, updated.
    destruct (update_single_reply changes sel rows) as [(x & _ & ->)|(_ & ->)];
      simpl; tauto. }
  assert (Hbody : forall k db,
             (forall b', In (status (snd (run (k b') db))) [200; 400; 500]%Z) ->
             In (status (snd (run (with_body req k) db))) [200; 400; 500]%Z).
  { intros k db Hk. unfold with_body.
    destruct (body req) as [msg|b'].
    - unfold run. simpl. tauto.
    - specialize (Hk b'). unfold run at 1.
      destruct b'; try exact Hk. simpl. tauto. }
  assert (Hlift : forall h,
             In (status (snd (run h (core t)))) [200; 400; 500]%Z ->
             In (status (snd (run_block (lift h) t))) [200; 400; 500]%Z).
  { intros h Hh. rewrite run_block_lift. now destruct (run h (core t)). }
  destruct Hroute as [<-|[<-|[<-|[]]]]; cbn [block]; apply Hlift.
  - unfold respond_review. apply Hbody. intro b'.
    destruct (prop b' "response") as [response|]; [|unfold run; simpl; tauto].
    destruct (truthy (Some response)); [apply Hupdated | unfold run; simpl; tauto].
  - unfold set_review_status. apply Hbody. intro b'.
    destruct (prop b' "status") as [st|]; [|unfold run; simpl; tauto].
    destruct (moderation_status (Some st)); [apply Hupdated | unfold run; simpl; tauto].
  - unfold update_expense. apply Hbody. intro b'. apply Hupdated.
Qed.

Lemma not_found_of_an_update_is_unreachable_witness :
  In (status (snd (serve_all Sample.rt Desk.engine Desk.tables
                     (Desk.ask "PATCH" Sample.alice "/financial/expenses/e9"
                        (JObj [("amount", Sample.n 30)])))))
     [200; 400; 500]%Z.
Proof.
  apply (not_found_of_an_update_is_unreachable Sample.rt Desk.engine Desk.tables _
           "alice" "PATCH" "/financial/expenses/e9").
  - exists "token-alice". split; reflexivity.
  - split; reflexivity.
  - simpl. right. right. now left.
Defined.




(** X17. POST /financial/expenses.  Without an amount, a category, a
    description or a date (an amount of 0 counts as missing) the answer is
    400 and nothing is written.  Otherwise one expense is stored and
    answered with status 201: its seller is the caller, whatever the body
    says, its amount is [parseFloat] of the one sent, a vendor that is not
    given is [null], and it is tax deductible unless the body says [false]. *)
Theorem expense_is_recorded_for_the_caller
    (rt : Runtime) (eng : Engine) (t : Tables) (req : Request) (userId : string)
    (b : json) :
  signed_in rt req userId ->
  asks req "POST" "/financial/expenses" ->
  body req = inr b -> b <> JNull ->
  (In false (map truthy [prop b "amount"; prop b "category"; prop b "description";
                         prop b "expense_date"]) ->
   serve_all rt eng t req
   = (t, error_response 400 "amount, category, description, expense_date required"))
  /\ (forall amt,
        prop b "amount" = Some amt ->
        Forall (fun v => truthy v = true)
          [prop b "amount"; prop b "category"; prop b "description";
           prop b "expense_date"] ->
        exists e t',
          serve_all rt eng t req = (t', created (JObj e))
          /\ t' = with_core
                    (next_serial
                       (with_seller_expenses (seller_expenses (core t) ++ [e])%list
                          (core t))) t
          /\ col e "id" = JStr (gen_random_uuid rt (serial (core t)))
          /\ col e "seller_id" = JStr userId
          /\ col e "amount" = JNum (parseFloat eng amt)
          /\ Some (col e "category") = prop b "category"
          /\ (truthy (prop b "vendor_name") = false -> col e "vendor_name" = JNull)
          /\ (col e "is_tax_deductible" = JBool false
              <-> prop b "is_tax_deductible" = Some (JBool false))).
Proof.
  intros Hin Hreq Hbody Hb.
  rewrite (serve_all_lifted rt eng t req userId "POST" "/financial/expenses"
             (create_expense rt eng userId req))
    by (assumption || discriminate || reflexivity).
  unfold run, create_expense. rewrite (with_body_ok req b) by assumption.
  split.
  - intro Hmissing. simpl in Hmissing.
    destruct (prop b "amount") as [amt|];
      [|cbn [failure respond]; now rewrite with_core_same].
    destruct Hmissing as [H|[H|[H|[H|[]]]]]; rewrite H;
      repeat (progress (rewrite ?orb_true_r; cbn [negb orb]));
      cbn [failure respond]; now rewrite with_core_same.
  - intros amt Hamt Hall. rewrite Hamt in *.
    inversion_clear Hall as [|? ? Ha Hall1].
    inversion_clear Hall1 as [|? ? Hc Hall2].
    inversion_clear Hall2 as [|? ? Hd Hall3].
    inversion_clear Hall3 as [|? ? He _].
    rewrite Ha, Hc, Hd, He. cbn [negb orb].
    destruct (truthy_some _ Hc) as [category Hcat].
    destruct (truthy_some _ Hd) as [description Hdesc].
    destruct (truthy_some _ He) as [date Hdate].
    rewrite Hcat, Hdesc, Hdate.
    match goal with
    | |- context [insert ?row _] => set (e := row)
    end.
    exists e. eexists. split; [reflexivity|]. split; [reflexivity|].
    unfold e, new_row, or_else.
    destruct (prop b "vendor_name") as [vendor|]; [destruct (truthy (Some vendor)) eqn:Ev|];
      cbn [obj_fields col assoc String.eqb Ascii.eqb Bool.eqb];
      repeat split; try discriminate; try congruence;
      destruct (prop b "is_tax_deductible") as [[|[|]| | | |]|];
      try discriminate; try reflexivity.
Qed.

Lemma expense_is_recorded_for_the_caller_witness :
  serve_all Sample.rt Desk.engine Desk.tables
    (Desk.ask "POST" Sample.alice "/financial/expenses"
       (JObj [("amount", Sample.n 0); ("category", JStr "ads");
              ("description", JStr "Flyers"); ("expense_date", JStr "2024-06-14")]))
  = (Desk.tables,
     error_response 400 "amount, category, description, expense_date required")
  /\ exists e t',
       serve_all Sample.rt Desk.engine Desk.tables
         (Desk.ask "POST" Sample.alice "/financial/expenses"
            (JObj [("amount", JStr "12"); ("category", JStr "ads");
                   ("description", JStr "Flyers"); ("expense_date", JStr "2024-06-14");
                   ("seller_id", JStr "carol")]))
       = (t', created (JObj e))
       /\ col e "seller_id" = JStr "alice"
       /\ col e "amount" = Sample.n 12.
Proof.
  split.
  - destruct (expense_is_recorded_for_the_caller Sample.rt Desk.engine Desk.tables
                (Desk.ask "POST" Sample.alice "/financial/expenses"
                   (JObj [("amount", Sample.n 0); ("category", JStr "ads");
                          ("description", JStr "Flyers");
                          ("expense_date", JStr "2024-06-14")]))
                "alice"
                (JObj [("amount", Sample.n 0); ("category", JStr "ads");
                       ("description", JStr "Flyers");
                       ("expense_date", JStr "2024-06-14")])) as [Hmissing _].
    + exists "token-alice". split; reflexivity.
    + split; reflexivity.
    + reflexivity.
    + discriminate.
    + apply Hmissing. simpl. now left.
  - destruct (expense_is_recorded_for_the_caller Sample.rt Desk.engine Desk.tables
                (Desk.ask "POST" Sample.alice "/financial/expenses"
                   (JObj [("amount", JStr "12"); ("category", JStr "ads");
                          ("description", JStr "Flyers");
                          ("expense_date", JStr "2024-06-14");
                          ("seller_id", JStr "carol")]))
                "alice"
                (JObj [("amount", JStr "12"); ("category", JStr "ads");
                       ("description", JStr "Flyers");
                       ("expense_date", JStr "2024-06-14");
                       ("seller_id", JStr "carol")])) as [_ Hstored].
    + exists "token-alice". split; reflexivity.
    + split; reflexivity.
    + reflexivity.
    + discriminate.
    + destruct (Hstored (JStr "12")) as (e & t' & Hserve & _ & _ & Hseller & Hamount & _).
      * reflexivity.
      * repeat constructor.
      * exists e, t'. repeat split; assumption.
Defined.

(** *** The review request campaign *)

Lemma sorted_in (le : Row -> Row -> bool) (x : Row) (rows : list Row) :
  In x (fold_right (insert_sorted le) [] rows) -> In x rows.
Proof.
  induction rows as [|y rows IH]; simpl; [auto|].
  intro H. apply in_insert_sorted in H. destruct H as [->|H]; auto.
Qed.

Lemma order_in (c : string) (ascending : bool) (x : Row) (rows : list Row) :
  In x (order c ascending rows) -> In x rows.
Proof. apply sorted_in. Qed.

Lemma serve_all_block (rt : Runtime) (eng : Engine) (t : Tables) (req : Request)
    (userId m path : string) (h : Block) :
  signed_in rt req userId -> asks req m path -> m <> "OPTIONS" ->
  block rt eng userId req path (route m path) = h ->
  serve_all rt eng t req = run_block h t.
Proof.
  intros Hin Hreq Hm <-. now apply serve_all_signed_in.
Qed.

Lemma with_body_of_ok (req : Request) (b : json) (k : json -> Block) (t : Tables) :
  body req = inr b -> b <> JNull -> with_body_of req k t = k b t.
Proof. unfold with_body_of. intros -> H. destruct b; congruence. Qed.

(** What GET /reviews/requestable-orders lists. *)
Lemma requestable_orders_listed (userId : string) (t : Tables) :
  exists items,
    requestable_orders userId t = (t, success 200 (rows_json items))
    /\ (List.length items <= 100)%nat
    /\ forall x, In x items ->
         (exists tx,
            In tx (transactions (core t))
            /\ col tx "seller_id" = JStr userId
            /\ (col tx "status" = JStr "completed" \/ col tx "status" = JStr "delivered")
            /\ x = project ["id"; "item_name"; "created_at"; "product_id"] tx)
         /\ (forall o r,
               col x "id" = JStr o -> In r (review_requests t) ->
               col r "seller_id" = JStr userId -> col r "order_id" <> JStr o).
Proof.
  unfold requestable_orders.
  set (txList := map _ (limit 100 _)).
  eexists. split; [reflexivity|]. split.
  - eapply Nat.le_trans; [apply filter_length_le|].
    unfold txList, limit. rewrite length_map. apply firstn_le_length.
  - intros x Hx. apply filter_In in Hx. destruct Hx as [Hx Hfree]. split.
    + unfold txList in Hx. apply in_map_iff in Hx. destruct Hx as (tx & <- & Htx).
      apply in_firstn, order_in, filter_In in Htx. destruct Htx as [Htx Hstatus].
      apply filter_In in Htx. destruct Htx as [Htx Hseller].
      exists tx. split; [assumption|]. split; [now apply pg_eq_text|].
      split; [|reflexivity].
      cbn [existsb] in Hstatus. rewrite orb_false_r in Hstatus.
      apply orb_true_iff in Hstatus.
      destruct Hstatus as [H|H]; apply pg_eq_text in H; auto.
    + intros o r Hid Hr Hseller Horder.
      apply negb_true_iff in Hfree.
      assert (Hset : existsb (same_value (col x "id"))
                       (map (fun r => col r "order_id")
                          (in_ "order_id"
                             (match map (fun x => col x "id") txList with
                              | [] => [JStr "__none__"]
                              | _ => map (fun x => col x "id") txList
                              end)
                             (eq "seller_id" (text userId) (review_requests t)))) = true).
      { apply existsb_exists. exists (JStr o). split.
        - rewrite <- Horder.
          apply (in_map (fun r => col r "order_id")).
          apply filter_In. split.
          + apply filter_In. split; [assumption | now apply pg_eq_text].
          + apply existsb_exists. exists (JStr o). split.
            * assert (Hin : In (JStr o) (map (fun x => col x "id") txList))
                by (rewrite <- Hid; now apply (in_map (fun x => col x "id"))).
              destruct (map (fun x => col x "id") txList); [contradiction | exact Hin].
            * rewrite Horder. now apply pg_eq_text.
        - rewrite Hid. simpl. apply String.eqb_refl. }
      congruence.
Qed.

(** X18. GET /reviews/requestable-orders reads and never writes.  It lists
    at most 100 orders; each is a transaction of the caller whose status is
    the text "completed" or "delivered", shown with its id, item name, date
    and product; and no review request of the caller names a listed
    order. *)
Theorem requestable_orders_are_unrequested_sales
    (rt : Runtime) (eng : Engine) (t : Tables) (req : Request) (userId : string) :
  signed_in rt req userId ->
  asks req "GET" "/reviews/requestable-orders" ->
  exists items,
    serve_all rt eng t req = (t, ok_200 (rows_json items))
    /\ (List.length items <= 100)%nat
    /\ forall x, In x items ->
         (exists tx,
            In tx (transactions (core t))
            /\ col tx "seller_id" = JStr userId
            /\ (col tx "status" = JStr "completed" \/ col tx "status" = JStr "delivered")
            /\ x = project ["id"; "item_name"; "created_at"; "product_id"] tx)
         /\ (forall o r,
               col x "id" = JStr o -> In r (review_requests t) ->
               col r "seller_id" = JStr userId -> col r "order_id" <> JStr o).
Proof.
  intros Hin Hreq.
  rewrite (serve_all_block rt eng t req userId "GET" "/reviews/requestable-orders"
             (requestable_orders userId))
    by (assumption || discriminate || reflexivity).
  destruct (requestable_orders_listed userId t) as (items & E & Hlen & Hitems).
  exists items. unfold run_block. rewrite E. repeat split; try assumption; apply Hitems;
    assumption.
Qed.

Lemma requestable_orders_are_unrequested_sales_witness :
  exists items,
    serve_all Sample.rt Desk.engine Desk.tables
      (Desk.ask "GET" Sample.alice "/reviews/requestable-orders" JNull)
    = (Desk.tables, ok_200 (rows_json items))
    /\ (List.length items <= 100)%nat.
Proof.
  destruct (requestable_orders_are_unrequested_sales Sample.rt Desk.engine Desk.tables
              (Desk.ask "GET" Sample.alice "/reviews/requestable-orders" JNull) "alice")
    as (items & Hserve & Hlen & _).
  - exists "token-alice". split; reflexivity.
  - split; reflexivity.
  - exists items. split; assumption.
Defined.

Lemma requested_nil (t : Tables) : requested [] t = t.
Proof.
  destruct t as [db ? ? ? ? ? ? ? ?]. destruct db. unfold requested. cbn.
  now rewrite Nat.add_0_r, app_nil_r.
Qed.

Lemma requested_more (a : list Row) (r : Row) (t : Tables) :
  used_id (with_review_requests (insert r (review_requests (requested a t)))
             (requested a t))
  = requested (a ++ [r]) t.
Proof.
  destruct t as [db ? ? ? ? ? ? ? ?]. destruct db. unfold requested, used_id, insert. cbn.
  rewrite length_app, <- app_assoc. cbn [List.length].
  now rewrite Nat.add_succ_r, Nat.add_0_r, Nat.add_succ_r.
Qed.

(** One turn of the loop: an order of which the caller has exactly one
    transaction gets a request, any other is skipped. *)
Lemma request_review_step (rt : Runtime) (userId : string) (send_via : json)
    (delayed : bool) (t : Tables) (a : list Row) (ins : list json) (o : json) :
  exists new,
    request_review rt userId send_via delayed (requested a t, ins) o
    = (requested (a ++ new) t, (ins ++ map (fun r => col r "order_id") new)%list)
    /\ map (fun r => col r "order_id") new = (if own_order userId t o then [o] else [])
    /\ Forall (fun r => col r "seller_id" = JStr userId) new.
Proof.
  unfold request_review, own_order.
  assert (Htx : transactions (core (requested a t)) = transactions (core t)) by reflexivity.
  rewrite Htx.
  destruct (eq "seller_id" (text userId) (eq "id" (Some o) (transactions (core t))))
    as [|tx [|tx' rest]].
  - exists []. cbn. now rewrite !app_nil_r.
  - cbn [maybeSingle data ok]. rewrite requested_more.
    match goal with
    | |- context [requested (a ++ [?row]) t] => exists [row]
    end.
    split; [reflexivity|]. split; [reflexivity|].
    constructor; [reflexivity | constructor].
  - exists []. cbn. now rewrite !app_nil_r.
Qed.

Lemma request_reviews_loop (rt : Runtime) (userId : string) (send_via : json)
    (delayed : bool) (t : Tables) (ids : list json) :
  forall (a : list Row) (ins : list json),
  exists added,
    fold_left (request_review rt userId send_via delayed) ids (requested a t, ins)
    = (requested (a ++ added) t, (ins ++ map (fun r => col r "order_id") added)%list)
    /\ map (fun r => col r "order_id") added = filter (own_order userId t) ids
    /\ Forall (fun r => col r "seller_id" = JStr userId) added.
Proof.
  induction ids as [|o ids IH]; intros a ins.
  - exists []. cbn. now rewrite !app_nil_r.
  - cbn [fold_left].
    destruct (request_review_step rt userId send_via delayed t a ins o)
      as (new & -> & Hnew & Hseller).
    destruct (IH (a ++ new)%list (ins ++ map (fun r => col r "order_id") new)%list)
      as (added & -> & Hadded & Hsellers).
    exists (new ++ added)%list. rewrite !map_app, !app_assoc.
    split; [reflexivity|]. split.
    + rewrite Hnew, Hadded. cbn [filter]. now destruct (own_order userId t o).
    + apply Forall_app. now split.
Qed.

(** What POST /reviews/request stores and answers. *)
Lemma request_reviews_outcome (rt : Runtime) (t : Tables) (req : Request)
    (userId : string) (b : json) (ids : list json) (s : Row) :
  body req = inr b ->
  prop b "order_ids" = Some (JArr ids) -> ids <> [] ->
  unique_on "seller_id" (stores (core t)) ->
  In s (stores (core t)) -> col s "seller_id" = JStr userId ->
  exists added,
    run_block (request_reviews rt userId req) t
    = (requested added t, requests_sent (List.length added))
    /\ map (fun r => col r "order_id") added
       = filter (own_order userId t) (firstn 50 ids)
    /\ Forall (fun r => col r "seller_id" = JStr userId) added.
Proof.
  intros Hbody Hids Hne Hu Hs Hseller.
  assert (Hb : b <> JNull) by (intros ->; discriminate).
  unfold run_block, request_reviews. rewrite (with_body_of_ok req b) by assumption.
  rewrite Hids. destruct ids as [|first others]; [contradiction|].
  rewrite (one_store _ userId s Hu Hs Hseller). cbn [data ok].
  match goal with
  | |- context [fold_left (request_review rt userId ?sv ?d) ?l (t, [])] =>
      destruct (request_reviews_loop rt userId sv d t l [] []) as (added & E & Hadded & Hsellers);
      rewrite requested_nil in E; rewrite E
  end.
  exists added. cbn [app respond]. rewrite length_map.
  split; [reflexivity|]. split; assumption.
Qed.

(** X19. POST /reviews/request by a seller who has a store.  Of the order
    ids sent, the first 50 are looked at, in turn; one review request of the
    caller is stored for each of them (as often as it occurs) of which the
    caller has exactly one transaction, and nothing for the others.  The
    count answered is the number of requests stored, and nothing else is
    written. *)
Theorem review_requests_are_counted_as_stored
    (rt : Runtime) (eng : Engine) (t : Tables) (req : Request) (userId : string)
    (b : json) (ids : list json) (s : Row) :
  signed_in rt req userId ->
  asks req "POST" "/reviews/request" ->
  body req = inr b ->
  prop b "order_ids" = Some (JArr ids) -> ids <> [] ->
  unique_on "seller_id" (stores (core t)) ->
  In s (stores (core t)) -> col s "seller_id" = JStr userId ->
  exists added,
    serve_all rt eng t req = (requested added t, requests_sent (List.length added))
    /\ map (fun r => col r "order_id") added
       = filter (own_order userId t) (firstn 50 ids)
    /\ (List.length added <= 50)%nat
    /\ Forall (fun r => col r "seller_id" = JStr userId) added.
Proof.
  intros Hin Hreq Hbody Hids Hne Hu Hs Hseller.
  rewrite (serve_all_block rt eng t req userId "POST" "/reviews/request"
             (request_reviews rt userId req))
    by (assumption || discriminate || reflexivity).
  destruct (request_reviews_outcome rt t req userId b ids s Hbody Hids Hne Hu Hs Hseller)
    as (added & E & Hadded & Hsellers).
  exists added. split; [assumption|]. split; [assumption|]. split; [|assumption].
  rewrite <- (length_map (fun r => col r "order_id")), Hadded.
  eapply Nat.le_trans; [apply filter_length_le|].
  rewrite length_firstn. apply Nat.le_min_l.
Qed.

Lemma review_requests_are_counted_as_stored_witness :
  exists added,
    serve_all Sample.rt Desk.engine Desk.tables
      (Desk.ask "POST" Sample.alice "/reviews/request"
         (JObj [("order_ids", JArr [JStr "t1"; JStr "t9"; JStr "t1"])]))
    = (requested added Desk.tables, requests_sent (List.length added))
    /\ map (fun r => col r "order_id") added = [JStr "t1"; JStr "t1"].
Proof.
  destruct (review_requests_are_counted_as_stored Sample.rt Desk.engine Desk.tables
              (Desk.ask "POST" Sample.alice "/reviews/request"
                 (JObj [("order_ids", JArr [JStr "t1"; JStr "t9"; JStr "t1"])]))
              "alice" (JObj [("order_ids", JArr [JStr "t1"; JStr "t9"; JStr "t1"])])
              [JStr "t1"; JStr "t9"; JStr "t1"] (nth 0 (stores Sample.db) []))
    as (added & Hserve & Hadded & _).
  - exists "token-alice". split; reflexivity.
  - split; reflexivity.
  - reflexivity.
  - reflexivity.
  - discriminate.
  - apply sample_stores_unique. now left.
  - simpl. now left.
  - reflexivity.
  - exists added. split; assumption.
Defined.

(** X20. Once POST /reviews/request has been sent for an order of the
    caller (one of the first 50 ids of the request), GET
    /reviews/requestable-orders no longer lists that order. *)
Theorem requested_order_leaves_the_list
    (rt : Runtime) (eng : Engine) (t : Tables) (req req' : Request) (userId o : string)
    (b : json) (ids : list json) (s tx : Row) :
  signed_in rt req userId ->
  asks req "POST" "/reviews/request" ->
  body req = inr b ->
  prop b "order_ids" = Some (JArr ids) -> In (JStr o) (firstn 50 ids) ->
  unique_on "seller_id" (stores (core t)) ->
  In s (stores (core t)) -> col s "seller_id" = JStr userId ->
  unique_on "id" (transactions (core t)) ->
  In tx (transactions (core t)) ->
  col tx "id" = JStr o -> col tx "seller_id" = JStr userId ->
  signed_in rt req' userId ->
  asks req' "GET" "/reviews/requestable-orders" ->
  exists t' r items,
    serve_all rt eng t req = (t', r)
    /\ serve_all rt eng t' req' = (t', ok_200 (rows_json items))
    /\ forall x, In x items -> col x "id" <> JStr o.
Proof.
  intros Hin Hreq Hbody Hids Ho Hu Hs Hseller Hutx Htx Htxid Htxseller Hin' Hreq'.
  assert (Hne : ids <> []) by (intros ->; now rewrite firstn_nil in Ho).
  rewrite (serve_all_block rt eng t req userId "POST" "/reviews/request"
             (request_reviews rt userId req))
    by (assumption || discriminate || reflexivity).
  destruct (request_reviews_outcome rt t req userId b ids s Hbody Hids Hne Hu Hs Hseller)
    as (added & -> & Hadded & Hsellers).
  assert (Hown : own_order userId t (JStr o) = true).
  { unfold own_order. change (Some (JStr o)) with (text o).
    rewrite (unique_row "id" (text o) _ tx Hutx Htx) by now apply pg_eq_text.
    cbn [eq filter]. apply pg_eq_text in Htxseller. now rewrite Htxseller. }
  assert (Hrow : exists r0, In r0 added /\ col r0 "order_id" = JStr o).
  { assert (H : In (JStr o) (map (fun r => col r "order_id") added))
      by (rewrite Hadded; apply filter_In; now split).
    apply in_map_iff in H. destruct H as (r0 & H1 & H2). now exists r0. }
  destruct Hrow as (r0 & Hr0 & Horder).
  destruct (requestable_orders_listed userId (requested added t))
    as (items & E & _ & Hitems).
  exists (requested added t). eexists. exists items.
  split; [reflexivity|].
  rewrite (serve_all_block rt eng _ req' userId "GET" "/reviews/requestable-orders"
             (requestable_orders userId))
    by (assumption || discriminate || reflexivity).
  unfold run_block. rewrite E. split; [reflexivity|].
  intros x Hx Hid. destruct (Hitems x Hx) as [_ Hfree].
  apply (Hfree o r0 Hid); [| | assumption].
  - unfold requested. cbn [review_requests with_core with_review_requests].
    apply in_or_app. now right.
  - rewrite Forall_forall in Hsellers. now apply Hsellers.
Qed.

Lemma requested_order_leaves_the_list_witness :
  exists t' r items,
    serve_all Sample.rt Desk.engine Desk.tables
      (Desk.ask "POST" Sample.alice "/reviews/request"
         (JObj [("order_ids", JArr [JStr "t1"])]))
    = (t', r)
    /\ serve_all Sample.rt Desk.engine t'
         (Desk.ask "GET" Sample.alice "/reviews/requestable-orders" JNull)
       = (t', ok_200 (rows_json items))
    /\ forall x, In x items -> col x "id" <> JStr "t1".
Proof.
  apply (requested_order_leaves_the_list Sample.rt Desk.engine Desk.tables
           (Desk.ask "POST" Sample.alice "/reviews/request"
              (JObj [("order_ids", JArr [JStr "t1"])]))
           (Desk.ask "GET" Sample.alice "/reviews/requestable-orders" JNull)
           "alice" "t1" (JObj [("order_ids", JArr [JStr "t1"])]) [JStr "t1"]
           (nth 0 (stores Sample.db) []) Sample.t1).
  - exists "token-alice". split; reflexivity.
  - split; reflexivity.
  - reflexivity.
  - reflexivity.
  - simpl. now left.
  - apply sample_stores_unique. now left.
  - simpl. now left.
  - reflexivity.
  - distinct_keys.
  - simpl. now left.
  - reflexivity.
  - reflexivity.
  - exists "token-alice". split; reflexivity.
  - split; reflexivity.
Defined.

(** *** The settings of the automatic review request *)

Lemma eq_update_same (c : string) (v : value) (changes : list (string * json))
    (rows : list Row) :
  (forall r, pg_eq (col r c) v = true -> pg_eq (col (patch changes r) c) v = true) ->
  eq c v (update changes (fun r => pg_eq (col r c) v) rows)
  = map (patch changes) (eq c v rows).
Proof.
  intro H. unfold eq, update. induction rows as [|r rows IH]; [reflexivity|].
  cbn [map filter]. destruct (pg_eq (col r c) v) eqn:E.
  - rewrite (H r E). cbn [map]. now rewrite IH.
  - rewrite E. exact IH.
Qed.

Lemma update_keeps_key (c : string) (changes : list (string * json))
    (sel : Row -> bool) (rows : list Row) :
  (forall r, sel r = true -> col (patch changes r) c = col r c) ->
  unique_on c rows -> unique_on c (update changes sel rows).
Proof.
  intros H Hu v. specialize (Hu v).
  assert (E : List.length (eq c v (update changes sel rows)) = List.length (eq c v rows)).
  { clear Hu. unfold eq, update. induction rows as [|r rows IH]; [reflexivity|].
    cbn [map filter].
    assert (Hr : col (if sel r then patch changes r else r) c = col r c)
      by (destruct (sel r) eqn:E; [now apply H | reflexivity]).
    rewrite Hr. destruct (pg_eq (col r c) v); cbn [List.length]; now rewrite IH. }
  now rewrite E.
Qed.

Lemma eq_insert (c : string) (v : value) (r : Row) (rows : list Row) :
  eq c v (insert r rows) = (eq c v rows ++ (if pg_eq (col r c) v then [r] else []))%list.
Proof. unfold eq, insert. now rewrite filter_app. Qed.

Lemma route_set_auto_request :
  route "POST" "/reviews/auto-request/config" = SetAutoRequest.
Proof. reflexivity. Qed.

(** What POST /reviews/auto-request/config leaves and answers. *)
Lemma set_auto_request_outcome (rt : Runtime) (t : Tables) (req : Request)
    (userId : string) (b : json) :
  body req = inr b -> b <> JNull ->
  unique_on "seller_id" (seller_review_settings t) ->
  exists d rows n,
    run_block (set_auto_request rt userId req) t
    = (with_core (with_serial n (core t)) (with_seller_review_settings rows t),
       ok_200 (JObj d))
    /\ eq "seller_id" (text userId) rows = [d]
    /\ unique_on "seller_id" rows
    /\ (forall r, In r (seller_review_settings t) ->
                  col r "seller_id" <> JStr userId -> In r rows)
    /\ col d "seller_id" = JStr userId
    /\ col d "review_auto_request_enabled" = JBool (truthy (prop b "enabled"))
    /\ (nullish (prop b "delay_days") (Some JNull) = Some JNull ->
        col d "review_auto_request_delay_days" = JNum (of_Z 7))
    /\ (truthy (prop b "send_via") = false ->
        col d "review_auto_request_method" = JStr "email").
Proof.
  intros Hbody Hb Hu.
  unfold run_block, set_auto_request. rewrite (with_body_of_ok req b) by assumption.
  unfold upsert.
  change (assoc "seller_id" (review_settings rt userId b)) with (text userId).
  assert (Hcols : forall x,
             col (patch (review_settings rt userId b) x) "seller_id" = JStr userId
             /\ col (patch (review_settings rt userId b) x) "review_auto_request_enabled"
                = JBool (truthy (prop b "enabled"))
             /\ (nullish (prop b "delay_days") (Some JNull) = Some JNull ->
                 col (patch (review_settings rt userId b) x)
                   "review_auto_request_delay_days" = JNum (of_Z 7))
             /\ (truthy (prop b "send_via") = false ->
                 col (patch (review_settings rt userId b) x)
                   "review_auto_request_method" = JStr "email")).
  { intro x. unfold review_settings. repeat split.
    - patched.
    - patched.
    - intro Hd. unfold nullish in *.
      destruct (prop b "delay_days") as [[| | | | |]|]; try discriminate; patched.
    - intro Hs. unfold or_else. rewrite Hs. patched. }
  fold (eq "seller_id" (text userId) (seller_review_settings t)).
  destruct (eq "seller_id" (text userId) (seller_review_settings t)) as [|x rest] eqn:E.
  - set (new := ("id", JStr (fresh_id rt t)) :: review_settings rt userId b).
    assert (Hnew : col new "seller_id" = JStr userId) by reflexivity.
    assert (Hrows : eq "seller_id" (text userId) (insert new (seller_review_settings t))
                    = [new]).
    { rewrite eq_insert, E. apply pg_eq_text in Hnew. now rewrite Hnew. }
    rewrite Hrows. cbn [single error data ok success respond].
    exists new, (insert new (seller_review_settings t)), (S (serial (core t))).
    split; [now destruct t|]. split; [assumption|].
    split; [now apply (unique_on_insert "seller_id" userId)|].
    split; [intros r Hr _; apply in_or_app; now left|].
    destruct (Hcols []) as (_ & _ & Hdelay & Hmethod).
    split; [reflexivity|]. split; [reflexivity|]. split.
    + intro Hd. unfold new, review_settings, nullish in *.
      destruct (prop b "delay_days") as [[| | | | |]|]; try discriminate; reflexivity.
    + intro Hs. unfold new, review_settings, or_else. now rewrite Hs.
  - assert (Hone : eq "seller_id" (text userId) (seller_review_settings t) = [x]).
    { specialize (Hu (text userId)). rewrite E in Hu. rewrite E.
      destruct rest; [reflexivity | simpl in Hu; lia]. }
    rewrite E in Hone. injection Hone as ->.
    assert (Hrows : eq "seller_id" (text userId)
                      (update (review_settings rt userId b)
                         (fun r => pg_eq (col r "seller_id") (text userId))
                         (seller_review_settings t))
                    = [patch (review_settings rt userId b) x]).
    { rewrite eq_update_same, E; [reflexivity|].
      intros r _. apply pg_eq_text. apply Hcols. }
    rewrite Hrows. cbn [single error data ok success respond].
    exists (patch (review_settings rt userId b) x),
      (update (review_settings rt userId b)
         (fun r => pg_eq (col r "seller_id") (text userId)) (seller_review_settings t)),
      (serial (core t)).
    split; [now destruct t as [[] ? ? ? ? ? ? ? ?]|]. split; [assumption|].
    split.
    { apply update_keeps_key; [|assumption].
      intros r Hr. apply pg_eq_text in Hr. rewrite Hr. apply Hcols. }
    split.
    { intros r Hr Hother.
      pose proof (in_update (review_settings rt userId b)
                    (fun r => pg_eq (col r "seller_id") (text userId)) _ r Hr) as H.
      apply pg_eq_text_false in Hother. cbv beta in H. now rewrite Hother in H. }
    apply Hcols.
Qed.

(** X21. POST /reviews/auto-request/config keeps one settings row per
    seller: it overwrites the caller's row, or adds one when there is none,
    and leaves the rows of other sellers in place.  The row it answers is
    the one a GET of the same path answers next; it is the caller's, it is
    enabled exactly when the body's [enabled] is truthy, a delay that is
    missing or [null] becomes 7 days, and a missing method "email". *)
Theorem auto_request_config_round_trip
    (rt : Runtime) (eng : Engine) (t : Tables) (req req' : Request) (userId : string)
    (b : json) :
  signed_in rt req userId ->
  asks req "POST" "/reviews/auto-request/config" ->
  body req = inr b -> b <> JNull ->
  unique_on "seller_id" (seller_review_settings t) ->
  signed_in rt req' userId ->
  asks req' "GET" "/reviews/auto-request/config" ->
  exists d t',
    serve_all rt eng t req = (t', ok_200 (JObj d))
    /\ serve_all rt eng t' req' = (t', ok_200 (JObj d))
    /\ unique_on "seller_id" (seller_review_settings t')
    /\ (forall r, In r (seller_review_settings t) ->
                  col r "seller_id" <> JStr userId -> In r (seller_review_settings t'))
    /\ col d "seller_id" = JStr userId
    /\ col d "review_auto_request_enabled" = JBool (truthy (prop b "enabled"))
    /\ (nullish (prop b "delay_days") (Some JNull) = Some JNull ->
        col d "review_auto_request_delay_days" = JNum (of_Z 7))
    /\ (truthy (prop b "send_via") = false ->
        col d "review_auto_request_method" = JStr "email").
Proof.
  intros Hin Hreq Hbody Hb Hu Hin' Hreq'.
  rewrite (serve_all_block rt eng t req userId "POST" "/reviews/auto-request/config"
             (set_auto_request rt userId req))
    by (assumption || discriminate || reflexivity).
  destruct (set_auto_request_outcome rt t req userId b Hbody Hb Hu)
    as (d & rows & n & -> & Hrows & Hu' & Hothers & Hcols).
  exists d. eexists. split; [reflexivity|].
  rewrite (serve_all_block rt eng _ req' userId "GET" "/reviews/auto-request/config"
             (get_auto_request userId))
    by (assumption || discriminate || reflexivity).
  unfold run_block, get_auto_request.
  cbn [seller_review_settings with_core with_seller_review_settings].
  rewrite Hrows. cbn [maybeSingle error data ok success respond].
  split; [reflexivity|]. split; [assumption|]. split; assumption.
Qed.

Lemma auto_request_config_round_trip_witness :
  exists d t',
    serve_all Sample.rt Desk.engine Desk.tables
      (Desk.ask "POST" Sample.alice "/reviews/auto-request/config"
         (JObj [("enabled", JBool true); ("delay_days", JNull)]))
    = (t', ok_200 (JObj d))
    /\ serve_all Sample.rt Desk.engine t'
         (Desk.ask "GET" Sample.alice "/reviews/auto-request/config" JNull)
       = (t', ok_200 (JObj d))
    /\ col d "review_auto_request_enabled" = JBool true
    /\ col d "review_auto_request_delay_days" = Sample.n 7
    /\ col d "review_auto_request_method" = JStr "email".
Proof.
  destruct (auto_request_config_round_trip Sample.rt Desk.engine Desk.tables
              (Desk.ask "POST" Sample.alice "/reviews/auto-request/config"
                 (JObj [("enabled", JBool true); ("delay_days", JNull)]))
              (Desk.ask "GET" Sample.alice "/reviews/auto-request/config" JNull)
              "alice" (JObj [("enabled", JBool true); ("delay_days", JNull)]))
    as (d & t' & Hpost & Hget & _ & _ & _ & Henabled & Hdelay & Hmethod).
  - exists "token-alice". split; reflexivity.
  - split; reflexivity.
  - reflexivity.
  - discriminate.
  - intro v. simpl. lia.
  - exists "token-alice". split; reflexivity.
  - split; reflexivity.
  - exists d, t'. split; [assumption|]. split; [assumption|].
    split; [exact Henabled|]. split; [now apply Hdelay | now apply Hmethod].
Defined.

(** X22. GET /reviews/auto-request/config reads and never writes; for a
    seller without a settings row it answers the default
    [{ review_auto_request_enabled: false }], and for a seller with
    several rows the 500 of the failed query. *)
Theorem auto_request_is_off_by_default
    (rt : Runtime) (eng : Engine) (t : Tables) (req : Request) (userId : string) :
  signed_in rt req userId ->
  asks req "GET" "/reviews/auto-request/config" ->
  exists r,
    serve_all rt eng t req = (t, r)
    /\ ((forall s, In s (seller_review_settings t) -> col s "seller_id" <> JStr userId) ->
        r = ok_200 (JObj [("review_auto_request_enabled", JBool false)]))
    /\ ((2 <= List.length (eq "seller_id" (text userId) (seller_review_settings t)))%nat ->
        r = unknown_error).
Proof.
  intros Hin Hreq.
  rewrite (serve_all_block rt eng t req userId "GET" "/reviews/auto-request/config"
             (get_auto_request userId))
    by (assumption || discriminate || reflexivity).
  unfold run_block, get_auto_request.
  assert (Hnone : (forall s, In s (seller_review_settings t) ->
                             col s "seller_id" <> JStr userId) ->
                  eq "seller_id" (text userId) (seller_review_settings t) = []).
  { intro H. apply no_row. intros s Hs. now apply pg_eq_text_false, H. }
  destruct (eq "seller_id" (text userId) (seller_review_settings t)) as [|x [|y rest]];
    cbn; eexists; (split; [reflexivity|]); split;
    try reflexivity; try (intro H; simpl in H; lia);
    intro H; specialize (Hnone H); discriminate.
Qed.

Lemma auto_request_is_off_by_default_witness :
  serve_all Sample.rt Desk.engine Desk.tables
    (Desk.ask "GET" Sample.bob "/reviews/auto-request/config" JNull)
  = (Desk.tables, ok_200 (JObj [("review_auto_request_enabled", JBool false)])).
Proof.
  destruct (auto_request_is_off_by_default Sample.rt Desk.engine Desk.tables
              (Desk.ask "GET" Sample.bob "/reviews/auto-request/config" JNull) "bob")
    as (r & Hserve & Hdefault & _).
  - exists "token-bob". split; reflexivity.
  - split; reflexivity.
  - rewrite Hserve. f_equal. apply Hdefault. intros s [].
Defined.

(** *** Conversations and tickets *)

Lemma route_get_conversation (id : string) :
  is_id id = true -> route "GET" ("/chat/conversations/" ++ id) = GetConversation.
Proof.
  intro H. unfold route, match_id. cbn.
  rewrite (skip_id_whole id H), prefix_nil. reflexivity.
Qed.

Lemma route_send_chat_message (id : string) :
  is_id id = true ->
  route "POST" ("/chat/conversations/" ++ id ++ "/messages") = SendChatMessage.
Proof.
  intro H. unfold route, match_id. cbn.
  rewrite (skip_id_append id "/messages" H), prefix_nil by reflexivity. reflexivity.
Qed.

Lemma route_get_ticket (id : string) :
  is_id id = true -> route "GET" ("/support/tickets/" ++ id) = GetTicket.
Proof.
  intro H. unfold route, match_id. cbn.
  rewrite (skip_id_whole id H), prefix_nil. reflexivity.
Qed.

Lemma route_send_ticket_message (id : string) :
  is_id id = true ->
  route "POST" ("/support/tickets/" ++ id ++ "/messages") = SendTicketMessage.
Proof.
  intro H. unfold route, match_id. cbn.
  rewrite (skip_id_append id "/messages" H), prefix_nil by reflexivity. reflexivity.
Qed.

Lemma segment_conversation (id : string) :
  is_id id = true ->
  segment 3 ("/chat/conversations/" ++ id) = id
  /\ segment 3 ("/chat/conversations/" ++ id ++ "/messages") = id.
Proof.
  intro H. unfold segment. cbn.
  rewrite (split_slash_last id (is_id_all id H)).
  rewrite (split_slash_id id "messages" (is_id_all id H)). split; reflexivity.
Qed.

Lemma segment_ticket (id : string) :
  is_id id = true ->
  segment 3 ("/support/tickets/" ++ id) = id
  /\ segment 3 ("/support/tickets/" ++ id ++ "/messages") = id.
Proof.
  intro H. unfold segment. cbn.
  rewrite (split_slash_last id (is_id_all id H)).
  rewrite (split_slash_id id "messages" (is_id_all id H)). split; reflexivity.
Qed.

Lemma no_own_conversation (userId id : string) (t : Tables) :
  (forall c, In c (chat_conversations t) ->
             col c "id" = JStr id -> col c "seller_id" <> JStr userId) ->
  own_conversation userId id t = None.
Proof. intro H. unfold own_conversation. now rewrite (not_own_row userId id _ H). Qed.

Lemma no_own_ticket (userId id : string) (t : Tables) :
  (forall k, In k (support_tickets t) ->
             col k "id" = JStr id -> col k "user_id" <> JStr userId) ->
  own_ticket userId id t = None.
Proof.
  intro H. unfold own_ticket.
  rewrite (no_row "user_id" (text userId)); [reflexivity|].
  intros k Hk. apply filter_In in Hk. destruct Hk as [Hk Hid].
  apply pg_eq_text in Hid. now apply pg_eq_text_false, H.
Qed.

(** X23. A conversation or a ticket that is not the caller's (it does not
    exist, or it belongs to someone else) is answered 404 "Not found", both
    when it is read and when a message is sent to it, and nothing is
    written. *)
Theorem foreign_threads_are_not_found
    (rt : Runtime) (eng : Engine) (t : Tables) (req : Request) (userId id : string) :
  signed_in rt req userId ->
  is_id id = true ->
  ((forall c, In c (chat_conversations t) ->
              col c "id" = JStr id -> col c "seller_id" <> JStr userId) ->
   (asks req "GET" ("/chat/conversations/" ++ id) ->
    serve_all rt eng t req = (t, error_response 404 "Not found"))
   /\ (forall b,
         asks req "POST" ("/chat/conversations/" ++ id ++ "/messages") ->
         body req = inr b -> truthy (prop b "message") = true ->
         serve_all rt eng t req = (t, error_response 404 "Not found")))
  /\ ((forall k, In k (support_tickets t) ->
                 col k "id" = JStr id -> col k "user_id" <> JStr userId) ->
      (asks req "GET" ("/support/tickets/" ++ id) ->
       serve_all rt eng t req = (t, error_response 404 "Not found"))
      /\ (forall b,
            asks req "POST" ("/support/tickets/" ++ id ++ "/messages") ->
            body req = inr b -> truthy (prop b "message") = true ->
            serve_all rt eng t req = (t, error_response 404 "Not found"))).
Proof.
  intros Hin Hid.
  destruct (segment_conversation id Hid) as [Hc1 Hc2].
  destruct (segment_ticket id Hid) as [Hk1 Hk2].
  split; intro Hnone; split.
  - intro Hreq.
    rewrite (serve_all_block rt eng t req userId "GET" ("/chat/conversations/" ++ id)
               (get_conversation userId ("/chat/conversations/" ++ id)))
      by (assumption || discriminate || now rewrite route_get_conversation).
    unfold run_block, get_conversation.
    now rewrite Hc1, (no_own_conversation userId id t Hnone).
  - intros b Hreq Hbody Hmsg.
    assert (Hb : b <> JNull) by (intros ->; discriminate).
    rewrite (serve_all_block rt eng t req userId "POST"
               ("/chat/conversations/" ++ id ++ "/messages")
               (send_chat_message rt userId req
                  ("/chat/conversations/" ++ id ++ "/messages")))
      by (assumption || discriminate || now rewrite route_send_chat_message).
    unfold run_block, send_chat_message. rewrite (with_body_of_ok req b) by assumption.
    destruct (truthy_some _ Hmsg) as [m Hm]. rewrite Hm in *. rewrite Hmsg.
    now rewrite Hc2, (no_own_conversation userId id t Hnone).
  - intro Hreq.
    rewrite (serve_all_block rt eng t req userId "GET" ("/support/tickets/" ++ id)
               (get_ticket userId ("/support/tickets/" ++ id)))
      by (assumption || discriminate || now rewrite route_get_ticket).
    unfold run_block, get_ticket.
    now rewrite Hk1, (no_own_ticket userId id t Hnone).
  - intros b Hreq Hbody Hmsg.
    assert (Hb : b <> JNull) by (intros ->; discriminate).
    rewrite (serve_all_block rt eng t req userId "POST"
               ("/support/tickets/" ++ id ++ "/messages")
               (send_ticket_message rt userId req
                  ("/support/tickets/" ++ id ++ "/messages")))
      by (assumption || discriminate || now rewrite route_send_ticket_message).
    unfold run_block, send_ticket_message. rewrite (with_body_of_ok req b) by assumption.
    destruct (truthy_some _ Hmsg) as [m Hm]. rewrite Hm in *. rewrite Hmsg.
    now rewrite Hk2, (no_own_ticket userId id t Hnone).
Qed.

Lemma foreign_threads_are_not_found_witness :
  serve_all Sample.rt Desk.engine Desk.tables
    (Desk.ask "POST" Sample.alice "/chat/conversations/c2/messages"
       (JObj [("message", JStr "Hello")]))
  = (Desk.tables, error_response 404 "Not found")
  /\ serve_all Sample.rt Desk.engine Desk.tables
       (Desk.ask "GET" Sample.alice "/support/tickets/k1" JNull)
     = (Desk.tables, error_response 404 "Not found").
Proof.
  split.
  - destruct (foreign_threads_are_not_found Sample.rt Desk.engine Desk.tables
                (Desk.ask "POST" Sample.alice "/chat/conversations/c2/messages"
                   (JObj [("message", JStr "Hello")])) "alice" "c2") as [Hchat _].
    + exists "token-alice". split; reflexivity.
    + reflexivity.
    + destruct Hchat as [_ Hsend].
      * intros c [<-|[<-|[]]]; discriminate.
      * apply (Hsend (JObj [("message", JStr "Hello")])); [split | |]; reflexivity.
  - destruct (foreign_threads_are_not_found Sample.rt Desk.engine Desk.tables
                (Desk.ask "GET" Sample.alice "/support/tickets/k1" JNull) "alice" "k1")
      as [_ Hticket].
    + exists "token-alice". split; reflexivity.
    + reflexivity.
    + destruct Hticket as [Hget _].
      * intros k [<-|[]]; discriminate.
      * apply Hget. split; reflexivity.
Defined.

Lemma filter_map_same {A : Type} (p : A -> bool) (f : A -> A) (l : list A) :
  (forall x, p (f x) = p x) -> filter p (map f l) = map f (filter p l).
Proof.
  intro H. induction l as [|x l IH]; [reflexivity|].
  cbn [map filter]. rewrite H. destruct (p x); cbn [map]; now rewrite IH.
Qed.

(** The caller's own row, after an update that leaves ids and owners alone. *)
Lemma own_after_update (userId id : string) (changes : list (string * json))
    (sel : Row -> bool) (rows : list Row) (r : Row) :
  ~ In "id" (map fst changes) -> ~ In "seller_id" (map fst changes) ->
  filter (own userId id) rows = [r] ->
  filter (own userId id) (update changes sel rows)
  = [if sel r then patch changes r else r].
Proof.
  intros Hid Hseller Hr. unfold update. rewrite filter_map_same, Hr; [reflexivity|].
  intro x. destruct (sel x); [|reflexivity].
  unfold own. now rewrite !col_patch_other.
Qed.

(** X24. POST /chat/conversations/:id/messages with a text, to a
    conversation of the caller: one message is stored, of that conversation,
    sent by the caller as seller, its text cut to 2000 characters, and
    answered with status 201; the conversation is stamped with the time;
    and GET /chat/conversations/:id then shows the message among the
    messages of the conversation. *)
Theorem sent_message_is_in_the_conversation
    (rt : Runtime) (eng : Engine) (t : Tables) (req req' : Request)
    (userId id words : string) (b : json) (c : Row) :
  signed_in rt req userId ->
  asks req "POST" ("/chat/conversations/" ++ id ++ "/messages") ->
  is_id id = true ->
  body req = inr b ->
  prop b "message" = Some (JStr words) -> words <> "" ->
  unique_on "id" (chat_conversations t) ->
  In c (chat_conversations t) -> col c "id" = JStr id -> col c "seller_id" = JStr userId ->
  signed_in rt req' userId ->
  asks req' "GET" ("/chat/conversations/" ++ id) ->
  exists msg t',
    serve_all rt eng t req = (t', created (JObj msg))
    /\ chat_messages t' = (chat_messages t ++ [msg])%list
    /\ col msg "conversation_id" = JStr id
    /\ col msg "sender_id" = JStr userId
    /\ col msg "sender_type" = JStr "seller"
    /\ col msg "message" = JStr (slice0 2000 words)
    /\ ((forall p, In p (profiles t) -> col p "user_id" <> JStr userId) ->
        col msg "sender_name" = JStr "Seller")
    /\ (exists shown msgs,
          serve_all rt eng t' req' = (t', ok_200 (JObj shown))
          /\ col shown "id" = JStr id
          /\ col shown "last_message_at" = now_iso rt
          /\ col shown "messages" = rows_json msgs
          /\ In msg msgs).
Proof.
  intros Hin Hreq Hid Hbody Hmsg Hwords Hu Hc Hcid Hcseller Hin' Hreq'.
  assert (Hb : b <> JNull) by (intros ->; discriminate).
  destruct (segment_conversation id Hid) as [Hs1 Hs2].
  rewrite (serve_all_block rt eng t req userId "POST"
             ("/chat/conversations/" ++ id ++ "/messages")
             (send_chat_message rt userId req
                ("/chat/conversations/" ++ id ++ "/messages")))
    by (assumption || discriminate || now rewrite route_send_chat_message).
  unfold run_block, send_chat_message. rewrite (with_body_of_ok req b) by assumption.
  rewrite Hmsg, Hs2.
  assert (Htruthy : truthy (Some (JStr words)) = true).
  { cbn. destruct (String.eqb words "") eqn:E; [|reflexivity].
    apply String.eqb_eq in E. contradiction. }
  rewrite Htruthy.
  pose proof (own_row userId id _ c Hu Hc Hcid Hcseller) as Hown.
  unfold own_conversation at 1. rewrite Hown.
  cbn [single data ok slice_of obj_fields text].
  match goal with
  | |- context [insert ?row (chat_messages t)] => set (msg := row)
  end.
  match goal with
  | |- context [with_chat_conversations ?rows _] => set (convs := rows)
  end.
  exists msg. eexists. split; [reflexivity|].
  cbn [chat_messages with_chat_conversations used_id with_core with_chat_messages].
  split; [reflexivity|].
  split; [reflexivity|]. split; [reflexivity|]. split; [reflexivity|].
  split; [reflexivity|]. split.
  { intro Hnone. unfold msg, sender_name.
    rewrite (no_row "user_id" (text userId))
      by (intros p Hp; now apply pg_eq_text_false, Hnone).
    reflexivity. }
  rewrite (serve_all_block rt eng _ req' userId "GET" ("/chat/conversations/" ++ id)
             (get_conversation userId ("/chat/conversations/" ++ id)))
    by (assumption || discriminate || now rewrite route_get_conversation).
  unfold run_block, get_conversation, own_conversation. rewrite Hs1.
  cbn [chat_conversations chat_messages with_chat_conversations used_id with_core
       with_chat_messages].
  unfold convs, used_id.
  cbn [chat_conversations with_core with_chat_messages].
  rewrite (own_after_update userId id _ _ _ c) by (simpl; intuition discriminate || exact Hown).
  apply pg_eq_text in Hcid. rewrite Hcid. apply pg_eq_text in Hcid.
  cbn [single data ok success respond].
  eexists. eexists. split; [reflexivity|].
  rewrite !col_set_col_other by discriminate.
  split; [rewrite <- Hcid; apply col_patch_other; simpl; intuition discriminate|].
  split; [patched|].
  split; [apply col_set_col_same|].
  apply in_order. apply filter_In. split; [apply in_or_app; right; now left|].
  now apply pg_eq_text.
Qed.

Lemma sent_message_is_in_the_conversation_witness :
  exists msg t',
    serve_all Sample.rt Desk.engine Desk.tables
      (Desk.ask "POST" Sample.alice "/chat/conversations/c1/messages"
         (JObj [("message", JStr "It is blue.")]))
    = (t', created (JObj msg))
    /\ col msg "message" = JStr "It is blue."
    /\ exists shown msgs,
         serve_all Sample.rt Desk.engine t'
           (Desk.ask "GET" Sample.alice "/chat/conversations/c1" JNull)
         = (t', ok_200 (JObj shown))
         /\ col shown "messages" = rows_json msgs
         /\ In msg msgs.
Proof.
  destruct (sent_message_is_in_the_conversation Sample.rt Desk.engine Desk.tables
              (Desk.ask "POST" Sample.alice "/chat/conversations/c1/messages"
                 (JObj [("message", JStr "It is blue.")]))
              (Desk.ask "GET" Sample.alice "/chat/conversations/c1" JNull)
              "alice" "c1" "It is blue." (JObj [("message", JStr "It is blue.")])
              (nth 0 (chat_conversations Desk.tables) []))
    as (msg & t' & Hpost & _ & _ & _ & _ & Htext & _ & shown & msgs & Hget & _ & _ & Hm & Hin).
  - exists "token-alice". split; reflexivity.
  - split; reflexivity.
  - reflexivity.
  - reflexivity.
  - reflexivity.
  - discriminate.
  - distinct_keys.
  - simpl. now left.
  - reflexivity.
  - reflexivity.
  - exists "token-alice". split; reflexivity.
  - split; reflexivity.
  - exists msg, t'. split; [assumption|]. split; [exact Htext|].
    exists shown, msgs. repeat split; assumption.
Defined.

Lemma own_ticket_row (userId id : string) (t : Tables) (k : Row) :
  unique_on "id" (support_tickets t) ->
  In k (support_tickets t) -> col k "id" = JStr id -> col k "user_id" = JStr userId ->
  own_ticket userId id t = Some k.
Proof.
  intros Hu Hk Hid Huser. unfold own_ticket.
  rewrite (unique_row "id" (text id) _ k Hu Hk) by now apply pg_eq_text.
  cbn [eq filter]. apply pg_eq_text in Huser. now rewrite Huser.
Qed.

(** X25. POST /support/tickets/:id/messages with a text, to a ticket of the
    caller: one message is stored, of that ticket, sent by the caller and
    not as staff, its text cut to 5000 characters, and answered with status
    201; GET /support/tickets/:id then shows it among the messages of the
    ticket.  The status of the ticket is not changed. *)
Theorem sent_message_is_in_the_ticket
    (rt : Runtime) (eng : Engine) (t : Tables) (req req' : Request)
    (userId id words : string) (b : json) (k : Row) :
  signed_in rt req userId ->
  asks req "POST" ("/support/tickets/" ++ id ++ "/messages") ->
  is_id id = true ->
  body req = inr b ->
  prop b "message" = Some (JStr words) -> words <> "" ->
  unique_on "id" (support_tickets t) ->
  In k (support_tickets t) -> col k "id" = JStr id -> col k "user_id" = JStr userId ->
  signed_in rt req' userId ->
  asks req' "GET" ("/support/tickets/" ++ id) ->
  exists msg t',
    serve_all rt eng t req = (t', created (JObj msg))
    /\ support_messages t' = (support_messages t ++ [msg])%list
    /\ col msg "ticket_id" = JStr id
    /\ col msg "sender_id" = JStr userId
    /\ col msg "is_staff" = JBool false
    /\ col msg "message" = JStr (slice0 5000 words)
    /\ (exists shown msgs,
          serve_all rt eng t' req' = (t', ok_200 (JObj shown))
          /\ col shown "id" = JStr id
          /\ col shown "status" = col k "status"
          /\ col shown "messages" = rows_json msgs
          /\ In msg msgs).
Proof.
  intros Hin Hreq Hid Hbody Hmsg Hwords Hu Hk Hkid Hkuser Hin' Hreq'.
  assert (Hb : b <> JNull) by (intros ->; discriminate).
  destruct (segment_ticket id Hid) as [Hs1 Hs2].
  rewrite (serve_all_block rt eng t req userId "POST"
             ("/support/tickets/" ++ id ++ "/messages")
             (send_ticket_message rt userId req
                ("/support/tickets/" ++ id ++ "/messages")))
    by (assumption || discriminate || now rewrite route_send_ticket_message).
  unfold run_block, send_ticket_message. rewrite (with_body_of_ok req b) by assumption.
  rewrite Hmsg, Hs2.
  assert (Htruthy : truthy (Some (JStr words)) = true).
  { cbn. destruct (String.eqb words "") eqn:E; [|reflexivity].
    apply String.eqb_eq in E. contradiction. }
  rewrite Htruthy, (own_ticket_row userId id t k Hu Hk Hkid Hkuser).
  cbn [slice_of obj_fields text].
  match goal with
  | |- context [insert ?row (support_messages t)] => set (msg := row)
  end.
  match goal with
  | |- context [with_support_tickets ?rows _] => set (tickets := rows)
  end.
  exists msg. eexists. split; [reflexivity|].
  cbn [support_messages with_support_tickets used_id with_core with_support_messages].
  split; [reflexivity|].
  split; [reflexivity|]. split; [reflexivity|]. split; [reflexivity|].
  split; [reflexivity|].
  rewrite (serve_all_block rt eng _ req' userId "GET" ("/support/tickets/" ++ id)
             (get_ticket userId ("/support/tickets/" ++ id)))
    by (assumption || discriminate || now rewrite route_get_ticket).
  unfold run_block, get_ticket. rewrite Hs1.
  assert (Hown : own_ticket userId id
                   (with_support_tickets tickets
                      (used_id (with_support_messages (insert msg (support_messages t)) t)))
                 = Some (patch [("updated_at", now_iso rt)] k)).
  { unfold own_ticket, tickets, used_id.
    cbn [support_tickets with_support_tickets with_core with_support_messages].
    rewrite eq_update_same
      by (intros r Hr; apply pg_eq_text; apply pg_eq_text in Hr; rewrite <- Hr;
          apply col_patch_other; simpl; intuition discriminate).
    rewrite (unique_row "id" (text id) _ k Hu Hk) by now apply pg_eq_text.
    cbn [map eq filter].
    assert (E : pg_eq (col (patch [("updated_at", now_iso rt)] k) "user_id") (text userId)
                = true).
    { apply pg_eq_text. rewrite <- Hkuser. apply col_patch_other.
      simpl. intuition discriminate. }
    now rewrite E. }
  rewrite Hown. cbn [success respond].
  eexists. eexists. split; [reflexivity|].
  rewrite !col_set_col_other by discriminate.
  split; [rewrite <- Hkid; apply col_patch_other; simpl; intuition discriminate|].
  split; [apply col_patch_other; simpl; intuition discriminate|].
  split; [apply col_set_col_same|].
  apply in_order. apply filter_In. split; [apply in_or_app; right; now left|].
  now apply pg_eq_text.
Qed.

Lemma sent_message_is_in_the_ticket_witness :
  exists msg t',
    serve_all Sample.rt Desk.engine Desk.tables
      (Desk.ask "POST" Sample.bob "/support/tickets/k1/messages"
         (JObj [("message", JStr "Any news?")]))
    = (t', created (JObj msg))
    /\ col msg "message" = JStr "Any news?"
    /\ exists shown msgs,
         serve_all Sample.rt Desk.engine t'
           (Desk.ask "GET" Sample.bob "/support/tickets/k1" JNull)
         = (t', ok_200 (JObj shown))
         /\ col shown "status" = JStr "open"
         /\ In msg msgs.
Proof.
  destruct (sent_message_is_in_the_ticket Sample.rt Desk.engine Desk.tables
              (Desk.ask "POST" Sample.bob "/support/tickets/k1/messages"
                 (JObj [("message", JStr "Any news?")]))
              (Desk.ask "GET" Sample.bob "/support/tickets/k1" JNull)
              "bob" "k1" "Any news?" (JObj [("message", JStr "Any news?")])
              (nth 0 (support_tickets Desk.tables) []))
    as (msg & t' & Hpost & _ & _ & _ & _ & Htext & shown & msgs & Hget & _ & Hst & _ & Hin).
  - exists "token-bob". split; reflexivity.
  - split; reflexivity.
  - reflexivity.
  - reflexivity.
  - reflexivity.
  - discriminate.
  - distinct_keys.
  - simpl. now left.
  - reflexivity.
  - reflexivity.
  - exists "token-bob". split; reflexivity.
  - split; reflexivity.
  - exists msg, t'. split; [assumption|]. split; [exact Htext|].
    exists shown, msgs. repeat split; assumption.
Defined.

Lemma or_else_some (v : value) (d : json) :
  exists x, or_else v (Some d) = Some x /\ (truthy v = false -> x = d).
Proof.
  unfold or_else. destruct (truthy v) eqn:E.
  - destruct (truthy_some v E) as [x ->]. exists x. split; [reflexivity | discriminate].
  - exists d. split; reflexivity.
Qed.

Lemma truthy_text (s : string) : s <> "" -> truthy (Some (JStr s)) = true.
Proof.
  intro H. cbn. destruct (String.eqb s "") eqn:E; [|reflexivity].
  apply String.eqb_eq in E. contradiction.
Qed.

(** X26. POST /support/tickets with a subject and a first message, both
    texts: an open ticket of the caller is stored, its subject cut to 255
    characters, its priority "normal" unless one is given, and answered
    with status 201; the message, cut to 5000 characters, is stored with
    it; and GET /support/tickets/:id under the id answered shows the ticket
    with that message. *)
Theorem created_ticket_can_be_read
    (rt : Runtime) (eng : Engine) (t : Tables) (req req' : Request)
    (userId subject words : string) (b : json) :
  signed_in rt req userId ->
  asks req "POST" "/support/tickets" ->
  body req = inr b ->
  prop b "subject" = Some (JStr subject) -> subject <> "" ->
  prop b "message" = Some (JStr words) -> words <> "" ->
  is_id (fresh_id rt t) = true ->
  (forall k, In k (support_tickets t) -> col k "id" <> JStr (fresh_id rt t)) ->
  signed_in rt req' userId ->
  asks req' "GET" ("/support/tickets/" ++ fresh_id rt t) ->
  exists ticket first t',
    serve_all rt eng t req = (t', created (JObj ticket))
    /\ support_tickets t' = (support_tickets t ++ [ticket])%list
    /\ support_messages t' = (support_messages t ++ [first])%list
    /\ col ticket "id" = JStr (fresh_id rt t)
    /\ col ticket "user_id" = JStr userId
    /\ col ticket "subject" = JStr (slice0 255 subject)
    /\ col ticket "status" = JStr "open"
    /\ (truthy (prop b "priority") = false -> col ticket "priority" = JStr "normal")
    /\ col first "ticket_id" = JStr (fresh_id rt t)
    /\ col first "sender_id" = JStr userId
    /\ col first "message" = JStr (slice0 5000 words)
    /\ (exists msgs,
          serve_all rt eng t' req'
          = (t', ok_200 (JObj (set_col "messages" (rows_json msgs) ticket)))
          /\ In first msgs).
Proof.
  intros Hin Hreq Hbody Hsubject Hs Hmsg Hw Hid Hfresh Hin' Hreq'.
  assert (Hb : b <> JNull) by (intros ->; discriminate).
  rewrite (serve_all_block rt eng t req userId "POST" "/support/tickets"
             (create_ticket rt userId req))
    by (assumption || discriminate || reflexivity).
  unfold run_block, create_ticket. rewrite (with_body_of_ok req b) by assumption.
  rewrite Hsubject, (truthy_text subject Hs), Hmsg, (truthy_text words Hw).
  destruct (or_else_some (prop b "category") JNull) as (category & -> & _).
  destruct (or_else_some (prop b "priority") (JStr "normal")) as (priority & -> & Hp).
  cbn [slice_of obj_fields text].
  match goal with
  | |- context [insert ?row (support_tickets t)] => set (ticket := row)
  end.
  match goal with
  | |- context [insert ?row (support_messages _)] => set (first := row)
  end.
  exists ticket, first. eexists. split; [reflexivity|].
  cbn [support_tickets support_messages with_support_tickets with_support_messages
       used_id with_core].
  split; [reflexivity|]. split; [reflexivity|].
  split; [reflexivity|]. split; [reflexivity|]. split; [reflexivity|].
  split; [reflexivity|]. split; [exact Hp|].
  split; [reflexivity|]. split; [reflexivity|]. split; [reflexivity|].
  rewrite (serve_all_block rt eng _ req' userId "GET" ("/support/tickets/" ++ fresh_id rt t)
             (get_ticket userId ("/support/tickets/" ++ fresh_id rt t)))
    by (assumption || discriminate || now rewrite route_get_ticket).
  unfold run_block, get_ticket. rewrite (proj1 (segment_ticket _ Hid)).
  unfold own_ticket.
  cbn [support_tickets support_messages with_support_tickets with_support_messages
       used_id with_core].
  assert (Htid : pg_eq (col ticket "id") (text (fresh_id rt t)) = true)
    by now apply pg_eq_text.
  assert (Huser : pg_eq (col ticket "user_id") (text userId) = true)
    by now apply pg_eq_text.
  rewrite eq_insert, Htid, (no_row "id" (text (fresh_id rt t)))
    by (intros k Hk; now apply pg_eq_text_false, Hfresh).
  cbn [app eq filter]. rewrite Huser. cbn [single data ok success respond].
  eexists. split; [reflexivity|].
  apply in_order. apply filter_In. split; [apply in_or_app; right; now left|].
  now apply pg_eq_text.
Qed.

Lemma created_ticket_can_be_read_witness :
  exists ticket first t',
    serve_all Sample.rt Desk.engine Desk.tables
      (Desk.ask "POST" Sample.alice "/support/tickets"
         (JObj [("subject", JStr "Payout"); ("message", JStr "Where is it?")]))
    = (t', created (JObj ticket))
    /\ col ticket "id" = JStr "row-0"
    /\ col ticket "priority" = JStr "normal"
    /\ exists msgs,
         serve_all Sample.rt Desk.engine t'
           (Desk.ask "GET" Sample.alice "/support/tickets/row-0" JNull)
         = (t', ok_200 (JObj (set_col "messages" (rows_json msgs) ticket)))
         /\ In first msgs.
Proof.
  destruct (created_ticket_can_be_read Sample.rt Desk.engine Desk.tables
              (Desk.ask "POST" Sample.alice "/support/tickets"
                 (JObj [("subject", JStr "Payout"); ("message", JStr "Where is it?")]))
              (Desk.ask "GET" Sample.alice "/support/tickets/row-0" JNull)
              "alice" "Payout" "Where is it?"
              (JObj [("subject", JStr "Payout"); ("message", JStr "Where is it?")]))
    as (ticket & first & t' & Hpost & _ & _ & Hid & _ & _ & _ & Hp & _ & _ & _ & Hget).
  - exists "token-alice". split; reflexivity.
  - split; reflexivity.
  - reflexivity.
  - reflexivity.
  - discriminate.
  - reflexivity.
  - discriminate.
  - reflexivity.
  - intros k [<-|[]]. discriminate.
  - exists "token-alice". split; reflexivity.
  - split; reflexivity.
  - exists ticket, first, t'. split; [assumption|]. split; [exact Hid|].
    split; [now apply Hp | exact Hget].
Defined.

(** X27. POST /support/tickets writes in two steps and the first stays when
    the second fails: with a first message that is truthy but neither a
    text nor an array (a number, [true], an object) the ticket is stored,
    no message is, and the answer is a 500. *)
Theorem ticket_stays_when_its_message_fails
    (rt : Runtime) (eng : Engine) (t : Tables) (req : Request)
    (userId subject : string) (b m : json) :
  signed_in rt req userId ->
  asks req "POST" "/support/tickets" ->
  body req = inr b ->
  prop b "subject" = Some (JStr subject) -> subject <> "" ->
  prop b "message" = Some m -> truthy (Some m) = true -> slice_of 5000 m = None ->
  exists ticket t' r,
    serve_all rt eng t req = (t', r)
    /\ status r = 500%Z
    /\ support_tickets t' = (support_tickets t ++ [ticket])%list
    /\ support_messages t' = support_messages t
    /\ col ticket "user_id" = JStr userId
    /\ col ticket "subject" = JStr (slice0 255 subject).
Proof.
  intros Hin Hreq Hbody Hsubject Hs Hmsg Htruthy Hslice.
  assert (Hb : b <> JNull) by (intros ->; discriminate).
  rewrite (serve_all_block rt eng t req userId "POST" "/support/tickets"
             (create_ticket rt userId req))
    by (assumption || discriminate || reflexivity).
  unfold run_block, create_ticket. rewrite (with_body_of_ok req b) by assumption.
  rewrite Hsubject, (truthy_text subject Hs), Hmsg, Htruthy, Hslice.
  destruct (or_else_some (prop b "category") JNull) as (category & -> & _).
  destruct (or_else_some (prop b "priority") (JStr "normal")) as (priority & -> & _).
  cbn [slice_of obj_fields text].
  eexists. eexists. eexists. split; [reflexivity|].
  cbn [support_tickets support_messages with_support_tickets used_id with_core].
  repeat split.
Qed.

Lemma ticket_stays_when_its_message_fails_witness :
  exists ticket t' r,
    serve_all Sample.rt Desk.engine Desk.tables
      (Desk.ask "POST" Sample.alice "/support/tickets"
         (JObj [("subject", JStr "Payout"); ("message", Sample.n 42)]))
    = (t', r)
    /\ status r = 500%Z
    /\ support_tickets t' = (support_tickets Desk.tables ++ [ticket])%list
    /\ support_messages t' = support_messages Desk.tables.
Proof.
  destruct (ticket_stays_when_its_message_fails Sample.rt Desk.engine Desk.tables
              (Desk.ask "POST" Sample.alice "/support/tickets"
                 (JObj [("subject", JStr "Payout"); ("message", Sample.n 42)]))
              "alice" "Payout"
              (JObj [("subject", JStr "Payout"); ("message", Sample.n 42)])
              (Sample.n 42))
    as (ticket & t' & r & Hserve & Hstatus & Htickets & Hmessages & _).
  - exists "token-alice". split; reflexivity.
  - split; reflexivity.
  - reflexivity.
  - reflexivity.
  - discriminate.
  - reflexivity.
  - reflexivity.
  - reflexivity.
  - exists ticket, t', r. repeat split; assumption.
Defined.

(** X28. The three lists of the desk read and never write, and show rows of
    the caller only: GET /chat/conversations at most 50 conversations whose
    seller is the caller, GET /support/tickets at most 50 tickets whose user
    is the caller, GET /financial/integrations the integrations whose
    seller is the caller, all of them. *)
Theorem desk_lists_show_own_rows
    (rt : Runtime) (eng : Engine) (t : Tables) (req : Request) (userId : string) :
  signed_in rt req userId ->
  (asks req "GET" "/chat/conversations" ->
   exists items,
     serve_all rt eng t req = (t, ok_200 (rows_json items))
     /\ (List.length items <= 50)%nat
     /\ forall c, In c items ->
                  In c (chat_conversations t) /\ col c "seller_id" = JStr userId)
  /\ (asks req "GET" "/support/tickets" ->
      exists items,
        serve_all rt eng t req = (t, ok_200 (rows_json items))
        /\ (List.length items <= 50)%nat
        /\ forall k, In k items ->
                     In k (support_tickets t) /\ col k "user_id" = JStr userId)
  /\ (asks req "GET" "/financial/integrations" ->
      exists items,
        serve_all rt eng t req = (t, ok_200 (rows_json items))
        /\ forall i, In i items <->
                     In i (accounting_integrations t) /\ col i "seller_id" = JStr userId).
Proof.
  intro Hin. split; [|split]; intro Hreq.
  - rewrite (serve_all_block rt eng t req userId "GET" "/chat/conversations"
               (list_conversations userId))
      by (assumption || discriminate || reflexivity).
    unfold run_block, list_conversations. cbn [success respond].
    eexists. split; [reflexivity|]. split; [apply firstn_le_length|].
    intros c Hc. apply in_firstn, sorted_in, filter_In in Hc.
    destruct Hc as [Hc Hseller]. split; [assumption | now apply pg_eq_text].
  - rewrite (serve_all_block rt eng t req userId "GET" "/support/tickets"
               (list_tickets userId))
      by (assumption || discriminate || reflexivity).
    unfold run_block, list_tickets. cbn [success respond].
    eexists. split; [reflexivity|]. split; [apply firstn_le_length|].
    intros k Hk. apply in_firstn, order_in, filter_In in Hk.
    destruct Hk as [Hk Huser]. split; [assumption | now apply pg_eq_text].
  - rewrite (serve_all_block rt eng t req userId "GET" "/financial/integrations"
               (list_integrations userId))
      by (assumption || discriminate || reflexivity).
    unfold run_block, list_integrations. cbn [success respond].
    eexists. split; [reflexivity|].
    intro i. unfold eq. rewrite filter_In, pg_eq_text. reflexivity.
Qed.

Lemma desk_lists_show_own_rows_witness :
  exists items,
    serve_all Sample.rt Desk.engine Desk.tables
      (Desk.ask "GET" Sample.alice "/chat/conversations" JNull)
    = (Desk.tables, ok_200 (rows_json items))
    /\ (List.length items <= 50)%nat
    /\ forall c, In c items ->
                 In c (chat_conversations Desk.tables) /\ col c "seller_id" = JStr "alice".
Proof.
  destruct (desk_lists_show_own_rows Sample.rt Desk.engine Desk.tables
              (Desk.ask "GET" Sample.alice "/chat/conversations" JNull) "alice")
    as [Hchat _].
  - exists "token-alice". split; reflexivity.
  - apply Hchat. split; reflexivity.
Defined.

(** *** Every block *)

Ltac in_envelope :=
  try exact I;
  try (unfold enveloped; cbn [headers status payload];
       split; [reflexivity | split; [simpl; tauto | eexists; reflexivity]]).

Ltac unfold_blocks :=
  unfold get_store, create_store, update_store, list_products, create_product,
    update_product, delete_product, list_social, connect_social, disconnect_social,
    list_reviews, review_analytics, respond_review, set_review_status,
    requestable_orders, request_reviews, set_auto_request, get_auto_request,
    list_questions, answer_question, bulk_update_reviews, financial_dashboard,
    list_expenses, create_expense, update_expense, delete_expense, profit_loss,
    list_conversations, get_conversation, send_chat_message, list_tickets,
    create_ticket, get_ticket, send_ticket_message, instant_payout, list_integrations,
    connect_integration, tax_report, not_found,
    updated, failure, success, respond.

Lemma lift_snd (h : Handler) (t : Tables) : snd (lift h t) = snd (h (core t)).
Proof. unfold lift. now destruct (h (core t)). Qed.

Lemma lift_fst (h : Handler) (t : Tables) :
  fst (lift h t) = with_core (fst (h (core t))) t.
Proof. unfold lift. now destruct (h (core t)). Qed.

Lemma with_body_enveloped (req : Request) (k : json -> Handler) (db : Db) :
  (forall b, answers_enveloped (snd (k b db))) ->
  answers_enveloped (snd (with_body req k db)).
Proof.
  intro H. unfold with_body. destruct (body req) as [msg|b]; [exact I|].
  destruct b; try apply H. exact I.
Qed.

Lemma with_body_of_enveloped (req : Request) (k : json -> Block) (t : Tables) :
  (forall b, answers_enveloped (snd (k b t))) ->
  answers_enveloped (snd (with_body_of req k t)).
Proof.
  intro H. unfold with_body_of. destruct (body req) as [msg|b]; [exact I|].
  destruct b; try apply H. exact I.
Qed.

(** Runs through the branches of a block, down to what each one answers. *)
Ltac envelope_branches :=
  repeat (cbv beta iota zeta;
          first [ apply with_body_enveloped; intro
                | apply with_body_of_enveloped; intro
                | match goal with
                  | |- answers_enveloped (snd (match ?x with _ => _ end)) => destruct x
                  end ]);
  cbv beta iota zeta; cbn [snd answers_enveloped]; in_envelope.

(** Runs through the branches of a block, down to the tables each one leaves. *)
Ltac read_branches :=
  repeat (cbv beta iota zeta;
          match goal with
          | |- fst (match ?x with _ => _ end) = _ => destruct x
          | |- with_core (fst (match ?x with _ => _ end)) _ = _ => destruct x
          end);
  cbv beta iota zeta; cbn [fst]; try apply with_core_same; try reflexivity.

Lemma block_enveloped (rt : Runtime) (eng : Engine) (userId : string) (req : Request)
    (path : string) (r : Route) (t : Tables) :
  answers_enveloped (snd (block rt eng userId req path r t)).
Proof.
  destruct r; cbn [block handler]; rewrite ?lift_snd; unfold_blocks;
    envelope_branches.
Qed.

Lemma run_block_enveloped (h : Block) (t : Tables) :
  answers_enveloped (snd (h t)) -> enveloped (snd (run_block h t)).
Proof.
  unfold run_block. destruct (h t) as [t' [r|e]]; cbn [snd answers_enveloped].
  - auto.
  - intros _. destruct e; in_envelope.
Qed.

(** X29. Every answer is in one envelope.  The preflight apart (200, the
    CORS headers, no body), whatever the request and whatever the tables
    hold, the function answers JSON under the CORS headers, with one of
    the statuses 200, 201, 400, 401, 403, 404, 500 and 501, and the body is
    an object whose first property [success] is [true] exactly when the
    status is 200 or 201; this holds for the refusal of a caller without a
    token, for each block, for the catch-all 404 and for what the [catch]
    block makes of an exception. *)
Theorem every_answer_is_enveloped
    (rt : Runtime) (eng : Engine) (t : Tables) (req : Request) :
  (method req = "OPTIONS" ->
   serve_all rt eng t req = (t, mk_response 200 corsHeaders None))
  /\ (method req <> "OPTIONS" -> enveloped (snd (serve_all rt eng t req))).
Proof.
  unfold serve_all. split.
  - intros ->. reflexivity.
  - intro Hm. destruct (String.eqb (method req) "OPTIONS") eqn:E.
    { apply String.eqb_eq in E. contradiction. }
    destruct (Authorization req) as [h|]; [|cbn [snd]; in_envelope].
    destruct (negb (startsWith h "Bearer ")); [cbn [snd]; in_envelope|].
    destruct (getUser rt (remove_first "Bearer " h)) as [u|]; [|cbn [snd]; in_envelope].
    apply run_block_enveloped, block_enveloped.
Qed.

Lemma every_answer_is_enveloped_witness :
  enveloped
    (snd (serve_all Sample.rt Desk.engine Desk.tables
            {| method := "POST"; Authorization := Some "Bearer token-alice";
               pathname := "/store-api/support/tickets"; searchParams := [];
               body := inl "Unexpected end of JSON input" |})).
Proof.
  apply (every_answer_is_enveloped Sample.rt Desk.engine Desk.tables).
  discriminate.
Defined.

Lemma get_routes (path : string) : In (route "GET" path) reads.
Proof.
  unfold route, reads. cbn [String.eqb Ascii.eqb Bool.eqb andb].
  repeat match goal with
         | |- context [if ?c then _ else _] => destruct c
         end; simpl; tauto.
Qed.

Lemma read_block_writes_nothing (rt : Runtime) (eng : Engine) (userId : string)
    (req : Request) (path : string) (r : Route) (t : Tables) :
  In r reads -> fst (block rt eng userId req path r t) = t.
Proof.
  unfold reads. intro H. simpl in H.
  repeat (destruct H as [<-|H]); try contradiction;
    cbn [block handler]; rewrite ?lift_fst; unfold_blocks; read_branches.
Qed.

(** X30. A GET never writes: whatever the path and whatever the tables
    hold, every table is after the request what it was before, be the
    answer a 200, a 404 or a 500. *)
Theorem reads_write_nothing
    (rt : Runtime) (eng : Engine) (t : Tables) (req : Request) :
  method req = "GET" -> fst (serve_all rt eng t req) = t.
Proof.
  intro Hm. unfold serve_all. rewrite Hm. cbn [String.eqb Ascii.eqb Bool.eqb].
  destruct (Authorization req) as [h|]; [|reflexivity].
  destruct (negb (startsWith h "Bearer ")); [reflexivity|].
  destruct (getUser rt (remove_first "Bearer " h)) as [u|]; [|reflexivity].
  unfold run_block.
  pose proof (read_block_writes_nothing rt eng u req (route_path (pathname req))
                (route "GET" (route_path (pathname req))) t
                (get_routes (route_path (pathname req)))) as H.
  destruct (block rt eng u req (route_path (pathname req))
              (route "GET" (route_path (pathname req))) t) as [t' [r|e]];
    exact H.
Qed.

Lemma reads_write_nothing_witness :
  fst (serve_all Sample.rt Desk.engine Desk.tables
         (Desk.ask "GET" Sample.alice "/financial/reports/profit-loss" JNull))
  = Desk.tables.
Proof.
  apply (reads_write_nothing Sample.rt Desk.engine Desk.tables). reflexivity.
Defined.
